(** * CEE orchestration and health aggregation: a shallow embedding

    The Python sources embedded here are
      - [cee_vxsds_utils.py]          (CEEVxSDSManager),
      - [cee_network_utils.py]        (CEEOVSManager, monitor_cee_network_health),
      - [cee_openstack_client.py]     (CEEOpenStackClient),
      - [cee_integration_example.py]  (CEEOrchestrator).

    Conventions.
      - Python [int] is [Z].  A clock reading or a CPU share is a [float]
        that the code stores, subtracts and compares; it is kept as the
        rational it is ([Q]).  The quotient of two ints and what is
        computed from it is a binary64 value ([Float]), rounded and
        overflowing as in CPython.
      - An f-string is kept as the list of its literal parts and of the
        values interpolated into it ([Msg]); a float is never rendered.
      - Everything outside the four files (the clock, the storage gateway,
        the OpenStack SDK connection, the switch CLI) is an oracle of the
        [World]: the answer to the n-th external call is a function of n.
        Every external call is appended to a trace.
      - Python statements run in a state-and-exception monad in which the
        state reached so far survives a raised exception, as object
        mutations do in Python. *)

From Stdlib Require Import ZArith QArith Qround List String Ascii
  DecimalString Bool Lia.
Import ListNotations.
Open Scope string_scope.
Open Scope list_scope.
Open Scope Z_scope.

Set Implicit Arguments.

(** ** Python values *)

(** An exception object: its class name and [str(e)]. *)
Record Exn := mkExn { exn_type : string; exn_str : string }.

Definition NameError (name : string) : Exn :=
  mkExn "NameError" ("name '" ++ name ++ "' is not defined")%string.
Definition KeyError (key : string) : Exn :=
  mkExn "KeyError" ("'" ++ key ++ "'")%string.
Definition ZeroDivisionError : Exn :=
  mkExn "ZeroDivisionError" "division by zero".

Definition OverflowError : Exn :=
  mkExn "OverflowError" "integer division result too large for a float".

(** ** Floats that are computed

    A binary64 value: finite, with its sign and the rational its
    magnitude is (so that [-0.0] is [Finite true 0]), an infinity, or
    NaN. *)
Inductive Float :=
| Finite (negative : bool) (magnitude : Q)
| Infinity (negative : bool)
| NaN.

(** The integer nearest to [n / d], ties to even, for [0 <= n] and
    [0 < d]. *)
Definition round_half_even (n d : Z) : Z :=
  let q := n / d in
  let r := n mod d in
  if 2 * r <? d then q
  else if d <? 2 * r then q + 1
  else if Z.even q then q else q + 1.

(** [floor (log2 (n / d))] for [0 < n] and [0 < d]. *)
Definition floor_log2 (n d : Z) : Z :=
  let k := Z.log2 n - Z.log2 d in
  if (if 0 <=? k then d * 2 ^ k <=? n else d <=? n * 2 ^ (- k))
  then k else k - 1.

(** The binary64 magnitude nearest to [n / d] (ties to even) for
    [0 <= n] and [0 < d]: 53 bits above the exponent [e], which is not
    less than -1074; [None] when the rounded value reaches [2 ^ 1024]. *)
Definition nearest_double (n d : Z) : option Q :=
  if n =? 0 then Some (inject_Z 0)
  else
    let e := Z.max (floor_log2 n d - 52) (-1074) in
    let m := if 0 <=? e then round_half_even n (d * 2 ^ e)
             else round_half_even (n * 2 ^ (- e)) d in
    if (971 <? e) || ((e =? 971) && (2 ^ 53 <=? m)) then None
    else Some (if 0 <=? e then inject_Z (m * 2 ^ e)
               else Qmake m (Z.to_pos (2 ^ (- e)))).

(** [x * y] on floats *)
Definition float_mul (x y : Float) : Float :=
  match x, y with
  | NaN, _ | _, NaN => NaN
  | Infinity s, Infinity t => Infinity (xorb s t)
  | Infinity s, Finite t m | Finite t m, Infinity s =>
      if Qeq_bool m (inject_Z 0) then NaN else Infinity (xorb s t)
  | Finite s m, Finite t k =>
      match nearest_double (Qnum (m * k)) (Zpos (Qden (m * k))) with
      | Some p => Finite (xorb s t) p
      | None => Infinity (xorb s t)
      end
  end.

(** [x < n] for a float [x] and an int [n]: the comparison is exact. *)
Definition float_lt_int (x : Float) (n : Z) : bool :=
  match x with
  | Finite negative m =>
      negb (Qle_bool (inject_Z n) (if negative then - m else m))
  | Infinity negative => negative
  | NaN => false
  end.

(** The parts of an f-string. *)
#[warnings="-register-all"] Inductive Frag :=
| Txt (s : string)      (* literal text, or an interpolated [str] *)
| Int (z : Z)           (* [{n}] of an int *)
| Flt (q : Q)           (* [{x}] of a float *)
| Fix1 (x : Float)      (* [{x:.1f}] of a float *)
| Lst (xs : list (list Frag)).   (* [{xs}] of a list of strings *)

Definition Msg := list Frag.

(** A [dict] with string keys, in insertion order. *)
Definition dict (V : Type) := list (string * V).

Fixpoint dict_get {V} (d : dict V) (k : string) : option V :=
  match d with
  | [] => None
  | (k', v) :: d' => if String.eqb k' k then Some v else dict_get d' k
  end.

Fixpoint dict_set {V} (d : dict V) (k : string) (v : V) : dict V :=
  match d with
  | [] => [(k, v)]
  | (k', v') :: d' =>
      if String.eqb k' k then (k, v) :: d' else (k', v') :: dict_set d' k v
  end.

Definition dict_keys {V} (d : dict V) : list string := map fst d.

(** Truthiness of an optional list ([None] and [[]] are falsy). *)
Definition truthy_list {A} (o : option (list A)) : bool :=
  match o with
  | Some (_ :: _) => true
  | _ => false
  end.

(** [xs or []] *)
Definition or_empty {A} (o : option (list A)) : list A :=
  match o with
  | Some xs => xs
  | None => []
  end.

Definition Qlt_bool (x y : Q) : bool := negb (Qle_bool y x).

(** ** The monad of Python statements *)

Inductive Res (A : Type) :=
| Ret (a : A)
| Raise (e : Exn).
Arguments Ret {A} a.
Arguments Raise {A} e.

Definition MS (S A : Type) := S -> Res A * S.

Definition ret {S A} (a : A) : MS S A := fun s => (Ret a, s).

Definition bind {S A B} (m : MS S A) (k : A -> MS S B) : MS S B :=
  fun s =>
    match m s with
    | (Ret a, s') => k a s'
    | (Raise e, s') => (Raise e, s')
    end.

Definition raise {S A} (e : Exn) : MS S A := fun s => (Raise e, s).

(** [try: body / except Exception as e: handler e] *)
Definition try_except {S A} (body : MS S A) (handler : Exn -> MS S A)
  : MS S A :=
  fun s =>
    match body s with
    | (Ret a, s') => (Ret a, s')
    | (Raise e, s') => handler e s'
    end.

Definition get {S} : MS S S := fun s => (Ret s, s).
Definition modify {S} (f : S -> S) : MS S unit := fun s => (Ret tt, f s).

Declare Scope py_scope.
Delimit Scope py_scope with py.
Notation "x <- m ;; k" := (bind m (fun x => k))
  (at level 61, m at next level, right associativity) : py_scope.
Notation "m ;; k" := (bind m (fun _ => k))
  (at level 61, right associativity) : py_scope.
Open Scope py_scope.

(** [for x in xs: body x] *)
Fixpoint for_each {S A} (xs : list A) (body : A -> MS S unit) : MS S unit :=
  match xs with
  | [] => ret tt
  | x :: xs' => body x ;; for_each xs' body
  end.

(** A function body that mutates a local object [L] (the dict it builds
    and returns) next to the global state runs on pairs; [on_global] runs
    a callee that knows nothing of the local object. *)
Definition on_global {G L A} (m : MS G A) : MS (G * L) A :=
  fun s =>
    match m (fst s) with
    | (r, g') => (r, (g', snd s))
    end.

Definition local {G L} : MS (G * L) L := fun s => (Ret (snd s), s).

Definition update {G L} (f : L -> L) : MS (G * L) unit :=
  fun s => (Ret tt, (fst s, f (snd s))).

Definition with_local {G L A} (l0 : L) (m : MS (G * L) A) : MS G A :=
  fun g =>
    match m (g, l0) with
    | (r, (g', _)) => (r, g')
    end.

(** [a / b] on ints: the binary64 value nearest to the quotient, and
    [OverflowError] when that is too large for a float. *)
Definition truediv {S} (a b : Z) : MS S Float :=
  if b =? 0 then raise ZeroDivisionError
  else
    match nearest_double (Z.abs a) (Z.abs b) with
    | Some m => ret (Finite (xorb (a <? 0) (b <? 0)) m)
    | None => raise OverflowError
    end.

(** ** cee_vxsds_utils.py: data classes *)

Record VxSDSVolumeInfo := {
  vol_id : string;
  vol_name : string;
  size_gb : Z;
  storage_pool : string;
  vol_protection_domain : string;
  volume_type : string;
  creation_time : option string;
  mapped_sdcs : option (list string)
}.

Record VxSDSStoragePoolInfo := {
  pool_id : string;
  pool_name : string;
  pool_protection_domain : string;
  media_type : string;
  capacity_gb : Z;
  free_capacity_gb : Z;
  num_volumes : Z;
  spare_percentage : Z
}.

Record VxSDSNodeInfo := {
  node_id : string;
  node_name : string;
  ip_addresses : list string;
  role : string;
  state : string;
  version : string
}.

(** A protection domain is an opaque JSON object; only its id is kept. *)
Definition ProtectionDomain := string.

(** ** The outside world *)

(** Calls of the OpenStack SDK connection ([self.conn]). *)
Inductive ConnCall :=
| create_project (name : string)
| create_user (name : string)
| find_role (name : string)
| assign_project_role_to_user
| create_network (name : string)
| create_subnet (name : string)
| create_router (name : string)
| add_interface_to_router
| create_security_group (name : string)
| create_security_group_rule (port : Z)
| find_image (name : string)
| find_flavor (name : string)
| find_network (name : string)
| create_volume (name : string)
| wait_for_status
| create_server (name : string)
| wait_for_server
| ports (device_id : string)
| create_qos_policy
| create_qos_bandwidth_limit_rule
| create_qos_minimum_bandwidth_rule
| update_port (port_id : string)
| cluster_services
| identity_projects.

(** Every call that leaves the four source files. *)
Inductive Call :=
| time_time
| get_protection_domains
| get_storage_pools
| get_volumes
| get_sdc_nodes
| get_sds_nodes
| conn (c : ConnCall)
| get_system_info
| ovs_commands (what : string).

(** An SDK resource (project, network, server, ...): its [id]; [find_*]
    calls answer [None] when nothing is found. *)
Definition Handle := string.

(** What one run of the [try] block of [monitor_ovs_performance] reads
    from the switch CLI and from [ps aux]: per listed bridge its number of
    ports, and the CPU and memory share of [ovs-vswitchd] where a line of
    the process list gave them. *)
Record SwitchReading := {
  seen_bridges : dict Z;
  seen_cpu : option Q;
  seen_memory : option Q
}.

(** What [discover_cee_topology] returns, as far as it is read here: the
    keys of its ["bridges"] entry. *)
Record Topology := { topo_bridges : list string }.

Record World := {
  clock : nat -> Q;
  protection_domains_at : nat -> Res (list ProtectionDomain);
  storage_pools_at : nat -> Res (list VxSDSStoragePoolInfo);
  volumes_at : nat -> Res (list VxSDSVolumeInfo);
  sdc_nodes_at : nat -> Res (list VxSDSNodeInfo);
  sds_nodes_at : nat -> Res (list VxSDSNodeInfo);
  conn_at : nat -> ConnCall -> Res (option Handle);
  ports_at : nat -> Res (list Handle);
  cluster_at : nat -> Res (dict Z);
  projects_at : nat -> Res (list Handle);
  system_info_at : nat -> Res (option string);
  list_br_at : nat -> bool * list string;
  switch_at : nat -> SwitchReading;
  topology_at : nat -> Topology
}.

(** The global state: the trace of external calls and the fields of the
    one [CEEVxSDSManager] instance. *)
Record State := {
  trace : list Call;
  _protection_domains_cache : option (list ProtectionDomain);
  _storage_pools_cache : option (list VxSDSStoragePoolInfo);
  _cache_time : Q;
  _cache_ttl : Q
}.

(** [CEEVxSDSManager.__init__] *)
Definition init_state : State := {|
  trace := [];
  _protection_domains_cache := None;
  _storage_pools_cache := None;
  _cache_time := 0;
  _cache_ttl := 300
|}.

Definition record_call (c : Call) (st : State) : State := {|
  trace := trace st ++ [c];
  _protection_domains_cache := _protection_domains_cache st;
  _storage_pools_cache := _storage_pools_cache st;
  _cache_time := _cache_time st;
  _cache_ttl := _cache_ttl st
|}.

Definition set_protection_domains_cache (v : list ProtectionDomain)
    (st : State) : State := {|
  trace := trace st;
  _protection_domains_cache := Some v;
  _storage_pools_cache := _storage_pools_cache st;
  _cache_time := _cache_time st;
  _cache_ttl := _cache_ttl st
|}.

Definition set_storage_pools_cache (v : list VxSDSStoragePoolInfo)
    (st : State) : State := {|
  trace := trace st;
  _protection_domains_cache := _protection_domains_cache st;
  _storage_pools_cache := Some v;
  _cache_time := _cache_time st;
  _cache_ttl := _cache_ttl st
|}.

Definition set_cache_time (t : Q) (st : State) : State := {|
  trace := trace st;
  _protection_domains_cache := _protection_domains_cache st;
  _storage_pools_cache := _storage_pools_cache st;
  _cache_time := t;
  _cache_ttl := _cache_ttl st
|}.

(** The n-th external call is answered by the oracle at n and logged. *)
Definition external {A} (c : Call) (answer : nat -> Res A) : MS State A :=
  fun st => (answer (List.length (trace st)), record_call c st).

(** ** cee_vxsds_utils.py: summaries and reports *)

Record PoolSummary := {
  ps_capacity_gb : Z;
  ps_free_capacity_gb : Z;
  ps_num_volumes : Z;
  ps_media_type : string
}.

Record TypeStats := { ts_count : Z; ts_size_gb : Z }.

Record VolumeStats := {
  total_count : Z;
  total_size_gb : Z;
  by_type : dict TypeStats;
  mapped_count : Z
}.

Record NodeStats := {
  sdc_count : Z;
  sds_count : Z;
  sdc_online : Z;
  sds_online : Z
}.

Record Capacity := { total_gb : Z; free_gb : Z; used_gb : Z }.

Record StorageSummary := {
  timestamp : Q;
  protection_domains : Z;
  storage_pools : dict PoolSummary;
  volumes : VolumeStats;
  nodes : NodeStats;
  capacity : Capacity
}.

Record HealthReport := {
  hr_timestamp : Q;
  overall_status : string;
  issues : list Msg;
  warnings : list Msg;
  metrics : option StorageSummary
}.

Definition len {A} (xs : list A) : Z := Z.of_nat (List.length xs).

(** The pool loop of [get_cee_storage_summary]: one iteration. *)
Definition add_pool (acc : dict PoolSummary * Z * Z)
    (pool : VxSDSStoragePoolInfo) : dict PoolSummary * Z * Z :=
  match acc with
  | (pools, total, free) =>
      (dict_set pools (pool_name pool)
         {| ps_capacity_gb := capacity_gb pool;
            ps_free_capacity_gb := free_capacity_gb pool;
            ps_num_volumes := num_volumes pool;
            ps_media_type := media_type pool |},
       total + capacity_gb pool,
       free + free_capacity_gb pool)
  end.

(** The volume loop of [get_cee_storage_summary]: one iteration. *)
Definition add_volume (acc : dict TypeStats * Z)
    (volume : VxSDSVolumeInfo) : dict TypeStats * Z :=
  match acc with
  | (types, mapped) =>
      let types1 :=
        match dict_get types (volume_type volume) with
        | None =>
            dict_set types (volume_type volume)
              {| ts_count := 0; ts_size_gb := 0 |}
        | Some _ => types
        end in
      let types2 :=
        match dict_get types1 (volume_type volume) with
        | Some t =>
            dict_set types1 (volume_type volume)
              {| ts_count := ts_count t + 1;
                 ts_size_gb := ts_size_gb t + size_gb volume |}
        | None => types1
        end in
      (types2, if truthy_list (mapped_sdcs volume) then mapped + 1 else mapped)
  end.

Definition sum_Z (xs : list Z) : Z := fold_left Z.add xs 0.

Definition count_state (s : string) (ns : list VxSDSNodeInfo) : Z :=
  len (filter (fun n => String.eqb (state n) s) ns).

Definition nonempty {A} (xs : list A) : bool :=
  match xs with
  | [] => false
  | _ :: _ => true
  end.

Definition set_overall_status (v : string) (r : HealthReport) : HealthReport :=
  {| hr_timestamp := hr_timestamp r; overall_status := v;
     issues := issues r; warnings := warnings r; metrics := metrics r |}.

Definition set_issues (v : list Msg) (r : HealthReport) : HealthReport :=
  {| hr_timestamp := hr_timestamp r; overall_status := overall_status r;
     issues := v; warnings := warnings r; metrics := metrics r |}.

Definition set_warnings (v : list Msg) (r : HealthReport) : HealthReport :=
  {| hr_timestamp := hr_timestamp r; overall_status := overall_status r;
     issues := issues r; warnings := v; metrics := metrics r |}.

Definition set_metrics (v : StorageSummary) (r : HealthReport) : HealthReport :=
  {| hr_timestamp := hr_timestamp r; overall_status := overall_status r;
     issues := issues r; warnings := warnings r; metrics := Some v |}.

(** The messages of [monitor_vxsds_health]. *)
Definition no_sdc_nodes : Msg := [Txt "Нет доступных SDC узлов"].
Definition no_sds_nodes : Msg := [Txt "Нет доступных SDS узлов"].
Definition sdc_not_all_online (online count : Z) : Msg :=
  [Txt "Не все SDC узлы онлайн: "; Int online; Txt "/"; Int count].
Definition sds_not_all_online (online count : Z) : Msg :=
  [Txt "Не все SDS узлы онлайн: "; Int online; Txt "/"; Int count].
Definition critically_low_space (free_percentage : Float) : Msg :=
  [Txt "Критически мало свободного места: "; Fix1 free_percentage; Txt "%"].
Definition low_space (free_percentage : Float) : Msg :=
  [Txt "Мало свободного места: "; Fix1 free_percentage; Txt "%"].
Definition monitoring_error (e : Exn) : Msg :=
  [Txt "Ошибка мониторинга: "; Txt (exn_str e)].

Module CEEVxSDSManager.
Section WithWorld.

Variable w : World.

Definition _update_cache : MS State unit :=
  current_time <- external time_time (fun n => Ret (clock w n)) ;;
  st <- get ;;
  if Qlt_bool (_cache_ttl st) (current_time - _cache_time st)
  then
    pds <- external get_protection_domains (protection_domains_at w) ;;
    modify (set_protection_domains_cache pds) ;;
    pools <- external get_storage_pools (storage_pools_at w) ;;
    modify (set_storage_pools_cache pools) ;;
    modify (set_cache_time current_time)
  else ret tt.

Definition get_cee_storage_summary : MS State StorageSummary :=
  _update_cache ;;
  now <- external time_time (fun n => Ret (clock w n)) ;;
  st <- get ;;
  let pools := or_empty (_storage_pools_cache st) in
  let folded := fold_left add_pool pools ([], 0, 0) in
  let total := snd (fst folded) in
  let free := snd folded in
  let cap := {| total_gb := total; free_gb := free; used_gb := total - free |} in
  vols <- external get_volumes (volumes_at w) ;;
  let vfolded := fold_left add_volume vols ([], 0) in
  let volume_stats := {|
    total_count := len vols;
    total_size_gb := sum_Z (map size_gb vols);
    by_type := fst vfolded;
    mapped_count := snd vfolded |} in
  sdc_nodes <- external get_sdc_nodes (sdc_nodes_at w) ;;
  sds_nodes <- external get_sds_nodes (sds_nodes_at w) ;;
  ret {|
    timestamp := now;
    protection_domains := len (or_empty (_protection_domains_cache st));
    storage_pools := fst (fst folded);
    volumes := volume_stats;
    nodes := {|
      sdc_count := len sdc_nodes;
      sds_count := len sds_nodes;
      sdc_online := count_state "Connected" sdc_nodes;
      sds_online := count_state "Normal" sds_nodes |};
    capacity := cap |}.

(** The node checks of [monitor_vxsds_health]: the two [if]/[elif] pairs
    that append to the local lists [issues] and [warnings]. *)
Definition check_nodes (summary : StorageSummary) : list Msg * list Msg :=
  let issues0 : list Msg := [] in
  let warnings0 : list Msg := [] in
  let iw1 :=
    if sdc_count (nodes summary) =? 0
    then (issues0 ++ [no_sdc_nodes], warnings0)
    else if sdc_online (nodes summary) <? sdc_count (nodes summary)
    then (issues0,
          warnings0 ++ [sdc_not_all_online (sdc_online (nodes summary))
                                           (sdc_count (nodes summary))])
    else (issues0, warnings0) in
  if sds_count (nodes summary) =? 0
  then (fst iw1 ++ [no_sds_nodes], snd iw1)
  else if sds_online (nodes summary) <? sds_count (nodes summary)
  then (fst iw1,
        snd iw1 ++ [sds_not_all_online (sds_online (nodes summary))
                                       (sds_count (nodes summary))])
  else iw1.

(** The free-space check of [monitor_vxsds_health]. *)
Definition check_free_space {S} (summary : StorageSummary)
    (iw : list Msg * list Msg) : MS S (list Msg * list Msg) :=
  if total_gb (capacity summary) >? 0
  then
    q <- truediv (free_gb (capacity summary)) (total_gb (capacity summary)) ;;
    let free_percentage := float_mul q (Finite false (inject_Z 100)) in
    if float_lt_int free_percentage 10
    then ret (fst iw ++ [critically_low_space free_percentage], snd iw)
    else if float_lt_int free_percentage 20
    then ret (fst iw, snd iw ++ [low_space free_percentage])
    else ret iw
  else ret iw.

Definition monitor_vxsds_health : MS State HealthReport :=
  now <- external time_time (fun n => Ret (clock w n)) ;;
  with_local
    {| hr_timestamp := now; overall_status := "healthy";
       issues := []; warnings := []; metrics := None |}
    (try_except
       (summary <- on_global get_cee_storage_summary ;;
        update (set_metrics summary) ;;
        iw <- check_free_space summary (check_nodes summary) ;;
        update (set_issues (fst iw)) ;;
        update (set_warnings (snd iw)) ;;
        if nonempty (fst iw) then update (set_overall_status "critical")
        else if nonempty (snd iw) then update (set_overall_status "warning")
        else ret tt)
       (fun e =>
          update (set_overall_status "error") ;;
          update (set_issues [monitoring_error e])) ;;
     local).

End WithWorld.
End CEEVxSDSManager.

(** ** cee_network_utils.py *)

(** The names bound at module level of [cee_network_utils.py]: its imports
    (lines 12-17 import [subprocess], [json], [logging], [re], the typing
    names and [dataclass]), its classes and functions, and, only once the
    file has run as a script and reached the [import time] under
    [if __name__ == "__main__":], the name [time]. *)
Definition network_utils_globals (run_as_main : bool) : list string :=
  ["subprocess"; "json"; "logging"; "re";
   "Dict"; "List"; "Optional"; "Tuple"; "dataclass";
   "OVSBridgeInfo"; "OVSPortInfo"; "CEEOVSManager"; "CEENetworkTopology";
   "setup_cee_standard_bridges"; "monitor_cee_network_health"]
  ++ (if run_as_main then ["time"] else []).

(** Evaluating a global name. *)
Definition global_name {S} (globals : list string) (name : string)
  : MS S unit :=
  if existsb (String.eqb name) globals then ret tt
  else raise (NameError name).

Record PerformanceData := {
  perf_timestamp : Q;
  bridges : dict Z;
  cpu_usage : dict Q;
  memory_usage : dict Q
}.

Record NetworkHealthReport := {
  nh_timestamp : Q;
  nh_overall_status : string;
  nh_issues : list Msg;
  nh_performance : option PerformanceData;
  nh_topology : option Topology
}.

Definition set_reading (r : SwitchReading) (p : PerformanceData)
  : PerformanceData :=
  {| perf_timestamp := perf_timestamp p;
     bridges := seen_bridges r;
     cpu_usage :=
       match seen_cpu r with
       | Some c => dict_set (cpu_usage p) "ovs_vswitchd" c
       | None => cpu_usage p
       end;
     memory_usage :=
       match seen_memory r with
       | Some m => dict_set (memory_usage p) "ovs_vswitchd" m
       | None => memory_usage p
       end |}.

Definition set_nh_overall_status (v : string) (r : NetworkHealthReport)
  : NetworkHealthReport :=
  {| nh_timestamp := nh_timestamp r; nh_overall_status := v;
     nh_issues := nh_issues r; nh_performance := nh_performance r;
     nh_topology := nh_topology r |}.

Definition set_nh_issues (v : list Msg) (r : NetworkHealthReport)
  : NetworkHealthReport :=
  {| nh_timestamp := nh_timestamp r; nh_overall_status := nh_overall_status r;
     nh_issues := v; nh_performance := nh_performance r;
     nh_topology := nh_topology r |}.

Definition set_nh_performance (v : PerformanceData) (r : NetworkHealthReport)
  : NetworkHealthReport :=
  {| nh_timestamp := nh_timestamp r; nh_overall_status := nh_overall_status r;
     nh_issues := nh_issues r; nh_performance := Some v;
     nh_topology := nh_topology r |}.

Definition set_nh_topology (v : Topology) (r : NetworkHealthReport)
  : NetworkHealthReport :=
  {| nh_timestamp := nh_timestamp r; nh_overall_status := nh_overall_status r;
     nh_issues := nh_issues r; nh_performance := nh_performance r;
     nh_topology := Some v |}.

Definition missing_bridge (bridge : string) : Msg :=
  [Txt "Отсутствует обязательный мост: "; Txt bridge].
Definition high_vswitchd_cpu (cpu : Q) : Msg :=
  [Txt "Высокая загрузка CPU ovs-vswitchd: "; Flt cpu; Txt "%"].

Definition contains (xs : list string) (x : string) : bool :=
  existsb (String.eqb x) xs.

Module CEEOVSManager.
Section WithWorld.

Variable w : World.
Variable globals : list string.

(** The dict literal that opens the function evaluates [time.time()]
    before the [try] statement is entered.  The [try] block runs switch
    commands through [_run_ovs_command], which returns a flag instead of
    raising, and its own handlers swallow whatever else is raised; all
    it does to [performance_data] is to fill the three dicts, which is
    embedded as one reading of the switch. *)
Definition monitor_ovs_performance : MS State PerformanceData :=
  global_name globals "time" ;;
  now <- external time_time (fun n => Ret (clock w n)) ;;
  with_local
    {| perf_timestamp := now; bridges := []; cpu_usage := [];
       memory_usage := [] |}
    (try_except
       (reading <- on_global
          (external (ovs_commands "monitor_ovs_performance")
                    (fun n => Ret (switch_at w n))) ;;
        update (set_reading reading))
       (fun e => ret tt) ;;
     local).

End WithWorld.
End CEEOVSManager.

Module CEENetworkTopology.
Section WithWorld.

Variable w : World.

(** [discover_cee_topology] catches every exception of its body and
    returns the topology built so far. *)
Definition discover_cee_topology : MS State Topology :=
  external (ovs_commands "discover_cee_topology")
           (fun n => Ret (topology_at w n)).

End WithWorld.
End CEENetworkTopology.

Section NetworkHealth.

Variable w : World.
Variable globals : list string.

Definition monitor_cee_network_health : MS State NetworkHealthReport :=
  global_name globals "time" ;;
  now <- external time_time (fun n => Ret (clock w n)) ;;
  with_local
    {| nh_timestamp := now; nh_overall_status := "healthy"; nh_issues := [];
       nh_performance := None; nh_topology := None |}
    (try_except
       (topo_data <- on_global (CEENetworkTopology.discover_cee_topology w) ;;
        update (set_nh_topology topo_data) ;;
        perf_data <- on_global
          (CEEOVSManager.monitor_ovs_performance w globals) ;;
        update (set_nh_performance perf_data) ;;
        let issues0 : list Msg := [] in
        let required_bridges := ["br-int"] in
        let issues1 :=
          fold_left
            (fun acc bridge =>
               if negb (contains (topo_bridges topo_data) bridge)
               then acc ++ [missing_bridge bridge] else acc)
            required_bridges issues0 in
        let issues2 :=
          match dict_get (cpu_usage perf_data) "ovs_vswitchd" with
          | Some cpu =>
              if Qlt_bool (inject_Z 80) cpu
              then issues1 ++ [high_vswitchd_cpu cpu] else issues1
          | None => issues1
          end in
        update (set_nh_issues issues2) ;;
        if nonempty issues2
        then update (set_nh_overall_status
                       (if len issues2 <=? 2 then "warning" else "critical"))
        else ret tt)
       (fun e =>
          update (set_nh_overall_status "error") ;;
          r <- local ;;
          update (set_nh_issues (nh_issues r ++ [monitoring_error e]))) ;;
     local).

End NetworkHealth.

(** ** cee_openstack_client.py *)

(** A Python object reference: an SDK resource or [None]. *)
Definition Obj := option Handle.

Definition AttributeError (attr : string) : Exn :=
  mkExn "AttributeError"
        ("'NoneType' object has no attribute '" ++ attr ++ "'")%string.
Definition ValueError (msg : string) : Exn := mkExn "ValueError" msg.

(** [o.attr] on an object reference *)
Definition attr {S} (o : Obj) (name : string) : MS S Handle :=
  match o with
  | Some h => ret h
  | None => raise (AttributeError name)
  end.

(** [d[key]] on a dict entry that may be absent *)
Definition item {S A} (entry : option A) (key : string) : MS S A :=
  match entry with
  | Some v => ret v
  | None => raise (KeyError key)
  end.

Definition is_some {A} (o : option A) : bool :=
  match o with
  | Some _ => true
  | None => false
  end.

(** Truthiness of an optional string and of an optional int. *)
Definition truthy_str (o : option string) : bool :=
  match o with
  | Some s => negb (String.eqb s "")
  | None => false
  end.

Definition truthy_int (o : option Z) : bool :=
  match o with
  | Some z => negb (z =? 0)
  | None => false
  end.

Definition default {A} (d : A) (o : option A) : A :=
  match o with
  | Some v => v
  | None => d
  end.

(** [str(x)] of an optional string *)
Definition str_opt (o : option string) : string := default "None" o.

Record VmResult := {
  vm_status : string;
  vm_message : option string;
  vm_server : option Obj;
  vm_volume : option Obj
}.

Record NetworkResult := {
  nr_status : string;
  nr_message : option string;
  nr_network : option Obj;
  nr_subnet : option Obj
}.

Record QosResult := {
  qr_status : string;
  qr_message : option string
}.

Record ClusterStatusResult := {
  cs_status : string;
  cs_message : option string;
  cluster_status : option (dict Z)
}.

Record TenantSetupResult := {
  tsr_status : string;
  tsr_message : option string;
  tenant_setup : option (dict Obj)
}.

Module CEEOpenStackClient.
Section WithWorld.

Variable w : World.

(** A call on [self.conn]. *)
Definition sdk (c : ConnCall) : MS State Obj :=
  external (conn c) (fun n => conn_at w n c).

Definition create_vm_with_vxsds_storage
    (name image flavor network_name : string) (volume_size : Z)
    (volume_type : string) : MS State VmResult :=
  try_except
    (image_obj <- sdk (find_image image) ;;
     flavor_obj <- sdk (find_flavor flavor) ;;
     network_obj <- sdk (find_network network_name) ;;
     (if negb (forallb is_some [image_obj; flavor_obj; network_obj])
      then raise (ValueError "Не найдены необходимые ресурсы")
      else ret tt) ;;
     _ <- attr image_obj "id" ;;
     volume <- sdk (create_volume (name ++ "-root-vol")%string) ;;
     volume <- sdk wait_for_status ;;
     _ <- attr volume "name" ;;
     _ <- attr flavor_obj "id" ;;
     _ <- attr network_obj "id" ;;
     _ <- attr volume "id" ;;
     server <- sdk (create_server name) ;;
     server <- sdk wait_for_server ;;
     _ <- attr server "name" ;;
     ret {| vm_status := "success"; vm_message := None;
            vm_server := Some server; vm_volume := Some volume |})
    (fun e =>
       ret {| vm_status := "error"; vm_message := Some (exn_str e);
              vm_server := None; vm_volume := None |}).

Definition create_ovs_network (name network_type : string)
    (cidr : option string) : MS State NetworkResult :=
  try_except
    (network <- sdk (create_network name) ;;
     subnet <-
       (if truthy_str cidr
        then
          _ <- attr network "id" ;;
          subnet <- sdk (create_subnet (name ++ "-subnet")%string) ;;
          _ <- attr subnet "name" ;;
          ret subnet
        else ret None) ;;
     _ <- attr network "name" ;;
     ret {| nr_status := "success"; nr_message := None;
            nr_network := Some network; nr_subnet := Some subnet |})
    (fun e =>
       ret {| nr_status := "error"; nr_message := Some (exn_str e);
              nr_network := None; nr_subnet := None |}).

Definition configure_ovs_qos (port_id : string) (max_kbps min_kbps : option Z)
  : MS State QosResult :=
  try_except
    (_ <- external time_time (fun n => Ret (clock w n)) ;;
     qos_policy <- sdk create_qos_policy ;;
     (if truthy_int max_kbps
      then
        _ <- attr qos_policy "id" ;;
        _ <- sdk create_qos_bandwidth_limit_rule ;;
        ret tt
      else ret tt) ;;
     (if truthy_int min_kbps
      then
        _ <- attr qos_policy "id" ;;
        _ <- sdk create_qos_minimum_bandwidth_rule ;;
        ret tt
      else ret tt) ;;
     _ <- attr qos_policy "id" ;;
     _ <- sdk (update_port port_id) ;;
     ret {| qr_status := "success"; qr_message := None |})
    (fun e => ret {| qr_status := "error"; qr_message := Some (exn_str e) |}).

(** The [try] block lists services, agents, hypervisors, servers,
    networks and subnets and counts them; the counts are one answer of the
    world, which raises when any of the listings does. *)
Definition get_cee_cluster_status : MS State ClusterStatusResult :=
  try_except
    (_ <- external time_time (fun n => Ret (clock w n)) ;;
     status <- external (conn cluster_services) (cluster_at w) ;;
     ret {| cs_status := "success"; cs_message := None;
            cluster_status := Some status |})
    (fun e =>
       ret {| cs_status := "error"; cs_message := Some (exn_str e);
              cluster_status := None |}).

Definition create_cee_tenant_setup (tenant_name tenant_description : string)
    (user_name user_password : option string) (network_cidr : string)
    (create_router_flag : bool) : MS State TenantSetupResult :=
  try_except
    (project <- sdk (create_project tenant_name) ;;
     let results : dict Obj := dict_set [] "project" project in
     results <-
       (if truthy_str user_name && truthy_str user_password
        then
          _ <- attr project "id" ;;
          user <- sdk (create_user (default "" user_name)) ;;
          member_role <- sdk (find_role "member") ;;
          (if is_some member_role
           then
             _ <- attr project "id" ;;
             _ <- attr user "id" ;;
             _ <- attr member_role "id" ;;
             _ <- sdk assign_project_role_to_user ;;
             ret tt
           else ret tt) ;;
          ret (dict_set results "user" user)
        else ret results) ;;
     network_result <-
       create_ovs_network (tenant_name ++ "-network")%string "vxlan"
                          (Some network_cidr) ;;
     results <-
       (if String.eqb (nr_status network_result) "success"
        then
          network <- item (nr_network network_result) "network" ;;
          let results := dict_set results "network" network in
          subnet <- item (nr_subnet network_result) "subnet" ;;
          let results := dict_set results "subnet" subnet in
          if create_router_flag
          then
            _ <- attr project "id" ;;
            router <- sdk (create_router (tenant_name ++ "-router")%string) ;;
            _ <- attr router "id" ;;
            subnet' <- item (dict_get results "subnet") "subnet" ;;
            _ <- attr subnet' "id" ;;
            _ <- sdk add_interface_to_router ;;
            ret (dict_set results "router" router)
          else ret results
        else ret results) ;;
     ret {| tsr_status := "success"; tsr_message := None;
            tenant_setup := Some results |})
    (fun e =>
       ret {| tsr_status := "error"; tsr_message := Some (exn_str e);
              tenant_setup := None |}).

End WithWorld.
End CEEOpenStackClient.

(** ** cee_integration_example.py *)

(** The component attributes of a [CEEOrchestrator]: [true] when the
    attribute holds its component, [false] when it is [None] (what
    [__init__] leaves when [_initialize_components] fails before it). *)
Record CEEOrchestrator := {
  openstack_client : bool;
  vxsds_client : bool;
  vxsds_manager : bool;
  ovs_manager : bool
}.

(** [self.component.method]: the attribute access that precedes a call. *)
Definition method {S} (component : bool) (name : string) : MS S unit :=
  if component then ret tt else raise (AttributeError name).

Record TenantNetworking := {
  tn_status : string;
  tn_networks : dict Obj;
  tn_subnets : dict Obj;
  tn_message : option string
}.

Record StorageQuota := {
  sq_tenant : string;
  allocated_quota_gb : Z;
  storage_backend : string;
  note : string
}.

Record CreatedResources := {
  cr_openstack : option (dict Obj);
  cr_networking : option TenantNetworking;
  cr_security_groups : option (dict Obj);
  cr_storage : option StorageQuota
}.

Record TenantResult := {
  tr_tenant_name : string;
  tr_status : string;
  created_resources : CreatedResources;
  errors : list Msg
}.

Definition set_tr_status (v : string) (r : TenantResult) : TenantResult :=
  {| tr_tenant_name := tr_tenant_name r; tr_status := v;
     created_resources := created_resources r; errors := errors r |}.

Definition append_error (m : Msg) (r : TenantResult) : TenantResult :=
  {| tr_tenant_name := tr_tenant_name r; tr_status := tr_status r;
     created_resources := created_resources r; errors := errors r ++ [m] |}.

Definition set_created (f : CreatedResources -> CreatedResources)
    (r : TenantResult) : TenantResult :=
  {| tr_tenant_name := tr_tenant_name r; tr_status := tr_status r;
     created_resources := f (created_resources r); errors := errors r |}.

Definition set_openstack (v : dict Obj) (c : CreatedResources) :=
  {| cr_openstack := Some v; cr_networking := cr_networking c;
     cr_security_groups := cr_security_groups c; cr_storage := cr_storage c |}.

Definition set_networking (v : TenantNetworking) (c : CreatedResources) :=
  {| cr_openstack := cr_openstack c; cr_networking := Some v;
     cr_security_groups := cr_security_groups c; cr_storage := cr_storage c |}.

Definition set_security_groups (v : dict Obj) (c : CreatedResources) :=
  {| cr_openstack := cr_openstack c; cr_networking := cr_networking c;
     cr_security_groups := Some v; cr_storage := cr_storage c |}.

Definition set_storage (v : StorageQuota) (c : CreatedResources) :=
  {| cr_openstack := cr_openstack c; cr_networking := cr_networking c;
     cr_security_groups := cr_security_groups c; cr_storage := Some v |}.

Definition set_tn_status (v : string) (r : TenantNetworking) :=
  {| tn_status := v; tn_networks := tn_networks r;
     tn_subnets := tn_subnets r; tn_message := tn_message r |}.

Definition set_tn_message (v : string) (r : TenantNetworking) :=
  {| tn_status := tn_status r; tn_networks := tn_networks r;
     tn_subnets := tn_subnets r; tn_message := Some v |}.

Definition set_tn_network (k : string) (v : Obj) (r : TenantNetworking) :=
  {| tn_status := tn_status r; tn_networks := dict_set (tn_networks r) k v;
     tn_subnets := tn_subnets r; tn_message := tn_message r |}.

Definition set_tn_subnet (k : string) (v : Obj) (r : TenantNetworking) :=
  {| tn_status := tn_status r; tn_networks := tn_networks r;
     tn_subnets := dict_set (tn_subnets r) k v; tn_message := tn_message r |}.

Definition tenant_error (message : option string) : Msg :=
  [Txt "Ошибка создания OpenStack тенанта: "; Txt (str_opt message)].
Definition networking_error (message : option string) : Msg :=
  [Txt "Ошибка настройки сети: "; Txt (str_opt message)].

(** *** Application stacks *)

Record VolumeConfig := {
  vc_name : option string;
  vc_flavor : option string;
  vc_size_gb : option Z;
  vc_type : option string
}.

Record InstanceConfig := {
  ic_name : option string;
  ic_image : option string;
  ic_flavor : option string;
  ic_network : option string;
  ic_disk_size_gb : option Z;
  ic_volume_type : option string;
  ic_qos : option (dict Z)
}.

Record StackConfig := {
  sc_instances : option (list InstanceConfig);
  sc_volumes : option (list VolumeConfig)
}.

Record StackResult := {
  stack_name : string;
  sr_status : string;
  instances : list Obj;
  sr_volumes : list Obj;
  load_balancers : list Obj;
  sr_message : option string
}.

Definition append_instance (v : Obj) (r : StackResult) : StackResult :=
  {| stack_name := stack_name r; sr_status := sr_status r;
     instances := instances r ++ [v]; sr_volumes := sr_volumes r;
     load_balancers := load_balancers r; sr_message := sr_message r |}.

Definition append_volume (v : Obj) (r : StackResult) : StackResult :=
  {| stack_name := stack_name r; sr_status := sr_status r;
     instances := instances r; sr_volumes := sr_volumes r ++ [v];
     load_balancers := load_balancers r; sr_message := sr_message r |}.

Definition set_stack_error (e : Exn) (r : StackResult) : StackResult :=
  {| stack_name := stack_name r; sr_status := "error";
     instances := instances r; sr_volumes := sr_volumes r;
     load_balancers := load_balancers r; sr_message := Some (exn_str e) |}.

(** Truthiness of an optional dict. *)
Definition truthy_dict {V} (o : option (dict V)) : bool :=
  match o with
  | Some (_ :: _) => true
  | _ => false
  end.

(** *** Status and health checks *)

Record Components := {
  comp_openstack : option ClusterStatusResult;
  comp_vxsds : option HealthReport;
  comp_ovs : option PerformanceData
}.

Record SystemStatus := {
  ss_timestamp : Q;
  overall_health : string;
  components : Components;
  alerts : list Msg;
  recommendations : list Msg
}.

Definition set_overall_health (v : string) (s : SystemStatus) :=
  {| ss_timestamp := ss_timestamp s; overall_health := v;
     components := components s; alerts := alerts s;
     recommendations := recommendations s |}.

Definition append_alert (m : Msg) (s : SystemStatus) :=
  {| ss_timestamp := ss_timestamp s; overall_health := overall_health s;
     components := components s; alerts := alerts s ++ [m];
     recommendations := recommendations s |}.

Definition set_recommendations (v : list Msg) (s : SystemStatus) :=
  {| ss_timestamp := ss_timestamp s; overall_health := overall_health s;
     components := components s; alerts := alerts s;
     recommendations := v |}.

Definition set_components (f : Components -> Components) (s : SystemStatus) :=
  {| ss_timestamp := ss_timestamp s; overall_health := overall_health s;
     components := f (components s); alerts := alerts s;
     recommendations := recommendations s |}.

Definition set_comp_openstack (v : ClusterStatusResult) (c : Components) :=
  {| comp_openstack := Some v; comp_vxsds := comp_vxsds c;
     comp_ovs := comp_ovs c |}.

Definition set_comp_vxsds (v : HealthReport) (c : Components) :=
  {| comp_openstack := comp_openstack c; comp_vxsds := Some v;
     comp_ovs := comp_ovs c |}.

Definition set_comp_ovs (v : PerformanceData) (c : Components) :=
  {| comp_openstack := comp_openstack c; comp_vxsds := comp_vxsds c;
     comp_ovs := Some v |}.

Definition openstack_alert : Msg := [Txt "OpenStack cluster issues detected"].
Definition vxsds_alert (status : string) : Msg :=
  [Txt "VxSDS issues: "; Txt status].
Definition ovs_cpu_alert (cpu : Q) : Msg :=
  [Txt "High OVS CPU usage: "; Flt cpu; Txt "%"].
Definition collection_error (e : Exn) : Msg :=
  [Txt "Status collection error: "; Txt (exn_str e)].

Record ProbeResult := {
  pr_status : option string;
  pr_message : Msg
}.

Record HealthCheck := {
  hc_timestamp : Q;
  checks : dict ProbeResult;
  passed : Z;
  failed : Z;
  hc_warnings : Z
}.

Definition set_check (k : string) (v : ProbeResult) (h : HealthCheck) :=
  {| hc_timestamp := hc_timestamp h; checks := dict_set (checks h) k v;
     passed := passed h; failed := failed h; hc_warnings := hc_warnings h |}.

Definition incr_passed (h : HealthCheck) :=
  {| hc_timestamp := hc_timestamp h; checks := checks h;
     passed := passed h + 1; failed := failed h;
     hc_warnings := hc_warnings h |}.

Definition incr_failed (h : HealthCheck) :=
  {| hc_timestamp := hc_timestamp h; checks := checks h;
     passed := passed h; failed := failed h + 1;
     hc_warnings := hc_warnings h |}.

Definition incr_warnings (h : HealthCheck) :=
  {| hc_timestamp := hc_timestamp h; checks := checks h;
     passed := passed h; failed := failed h;
     hc_warnings := hc_warnings h + 1 |}.

Definition probe_result (status : string) (message : Msg) : ProbeResult :=
  {| pr_status := Some status; pr_message := message |}.

Definition check_failed (e : Exn) : ProbeResult :=
  probe_result "fail" [Txt "Check failed with exception: "; Txt (exn_str e)].

Module Orchestrator.
Section WithWorld.

Variable w : World.

(** The module namespace of [cee_network_utils] in the running process. *)
Variable network_globals : list string.

Variable self : CEEOrchestrator.

Definition _setup_tenant_networking (tenant_name : string)
    (project_id : option Handle) : MS State TenantNetworking :=
  with_local
    {| tn_status := "success"; tn_networks := []; tn_subnets := [];
       tn_message := None |}
    (try_except
       (method (openstack_client self) "create_ovs_network" ;;
        internal_net <- on_global
          (CEEOpenStackClient.create_ovs_network w
             (tenant_name ++ "-internal")%string "vxlan"
             (Some "10.0.1.0/24"%string)) ;;
        (if String.eqb (nr_status internal_net) "success"
         then
           network <- item (nr_network internal_net) "network" ;;
           update (set_tn_network "internal" network) ;;
           subnet <- item (nr_subnet internal_net) "subnet" ;;
           update (set_tn_subnet "internal" subnet)
         else ret tt) ;;
        method (openstack_client self) "create_ovs_network" ;;
        dmz_net <- on_global
          (CEEOpenStackClient.create_ovs_network w
             (tenant_name ++ "-dmz")%string "vxlan"
             (Some "10.0.2.0/24"%string)) ;;
        if String.eqb (nr_status dmz_net) "success"
        then
          network <- item (nr_network dmz_net) "network" ;;
          update (set_tn_network "dmz" network) ;;
          subnet <- item (nr_subnet dmz_net) "subnet" ;;
          update (set_tn_subnet "dmz" subnet)
        else ret tt)
       (fun e =>
          update (set_tn_status "error") ;;
          update (set_tn_message (exn_str e))) ;;
     local).

Definition _create_tenant_security_groups (project_id : Handle)
  : MS State (dict Obj) :=
  with_local ([] : dict Obj)
    (try_except
       (method (openstack_client self) "conn" ;;
        web_sg <- on_global
          (CEEOpenStackClient.sdk w (create_security_group "web-sg")) ;;
        method (openstack_client self) "conn" ;;
        _ <- attr web_sg "id" ;;
        _ <- on_global
          (CEEOpenStackClient.sdk w (create_security_group_rule 80)) ;;
        method (openstack_client self) "conn" ;;
        _ <- attr web_sg "id" ;;
        _ <- on_global
          (CEEOpenStackClient.sdk w (create_security_group_rule 443)) ;;
        update (fun d : dict Obj => dict_set d "web" web_sg) ;;
        method (openstack_client self) "conn" ;;
        ssh_sg <- on_global
          (CEEOpenStackClient.sdk w (create_security_group "ssh-sg")) ;;
        method (openstack_client self) "conn" ;;
        _ <- attr ssh_sg "id" ;;
        _ <- on_global
          (CEEOpenStackClient.sdk w (create_security_group_rule 22)) ;;
        update (fun d : dict Obj => dict_set d "ssh" ssh_sg))
       (fun e => ret tt) ;;
     local).

Definition _setup_tenant_storage_quota (tenant_name : string) (quota_gb : Z)
  : StorageQuota :=
  {| sq_tenant := tenant_name;
     allocated_quota_gb := quota_gb;
     storage_backend := "vxsds";
     note := "Storage quota configuration requires additional VxSDS setup" |}.

(** [tenant_setup["tenant_setup"]["project"].id] *)
Definition project_id_of {S} (setup : TenantSetupResult) : MS S Handle :=
  results <- item (tenant_setup setup) "tenant_setup" ;;
  project <- item (dict_get results "project") "project" ;;
  attr project "id".

Definition create_complete_tenant_environment
    (tenant_name tenant_description : string)
    (user_name user_password : option string) (network_cidr : string)
    (storage_quota_gb : Z) : MS State TenantResult :=
  with_local
    {| tr_tenant_name := tenant_name; tr_status := "success";
       created_resources :=
         {| cr_openstack := None; cr_networking := None;
            cr_security_groups := None; cr_storage := None |};
       errors := [] |}
    (try_except
       ((* 1 *)
        method (openstack_client self) "create_cee_tenant_setup" ;;
        setup <- on_global
          (CEEOpenStackClient.create_cee_tenant_setup w tenant_name
             tenant_description user_name user_password network_cidr true) ;;
        (if String.eqb (tsr_status setup) "success"
         then
           results <- item (tenant_setup setup) "tenant_setup" ;;
           update (set_created (set_openstack results))
         else
           update (append_error (tenant_error (tsr_message setup))) ;;
           update (set_tr_status "partial_failure")) ;;
        (* 2 *)
        project_id <-
          (if String.eqb (tsr_status setup) "success"
           then p <- project_id_of setup ;; ret (Some p)
           else ret None) ;;
        network_result <- on_global
          (_setup_tenant_networking tenant_name project_id) ;;
        (if String.eqb (tn_status network_result) "success"
         then update (set_created (set_networking network_result))
         else
           update (append_error (networking_error (tn_message network_result))) ;;
           update (set_tr_status "partial_failure")) ;;
        (* 3 *)
        (if String.eqb (tsr_status setup) "success"
         then
           p <- project_id_of setup ;;
           sg_result <- on_global (_create_tenant_security_groups p) ;;
           update (set_created (set_security_groups sg_result))
         else ret tt) ;;
        (* 4 *)
        update (set_created
                  (set_storage
                     (_setup_tenant_storage_quota tenant_name
                                                  storage_quota_gb))))
       (fun e =>
          update (set_tr_status "error") ;;
          update (append_error [Txt (exn_str e)])) ;;
     local).

(** The bodies of the two loops of [deploy_application_stack]. *)

(* Создаем тома для стека *)
Definition deploy_volume (name : string) (vol_config : VolumeConfig)
  : MS (State * StackResult) unit :=
  method (openstack_client self) "create_vm_with_vxsds_storage" ;;
  vol_name <- item (vc_name vol_config) "name" ;;
  volume_result <- on_global
    (CEEOpenStackClient.create_vm_with_vxsds_storage w
       (name ++ "-" ++ vol_name ++ "-vol")%string
       "dummy"
       (default "m1.small"%string (vc_flavor vol_config))
       "cee_ctrl_sp"
       (default 20 (vc_size_gb vol_config))
       (default "vxsds_thin_SSD"%string (vc_type vol_config))) ;;
  if String.eqb (vm_status volume_result) "success"
  then
    volume <- item (vm_volume volume_result) "volume" ;;
    update (append_volume volume)
  else ret tt.

(* Создаем инстансы стека *)
Definition deploy_instance (name : string) (inst_config : InstanceConfig)
  : MS (State * StackResult) unit :=
  method (openstack_client self) "create_vm_with_vxsds_storage" ;;
  inst_name <- item (ic_name inst_config) "name" ;;
  instance_result <- on_global
    (CEEOpenStackClient.create_vm_with_vxsds_storage w
       (name ++ "-" ++ inst_name)%string
       (default "ubuntu-20.04"%string (ic_image inst_config))
       (default "m1.medium"%string (ic_flavor inst_config))
       (default "default"%string (ic_network inst_config))
       (default 20 (ic_disk_size_gb inst_config))
       (default "vxsds_thin_SSD"%string (ic_volume_type inst_config))) ;;
  if String.eqb (vm_status instance_result) "success"
  then
    server <- item (vm_server instance_result) "server" ;;
    update (append_instance server) ;;
    (* Настраиваем QoS если указано *)
    if truthy_dict (ic_qos inst_config)
    then
      qos_config <- item (ic_qos inst_config) "qos" ;;
      method (openstack_client self) "conn" ;;
      server' <- item (vm_server instance_result) "server" ;;
      server_id <- attr server' "id" ;;
      port_list <- on_global
        (external (conn (ports server_id)) (ports_at w)) ;;
      for_each port_list
        (fun port =>
           method (openstack_client self) "configure_ovs_qos" ;;
           _ <- on_global
             (CEEOpenStackClient.configure_ovs_qos w port
                (dict_get qos_config "max_kbps")
                (dict_get qos_config "min_kbps")) ;;
           ret tt)
    else ret tt
  else ret tt.

Definition deploy_application_stack (name : string) (project_id : Handle)
    (stack_config : StackConfig) : MS State StackResult :=
  with_local
    {| stack_name := name; sr_status := "success"; instances := [];
       sr_volumes := []; load_balancers := []; sr_message := None |}
    (try_except
       (let instances_config := default [] (sc_instances stack_config) in
        let volumes_config := default [] (sc_volumes stack_config) in
        for_each volumes_config (deploy_volume name) ;;
        for_each instances_config (deploy_instance name))
       (fun e => update (set_stack_error e)) ;;
     local).

(** The four commented blocks of the [try] statement of
    [get_comprehensive_status], in their order. *)

(* Статус OpenStack *)
Definition status_openstack : MS (State * SystemStatus) unit :=
  if openstack_client self
  then
    os_status <- on_global (CEEOpenStackClient.get_cee_cluster_status w) ;;
    update (set_components (set_comp_openstack os_status)) ;;
    if negb (String.eqb (cs_status os_status) "success")
    then
      update (append_alert openstack_alert) ;;
      update (set_overall_health "warning")
    else ret tt
  else ret tt.

(* Статус VxSDS *)
Definition status_vxsds : MS (State * SystemStatus) unit :=
  if vxsds_manager self
  then
    vxsds_health <- on_global (CEEVxSDSManager.monitor_vxsds_health w) ;;
    update (set_components (set_comp_vxsds vxsds_health)) ;;
    if negb (String.eqb (overall_status vxsds_health) "healthy")
    then
      update (append_alert (vxsds_alert (overall_status vxsds_health))) ;;
      status <- local ;;
      if String.eqb (overall_status vxsds_health) "critical"
      then update (set_overall_health "critical")
      else if String.eqb (overall_health status) "healthy"
      then update (set_overall_health "warning")
      else ret tt
    else ret tt
  else ret tt.

(* Статус сети OVS; ["cpu_usage" in network_perf] holds of every value
   [monitor_ovs_performance] returns. *)
Definition status_ovs : MS (State * SystemStatus) unit :=
  if ovs_manager self
  then
    network_perf <- on_global
      (CEEOVSManager.monitor_ovs_performance w network_globals) ;;
    update (set_components (set_comp_ovs network_perf)) ;;
    let ovs_cpu :=
      default (inject_Z 0)
              (dict_get (cpu_usage network_perf) "ovs_vswitchd") in
    if Qlt_bool (inject_Z 80) ovs_cpu
    then
      update (append_alert (ovs_cpu_alert ovs_cpu)) ;;
      status <- local ;;
      if String.eqb (overall_health status) "healthy"
      then update (set_overall_health "warning")
      else ret tt
    else ret tt
  else ret tt.

(* Генерируем рекомендации *)
Definition status_recommendations : MS (State * SystemStatus) unit :=
  status <- local ;;
  let recommendations0 : list Msg :=
    if len (alerts status) =? 0
    then [[Txt "System is operating normally"]]
    else [[Txt "Review alerts and consider maintenance actions"]] in
  recommendations1 <-
    match comp_vxsds (components status) with
    | Some health =>
        let total :=
          match metrics health with
          | Some m => total_gb (capacity m)
          | None => 0
          end in
        let free :=
          match metrics health with
          | Some m => free_gb (capacity m)
          | None => 0
          end in
        if total >? 0
        then
          q <- truediv free total ;;
          let free_pct := float_mul q (Finite false (inject_Z 100)) in
          if float_lt_int free_pct 15
          then ret (recommendations0
                      ++ [[Txt "Consider adding storage capacity"]])
          else ret recommendations0
        else ret recommendations0
    | None => ret recommendations0
    end ;;
  update (set_recommendations recommendations1).

Definition get_comprehensive_status : MS State SystemStatus :=
  now <- external time_time (fun n => Ret (clock w n)) ;;
  with_local
    {| ss_timestamp := now; overall_health := "healthy";
       components :=
         {| comp_openstack := None; comp_vxsds := None; comp_ovs := None |};
       alerts := []; recommendations := [] |}
    (try_except
       (status_openstack ;;
        status_vxsds ;;
        status_ovs ;;
        status_recommendations)
       (fun e =>
          update (set_overall_health "error") ;;
          update (append_alert (collection_error e))) ;;
     local).

(** *** The probes *)

Definition _check_openstack_api : MS State ProbeResult :=
  try_except
    (if negb (openstack_client self)
     then ret (probe_result "fail" [Txt "OpenStack client not initialized"])
     else
       projects <- external (conn identity_projects) (projects_at w) ;;
       ret (probe_result "pass"
              [Txt "OpenStack API accessible, "; Int (len projects);
               Txt " projects found"]))
    (fun e =>
       ret (probe_result "fail"
              [Txt "OpenStack API error: "; Txt (exn_str e)])).

Definition _check_vxsds_connectivity : MS State ProbeResult :=
  try_except
    (if negb (vxsds_client self)
     then ret (probe_result "fail" [Txt "VxSDS client not initialized"])
     else
       system_info <- external get_system_info (system_info_at w) ;;
       if is_some system_info
       then ret (probe_result "pass" [Txt "VxSDS Gateway accessible"])
       else ret (probe_result "fail" [Txt "Cannot reach VxSDS Gateway"]))
    (fun e =>
       ret (probe_result "fail"
              [Txt "VxSDS connectivity error: "; Txt (exn_str e)])).

(** [_run_ovs_command] answers a success flag and the output, read here as
    the list of its non-empty lines. *)
Definition _check_ovs_bridges : MS State ProbeResult :=
  try_except
    (if negb (ovs_manager self)
     then ret (probe_result "fail" [Txt "OVS manager not initialized"])
     else
       answer <- external (ovs_commands "list-br")
                          (fun n => Ret (list_br_at w n)) ;;
       if fst answer
       then
         let listed := snd answer in
         let required_bridges := ["br-int"] in
         let missing_bridges :=
           filter (fun br => negb (contains listed br)) required_bridges in
         if nonempty missing_bridges
         then ret (probe_result "warning"
                     [Txt "Missing bridges: ";
                      Lst (map (fun b => [Txt b]) missing_bridges)])
         else ret (probe_result "pass"
                     [Txt "OVS bridges operational: ";
                      Lst (map (fun b => [Txt b]) listed)])
       else ret (probe_result "fail" [Txt "Cannot access OVS"]))
    (fun e =>
       ret (probe_result "fail" [Txt "OVS check error: "; Txt (exn_str e)])).

Definition _check_network_connectivity : MS State ProbeResult :=
  ret (probe_result "pass"
         [Txt "Network connectivity check not implemented"]).

Definition _check_storage_health : MS State ProbeResult :=
  try_except
    (if negb (vxsds_manager self)
     then ret (probe_result "warning" [Txt "VxSDS manager not available"])
     else
       health <- CEEVxSDSManager.monitor_vxsds_health w ;;
       if String.eqb (overall_status health) "healthy"
       then ret (probe_result "pass" [Txt "Storage system healthy"])
       else if String.eqb (overall_status health) "warning"
       then ret (probe_result "warning"
                   [Txt "Storage warnings: "; Lst (warnings health)])
       else ret (probe_result "fail"
                   [Txt "Storage issues: "; Lst (issues health)]))
    (fun e =>
       ret (probe_result "fail"
              [Txt "Storage health check error: "; Txt (exn_str e)])).

(** The loop of [perform_health_check] over a list of named probes. *)
Definition run_checks (check_list : list (string * MS State ProbeResult))
  : MS (State * HealthCheck) unit :=
  for_each check_list
    (fun check =>
       let check_name := fst check in
       let check_function := snd check in
       try_except
         (result <- on_global check_function ;;
          update (set_check check_name result) ;;
          status <- item (pr_status result) "status" ;;
          if String.eqb status "pass" then update incr_passed
          else if String.eqb status "warning" then update incr_warnings
          else update incr_failed)
         (fun e =>
            update (set_check check_name (check_failed e)) ;;
            update incr_failed)).

Definition perform_health_check_of
    (check_list : list (string * MS State ProbeResult))
  : MS State HealthCheck :=
  now <- external time_time (fun n => Ret (clock w n)) ;;
  with_local
    {| hc_timestamp := now; checks := []; passed := 0; failed := 0;
       hc_warnings := 0 |}
    (run_checks check_list ;; local).

(** The battery that [perform_health_check] builds from the bound
    methods of [self]. *)
Definition battery : list (string * MS State ProbeResult) :=
  [("openstack_api", _check_openstack_api);
   ("vxsds_connectivity", _check_vxsds_connectivity);
   ("ovs_bridges", _check_ovs_bridges);
   ("network_connectivity", _check_network_connectivity);
   ("storage_health", _check_storage_health)].

Definition perform_health_check : MS State HealthCheck :=
  perform_health_check_of battery.

End WithWorld.
End Orchestrator.

(** * The code around the health reports *)

(** ** Python strings

    A [str] is kept as its UTF-8 bytes.  The methods below are those of
    Python's [str] that the sources call. *)

Module Py.

(** A byte of the form 10xxxxxx continues the code point before it. *)
Definition is_continuation (c : ascii) : bool :=
  (128 <=? nat_of_ascii c)%nat && (nat_of_ascii c <? 192)%nat.

(** The code points of a string, each as the string of its bytes. *)
Fixpoint chars (s : string) : list string :=
  match s with
  | EmptyString => []
  | String c s' =>
      match s' with
      | String d _ =>
          if is_continuation d
          then match chars s' with
               | g :: gs => String c g :: gs
               | [] => [String c EmptyString]
               end
          else String c EmptyString :: chars s'
      | EmptyString => [String c EmptyString]
      end
  end.

Definition bytes (codes : list nat) : string :=
  string_of_list_ascii (map ascii_of_nat codes).

(** The characters [str.isspace] accepts: U+0009..U+000D, U+001C..U+0020,
    U+0085, U+00A0, U+1680, U+2000..U+200A, U+2028, U+2029, U+202F, U+205F
    and U+3000. *)
Definition whitespace : list string :=
  map bytes
    [[9]; [10]; [11]; [12]; [13]; [28]; [29]; [30]; [31]; [32];
     [194; 133]; [194; 160]; [225; 154; 128];
     [226; 128; 128]; [226; 128; 129]; [226; 128; 130]; [226; 128; 131];
     [226; 128; 132]; [226; 128; 133]; [226; 128; 134]; [226; 128; 135];
     [226; 128; 136]; [226; 128; 137]; [226; 128; 138];
     [226; 128; 168]; [226; 128; 169]; [226; 128; 175];
     [226; 129; 159]; [227; 128; 128]]%nat.

Definition isspace (c : string) : bool := existsb (String.eqb c) whitespace.

Fixpoint dropwhile {A} (f : A -> bool) (xs : list A) : list A :=
  match xs with
  | [] => []
  | x :: xs' => if f x then dropwhile f xs' else xs
  end.

Definition strip_where (f : string -> bool) (s : string) : string :=
  String.concat "" (rev (dropwhile f (rev (dropwhile f (chars s))))).

(** [s.strip()] *)
Definition strip (s : string) : string := strip_where isspace s.

(** [s.strip(cs)] *)
Definition strip_chars (s cs : string) : string :=
  strip_where (fun c => existsb (String.eqb c) (chars cs)) s.

(** [s.split()]: the maximal runs of characters that are not whitespace. *)
Fixpoint words (cur : string) (cs : list string) : list string :=
  match cs with
  | [] => if String.eqb cur "" then [] else [cur]
  | c :: cs' =>
      if isspace c
      then if String.eqb cur "" then words "" cs' else cur :: words "" cs'
      else words (cur ++ c)%string cs'
  end.

Definition split (s : string) : list string := words "" (chars s).

(** [s.split(sep)] for a separator that is not empty: [skip] counts the
    bytes of a separator found that are still to be passed over. *)
Fixpoint split_from (sep : string) (skip : nat) (cur s : string)
  : list string :=
  match s with
  | EmptyString => [cur]
  | String c s' =>
      match skip with
      | S k => split_from sep k cur s'
      | O =>
          if String.prefix sep s
          then cur :: split_from sep (String.length sep - 1) "" s'
          else split_from sep 0 (cur ++ String c "")%string s'
      end
  end.

Definition split_on (s sep : string) : list string := split_from sep 0 "" s.

Definition startswith (s p : string) : bool := String.prefix p s.

Fixpoint drop (n : nat) (s : string) : string :=
  match n, s with
  | S k, String _ s' => drop k s'
  | _, _ => s
  end.

Definition endswith (s p : string) : bool :=
  (String.length p <=? String.length s)%nat
  && String.eqb (drop (String.length s - String.length p) s) p.

(** [p in s] *)
Fixpoint contains (s p : string) : bool :=
  String.prefix p s
  || match s with
     | EmptyString => false
     | String _ s' => contains s' p
     end.

(** [s.split(sep, 1)] of a string that contains [sep]: what lies before
    and after the first [sep]. *)
Fixpoint split_once_from (sep cur s : string) : option (string * string) :=
  if String.prefix sep s then Some (cur, drop (String.length sep) s)
  else match s with
       | EmptyString => None
       | String c s' => split_once_from sep (cur ++ String c "")%string s'
       end.

Definition split_once (s sep : string) : option (string * string) :=
  split_once_from sep "" s.

(** [s[1:-1]] *)
Definition inner (s : string) : string :=
  String.substring 1 (String.length s - 2) s.

(** [str(n)] of an int *)
Definition str_int (n : Z) : string := NilZero.string_of_int (Z.to_int n).

Definition IndexError : Exn := mkExn "IndexError" "list index out of range".

(** [xs[i]] on a list *)
Definition index {S A} (xs : list A) (i : nat) : MS S A :=
  match nth_error xs i with
  | Some x => ret x
  | None => raise IndexError
  end.

(** *** Floats of the gateway

    The arithmetic of binary64 that the code applies to values it has
    not checked: sums, and floor division by an int. *)

(** The float nearest to a rational, with the sign of the rational;
    [+0.0] for zero and an infinity past the largest float. *)
Definition float_of_Q (q : Q) : Float :=
  match nearest_double (Z.abs (Qnum q)) (Zpos (Qden q)) with
  | Some m => Finite (Qnum q <? 0) m
  | None => Infinity (Qnum q <? 0)
  end.

(** The rational a finite float is. *)
Definition signed (negative : bool) (magnitude : Q) : Q :=
  if negative then - magnitude else magnitude.

Definition is_zero (q : Q) : bool := Qnum q =? 0.

(** [float(n)] of an int: [None] where it raises [OverflowError]. *)
Definition float_of_int (n : Z) : option Float :=
  match nearest_double (Z.abs n) 1 with
  | Some m => Some (Finite (n <? 0) m)
  | None => None
  end.

(** [x + y] on floats *)
Definition float_add (x y : Float) : Float :=
  match x, y with
  | NaN, _ | _, NaN => NaN
  | Infinity s, Infinity t => if Bool.eqb s t then Infinity s else NaN
  | Infinity s, Finite _ _ | Finite _ _, Infinity s => Infinity s
  | Finite s m, Finite t k =>
      let sum := (signed s m + signed t k)%Q in
      if is_zero sum then Finite (s && t) (inject_Z 0) else float_of_Q sum
  end.

(** [x // w] on floats, for a finite [w] above zero: the steps of
    CPython's [float_floor_div], each rounded as the machine rounds
    it. *)
Definition float_floordiv (x : Float) (w : Q) : Float :=
  match x with
  | Finite s m =>
      let v := signed s m in
      (* mod = fmod(vx, wx), which is exact *)
      let modulus :=
        signed s (m - w * inject_Z (Qfloor (m / w)))%Q in
      (* div = (vx - mod) / wx *)
      let difference := float_of_Q (v - modulus) in
      let quotient :=
        match difference with
        | Finite ds dm => float_of_Q (signed ds dm / w)
        | other => other
        end in
      (* if mod and wx differ in sign: div -= 1.0 *)
      let div :=
        if negb (is_zero modulus) && (Qnum modulus <? 0)
        then float_add quotient (Finite true (inject_Z 1))
        else quotient in
      match div with
      | Finite ds dm =>
          if is_zero dm then Finite s (inject_Z 0)
          else
            let d := signed ds dm in
            let floor := Qfloor d in
            (* floordiv = floor(div); if div - floordiv > 0.5 it is
               adjusted upwards *)
            match float_of_Q (d - inject_Z floor) with
            | Finite false rest =>
                if negb (Qle_bool rest (1 # 2))
                then float_of_Q (inject_Z (floor + 1))
                else Finite (floor <? 0) (inject_Z (Z.abs floor))
            | _ => Finite (floor <? 0) (inject_Z (Z.abs floor))
            end
      | other => other
      end
  | Infinity _ | NaN => NaN
  end.

(** [x == y] on floats, and [x == n] for an int [n]: the comparison with
    an int is exact. *)
Definition float_eq (x y : Float) : bool :=
  match x, y with
  | Finite s m, Finite t k => Qeq_bool (signed s m) (signed t k)
  | Infinity s, Infinity t => Bool.eqb s t
  | _, _ => false
  end.

Definition float_eq_int (x : Float) (n : Z) : bool :=
  match x with
  | Finite s m => Qeq_bool (signed s m) (inject_Z n)
  | _ => false
  end.

(** *** Values of any type

    What [json.loads], [response.json()] and [yaml.safe_load] return: the
    code reads such values without checking their types, so that every
    operation on them can raise.  The messages are those of CPython
    3.12. *)

#[warnings="-register-all"] Inductive Json :=
| JNone
| JBool (b : bool)
| JInt (n : Z)
| JFloat (x : Float)
| JStr (s : string)
| JList (items : list Json)
| JDict (entries : list (string * Json)).

Definition type_name (v : Json) : string :=
  match v with
  | JNone => "NoneType"
  | JBool _ => "bool"
  | JInt _ => "int"
  | JFloat _ => "float"
  | JStr _ => "str"
  | JList _ => "list"
  | JDict _ => "dict"
  end.

(** [bool(v)] *)
Definition truthy (v : Json) : bool :=
  match v with
  | JNone => false
  | JBool b => b
  | JInt n => negb (n =? 0)
  | JFloat (Finite _ m) => negb (is_zero m)
  | JFloat _ => true
  | JStr s => negb (String.eqb s "")
  | JList items => nonempty items
  | JDict entries => nonempty entries
  end.

Definition TypeError (message : string) : Exn := mkExn "TypeError" message.

Definition no_attribute (v : Json) (attribute : string) : Exn :=
  mkExn "AttributeError"
        ("'" ++ type_name v ++ "' object has no attribute '"
         ++ attribute ++ "'")%string.

Definition not_subscriptable (v : Json) : Exn :=
  TypeError ("'" ++ type_name v ++ "' object is not subscriptable")%string.

(** [v.get(key, default)] *)
Definition get {S} (v : Json) (key : string) (default : Json) : MS S Json :=
  match v with
  | JDict entries =>
      ret match dict_get entries key with
          | Some x => x
          | None => default
          end
  | _ => raise (no_attribute v "get")
  end.

(** [v[key]] with a [str] key *)
Definition item {S} (v : Json) (key : string) : MS S Json :=
  match v with
  | JDict entries =>
      match dict_get entries key with
      | Some x => ret x
      | None => raise (KeyError key)
      end
  | JList _ =>
      raise (TypeError "list indices must be integers or slices, not str")
  | JStr _ => raise (TypeError "string indices must be integers, not 'str'")
  | _ => raise (not_subscriptable v)
  end.

(** [v[i]] with an int [i] that is not negative *)
Definition at_index {S} (v : Json) (i : nat) : MS S Json :=
  match v with
  | JList items => index items i
  | JStr s =>
      match nth_error (chars s) i with
      | Some c => ret (JStr c)
      | None => raise (mkExn "IndexError" "string index out of range")
      end
  | JDict _ => raise (mkExn "KeyError" (str_int (Z.of_nat i)))
  | _ => raise (not_subscriptable v)
  end.

(** What [for x in v] goes through. *)
Definition iter {S} (v : Json) : MS S (list Json) :=
  match v with
  | JList items => ret items
  | JDict entries => ret (map (fun entry => JStr (fst entry)) entries)
  | JStr s => ret (map JStr (chars s))
  | _ => raise (TypeError ("'" ++ type_name v
                           ++ "' object is not iterable")%string)
  end.

(** [len(v)] *)
Definition len {S} (v : Json) : MS S Z :=
  match v with
  | JList items => ret (Z.of_nat (List.length items))
  | JDict entries => ret (Z.of_nat (List.length entries))
  | JStr s => ret (Z.of_nat (List.length (chars s)))
  | _ => raise (TypeError ("object of type '" ++ type_name v
                           ++ "' has no len()")%string)
  end.

Definition int_too_large : Exn :=
  mkExn "OverflowError" "int too large to convert to float".

(** [v // n] with an int [n] above zero *)
Definition floordiv {S} (v : Json) (n : Z) : MS S Json :=
  match v with
  | JInt a => ret (JInt (a / n))
  | JBool b => ret (JInt ((if b then 1 else 0) / n))
  | JFloat x =>
      match float_of_int n with
      | Some (Finite _ w) => ret (JFloat (float_floordiv x w))
      | _ => raise int_too_large
      end
  | _ => raise (TypeError ("unsupported operand type(s) for //: '"
                           ++ type_name v ++ "' and 'int'")%string)
  end.

(** The int a value is, if it is one ([True] is 1). *)
Definition whole (v : Json) : option Z :=
  match v with
  | JBool b => Some (if b then 1 else 0)
  | JInt n => Some n
  | _ => None
  end.

Definition double_quote : string := bytes [34%nat].

Definition cannot_concatenate (kind : string) (b : Json) : Exn :=
  TypeError ("can only concatenate " ++ kind ++ " (not " ++ double_quote
             ++ type_name b ++ double_quote ++ ") to " ++ kind)%string.

Definition unsupported_add (a b : Json) : Exn :=
  TypeError ("unsupported operand type(s) for +: '" ++ type_name a
             ++ "' and '" ++ type_name b ++ "'")%string.

(** [x + n] and [n + x] for a float [x] and an int [n], which is
    converted first. *)
Definition add_float_int {S} (x : Float) (n : Z) (float_first : bool)
  : MS S Json :=
  match float_of_int n with
  | Some y =>
      ret (JFloat (if float_first then float_add x y else float_add y x))
  | None => raise int_too_large
  end.

(** [a + b] *)
Definition add {S} (a b : Json) : MS S Json :=
  match a, b with
  | JStr s, JStr t => ret (JStr (s ++ t))
  | JStr _, _ => raise (cannot_concatenate "str" b)
  | JList xs, JList ys => ret (JList (xs ++ ys))
  | JList _, _ => raise (cannot_concatenate "list" b)
  | JFloat x, JFloat y => ret (JFloat (float_add x y))
  | JFloat x, _ =>
      match whole b with
      | Some n => add_float_int x n true
      | None => raise (unsupported_add a b)
      end
  | _, JFloat y =>
      match whole a with
      | Some n => add_float_int y n false
      | None => raise (unsupported_add a b)
      end
  | _, _ =>
      match whole a, whole b with
      | Some n, Some k => ret (JInt (n + k))
      | _, _ => raise (unsupported_add a b)
      end
  end.

(** [v == s] for a [str] [s] *)
Definition eq_str (v : Json) (s : string) : bool :=
  match v with
  | JStr t => String.eqb t s
  | _ => false
  end.

(** [a == b] on values that can be keys of a dict: numbers compare by
    value, whatever their type, and NaN equals nothing. *)
Definition key_eq (a b : Json) : bool :=
  match a, b with
  | JNone, JNone => true
  | JStr s, JStr t => String.eqb s t
  | JFloat x, JFloat y => float_eq x y
  | JFloat x, _ =>
      match whole b with
      | Some n => float_eq_int x n
      | None => false
      end
  | _, JFloat y =>
      match whole a with
      | Some n => float_eq_int y n
      | None => false
      end
  | _, _ =>
      match whole a, whole b with
      | Some n, Some k => n =? k
      | _, _ => false
      end
  end.

(** Using [v] as a key of a dict. *)
Definition hashable {S} (v : Json) : MS S unit :=
  match v with
  | JList _ | JDict _ =>
      raise (TypeError ("unhashable type: '" ++ type_name v ++ "'")%string)
  | _ => ret tt
  end.

End Py.

(** ** cee_network_utils.py: the switch manager, command by command *)

Module OVS.

Record OVSBridgeInfo := {
  name : string;
  datapath_type : string;
  ports : list string;
  controller : option string;
  fail_mode : option string
}.

(** What the process has asked of its host: the clock, or a command of
    [subprocess.run]. *)
Inductive Event :=
| Clock
| Command (command : list string).

Definition Shell := list Event.

(** The host: the clock and, for the n-th event, what a command run then
    gives: whether it exited with status 0 and started at all, and its
    standard output (its standard error, or the text of the exception,
    when it did not). *)
Record Switch := {
  now_at : nat -> Q;
  run_at : nat -> list string -> bool * string
}.

Definition newline : string := Py.bytes [10%nat].
Definition quote : string := Py.bytes [34%nat].

(** The state of the loop of [_parse_ovs_show_output]. *)
Record Parser := {
  bridges : dict OVSBridgeInfo;
  current_bridge : option string;
  current_ports : list string
}.

Definition bridge_info (bridge : string) (bridge_ports : list string)
  : OVSBridgeInfo :=
  {| name := bridge; datapath_type := "system"; ports := bridge_ports;
     controller := None; fail_mode := None |}.

(** [if current_bridge: bridges[current_bridge] = OVSBridgeInfo(...)] *)
Definition close_bridge (p : Parser) : Parser :=
  match current_bridge p with
  | Some bridge =>
      if String.eqb bridge "" then p
      else {| bridges :=
                dict_set (bridges p) bridge
                         (bridge_info bridge (current_ports p));
              current_bridge := current_bridge p;
              current_ports := current_ports p |}
  | None => p
  end.

Definition open_bridge (bridge : string) (p : Parser) : Parser :=
  {| bridges := bridges p; current_bridge := Some bridge;
     current_ports := [] |}.

Definition add_port (port : string) (p : Parser) : Parser :=
  {| bridges := bridges p; current_bridge := current_bridge p;
     current_ports := current_ports p ++ [port] |}.

(** The body of the loop over the lines. *)
Definition parse_line {G} (line : string) : MS (G * Parser) unit :=
  let line := Py.strip line in
  if Py.startswith line "Bridge"
  then
    update close_bridge ;;
    word <- Py.index (Py.split line) 1 ;;
    update (open_bridge (Py.strip_chars word quote))
  else if Py.startswith line "Port"
  then
    word <- Py.index (Py.split line) 1 ;;
    update (add_port (Py.strip_chars word quote))
  else ret tt.

Definition _parse_ovs_show_output {G} (output : string)
  : MS G (dict OVSBridgeInfo) :=
  with_local
    {| bridges := []; current_bridge := None; current_ports := [] |}
    (for_each (Py.split_on output newline) parse_line ;;
     (* Добавляем последний мост *)
     update close_bridge ;;
     p <- local ;;
     ret (bridges p)).

(** [_identify_bridge_role] *)
Definition _identify_bridge_role (bridge_name : string) : string :=
  if String.eqb bridge_name "br-int" then "integration"
  else if Py.startswith bridge_name "br-provider"
          || Py.startswith bridge_name "br-ex" then "provider"
  else if String.eqb bridge_name "br-tun" then "tunnel"
  else "unknown".

(** [_identify_node_roles]: the value it stores under ["node_type"],
    from the keys of [topology["bridges"]]. *)
Definition _identify_node_roles (bridge_names : list string) : string :=
  let has_integration := existsb (String.eqb "br-int") bridge_names in
  let has_tunnel := existsb (String.eqb "br-tun") bridge_names in
  let has_provider :=
    existsb (fun name => Py.startswith name "br-provider"
                         || Py.startswith name "br-ex") bridge_names in
  if has_integration && has_tunnel
  then if has_provider then "network_node" else "compute_node"
  else if has_integration then "controller_node"
  else "unknown".

(** A value of a statistics dict: an int, or the text that [int] refused. *)
Inductive Stat :=
| Count (n : Z)
| Text (s : string).

(** An entry of [performance_data["bridges"]]: its keys ["ports_count"]
    and ["datapath_type"] and, under [port_stats], its keys
    [f"port_{port}_stats"], by their port. *)
Record BridgeData := {
  ports_count : Z;
  bd_datapath_type : string;
  port_stats : dict (dict Stat)
}.

(** [performance_data] *)
Record Performance := {
  pd_timestamp : Q;
  pd_bridges : dict BridgeData;
  pd_cpu_usage : dict Float;
  pd_memory_usage : dict Float
}.

Definition set_bridge_data (bridge : string) (v : BridgeData)
    (p : Performance) : Performance :=
  {| pd_timestamp := pd_timestamp p;
     pd_bridges := dict_set (pd_bridges p) bridge v;
     pd_cpu_usage := pd_cpu_usage p;
     pd_memory_usage := pd_memory_usage p |}.

Definition set_port_stats (bridge port : string) (v : dict Stat)
    (p : Performance) : Performance :=
  match dict_get (pd_bridges p) bridge with
  | Some data =>
      set_bridge_data bridge
        {| ports_count := ports_count data;
           bd_datapath_type := bd_datapath_type data;
           port_stats := dict_set (port_stats data) port v |} p
  | None => p
  end.

Definition set_cpu_usage (v : Float) (p : Performance) : Performance :=
  {| pd_timestamp := pd_timestamp p;
     pd_bridges := pd_bridges p;
     pd_cpu_usage := dict_set (pd_cpu_usage p) "ovs_vswitchd" v;
     pd_memory_usage := pd_memory_usage p |}.

Definition set_memory_usage (v : Float) (p : Performance) : Performance :=
  {| pd_timestamp := pd_timestamp p;
     pd_bridges := pd_bridges p;
     pd_cpu_usage := pd_cpu_usage p;
     pd_memory_usage := dict_set (pd_memory_usage p) "ovs_vswitchd" v |}.

(** An entry of [topology["bridges"]]. *)
Record BridgeEntry := {
  be_datapath_type : string;
  be_ports : list string;
  be_role : string
}.

(** [topology]: its keys ["bridges"], ["tunnels"] (every tunnel found is
    stored with the same value, so that the keys are kept) and
    ["node_type"] where it was set; its keys ["compute_nodes"],
    ["controller_nodes"] and ["network_nodes"] are never written and
    stay empty dicts. *)
Record TopologyData := {
  td_bridges : dict BridgeEntry;
  td_tunnels : list Py.Json;
  td_node_type : option string
}.

Definition set_topology_bridge (bridge : string) (v : BridgeEntry)
    (t : TopologyData) : TopologyData :=
  {| td_bridges := dict_set (td_bridges t) bridge v;
     td_tunnels := td_tunnels t;
     td_node_type := td_node_type t |}.

(** [topology["tunnels"][name] = {...}] *)
Definition add_tunnel (tunnel : Py.Json) (t : TopologyData) : TopologyData :=
  {| td_bridges := td_bridges t;
     td_tunnels :=
       if existsb (Py.key_eq tunnel) (td_tunnels t) then td_tunnels t
       else td_tunnels t ++ [tunnel];
     td_node_type := td_node_type t |}.

Definition set_node_type (v : string) (t : TopologyData) : TopologyData :=
  {| td_bridges := td_bridges t;
     td_tunnels := td_tunnels t;
     td_node_type := Some v |}.

Section WithSwitch.

Variable sw : Switch.

(** The builtins [int] and [float] on a [str]: [None] where they raise
    [ValueError]; and [json.loads]. *)
Variable int : string -> option Z.
Variable float : string -> option Float.
Variable json_loads : string -> Res Py.Json.

(** [time.time()] *)
Definition time_time : MS Shell Q :=
  fun log => (Ret (now_at sw (List.length log)), log ++ [Clock]).

(** [_run_ovs_command] catches whatever [subprocess.run] raises and
    answers a flag and a text. *)
Definition _run_ovs_command (command : list string)
  : MS Shell (bool * string) :=
  fun log => (Ret (run_at sw (List.length log) command),
              log ++ [Command command]).

Definition get_bridge_info (bridge_name : string)
  : MS Shell (option OVSBridgeInfo) :=
  answer <- _run_ovs_command ["ovs-vsctl"; "show"] ;;
  if negb (fst answer) then ret None
  else
    (* Парсим вывод ovs-vsctl show *)
    found <- _parse_ovs_show_output (snd answer) ;;
    ret (dict_get found bridge_name).

Definition create_cee_bridge (bridge_name : string) (vlan_id : option Z)
    (physical_interface : option string) : MS Shell bool :=
  try_except
    ((* Создаем мост *)
     answer <- _run_ovs_command ["ovs-vsctl"; "add-br"; bridge_name] ;;
     if negb (fst answer) then ret false
     else
       (* Устанавливаем datapath_type = system *)
       answer <- _run_ovs_command
         ["ovs-vsctl"; "set"; "bridge"; bridge_name; "datapath_type=system"] ;;
       if negb (fst answer) then ret false
       else
         (* Подключаем физический интерфейс если указан *)
         if truthy_str physical_interface
         then
           answer <- _run_ovs_command
             ["ovs-vsctl"; "add-port"; bridge_name;
              default "" physical_interface] ;;
           if negb (fst answer) then ret false
           else
             (* Настраиваем VLAN тег если указан *)
             if truthy_int vlan_id
             then
               answer <- _run_ovs_command
                 ["ovs-vsctl"; "set"; "port"; default "" physical_interface;
                  ("tag=" ++ Py.str_int (default 0 vlan_id))%string] ;;
               if negb (fst answer) then ret false else ret true
             else ret true
         else ret true)
    (fun e => ret false).

Definition setup_cee_provider_network
    (bridge_name physical_interface vlan_range : string) : MS Shell bool :=
  try_except
    ((* Создаем мост *)
     created <- create_cee_bridge bridge_name None (Some physical_interface) ;;
     if negb created then ret false
     else
       (* Настраиваем trunk порт для VLAN range *)
       answer <- _run_ovs_command
         ["ovs-vsctl"; "set"; "port"; physical_interface;
          ("trunk=" ++ vlan_range)%string] ;;
       if negb (fst answer) then ret false
       else
         (* Отключаем STP для производительности *)
         _ <- _run_ovs_command
           ["ovs-vsctl"; "set"; "bridge"; bridge_name; "stp_enable=false"] ;;
         ret true)
    (fun e => ret false).

Definition setup_cee_tenant_network
    (tunnel_interface tunnel_ip vni_range : string) : MS Shell bool :=
  try_except
    (let bridge_name := "br-tun" in
     (* Создаем tunnel мост *)
     answer <- _run_ovs_command ["ovs-vsctl"; "add-br"; bridge_name] ;;
     if negb (fst answer) then ret false
     else
       (* Настраиваем туннельный интерфейс *)
       answer <- _run_ovs_command
         ["ovs-vsctl"; "set"; "bridge"; bridge_name;
          ("other-config:local_ip=" ++ tunnel_ip)%string] ;;
       if negb (fst answer) then ret false else ret true)
    (fun e => ret false).

Definition create_vxlan_tunnel (bridge_name tunnel_name remote_ip : string)
    (vni : Z) : MS Shell bool :=
  try_except
    (answer <- _run_ovs_command
       ["ovs-vsctl"; "add-port"; bridge_name; tunnel_name;
        "--"; "set"; "interface"; tunnel_name; "type=vxlan";
        ("options:remote_ip=" ++ remote_ip)%string;
        ("options:key=" ++ Py.str_int vni)%string] ;;
     ret (fst answer))
    (fun e => ret false).

Definition setup_cee_qos_rules (port_name : string) (max_rate_mbps : Z)
    (burst_mbps : option Z) : MS Shell bool :=
  try_except
    (let burst_mbps := default max_rate_mbps burst_mbps in
     answer <- _run_ovs_command
       ["ovs-vsctl"; "set"; "interface"; port_name;
        ("ingress_policing_rate=" ++ Py.str_int (max_rate_mbps * 1000))%string;
        ("ingress_policing_burst=" ++ Py.str_int (burst_mbps * 1000))%string] ;;
     ret (fst answer))
    (fun e => ret false).

(** The loop of [get_port_statistics] over the pairs: one iteration. *)
Definition add_stat (stats : dict Stat) (pair : string) : dict Stat :=
  if Py.contains pair "="
  then match Py.split_once pair "=" with
       | Some (key, value) =>
           dict_set stats key
                    match int value with
                    | Some n => Count n
                    | None => Text value
                    end
       | None => stats
       end
  else stats.

Definition get_port_statistics (bridge_name port_name : string)
  : MS Shell (dict Stat) :=
  answer <- _run_ovs_command
    ["ovs-vsctl"; "get"; "interface"; port_name; "statistics"] ;;
  if negb (fst answer) then ret []
  else
    parsed <-
      try_except
        ((* Парсим статистику *)
         let stats_str := Py.strip (snd answer) in
         if Py.startswith stats_str "{" && Py.endswith stats_str "}"
         then
           let stats_str := Py.inner stats_str in
           ret (Some (fold_left add_stat (Py.split_on stats_str ", ") []))
         else ret None)
        (fun e => ret None) ;;
    match parsed with
    | Some stats => ret stats
    | None => ret []
    end.

(** [float(s)] *)
Definition to_float {S} (s : string) : MS S Float :=
  match float s with
  | Some x => ret x
  | None =>
      raise (ValueError ("could not convert string to float: '" ++ s ++ "'"))
  end.

(** The loop of [monitor_ovs_performance] over the bridges: its body. *)
Definition monitor_bridge (bridge : string) : MS (Shell * Performance) unit :=
  if negb (String.eqb bridge "")
  then
    bridge_info <- on_global (get_bridge_info bridge) ;;
    match bridge_info with
    | Some info =>
        update (set_bridge_data bridge
                  {| ports_count := len (ports info);
                     bd_datapath_type := datapath_type info;
                     port_stats := [] |}) ;;
        (* Получаем статистику портов *)
        for_each (ports info)
          (fun port =>
             stats <- on_global (get_port_statistics bridge port) ;;
             if nonempty stats then update (set_port_stats bridge port stats)
             else ret tt)
    | None => ret tt
    end
  else ret tt.

(** The loop over the lines of [ps aux]: its body. *)
Definition monitor_process (line : string) : MS (Shell * Performance) unit :=
  if Py.contains line "ovs-vswitchd"
  then
    let parts := Py.split line in
    if 11 <=? len parts
    then
      text <- Py.index parts 2 ;;
      cpu <- to_float text ;;
      update (set_cpu_usage cpu) ;;
      text <- Py.index parts 3 ;;
      memory <- to_float text ;;
      update (set_memory_usage memory)
    else ret tt
  else ret tt.

Definition monitor_ovs_performance (globals : list string)
  : MS Shell Performance :=
  global_name globals "time" ;;
  now <- time_time ;;
  with_local
    {| pd_timestamp := now; pd_bridges := []; pd_cpu_usage := [];
       pd_memory_usage := [] |}
    (try_except
       ((* Получаем список мостов *)
        answer <- on_global (_run_ovs_command ["ovs-vsctl"; "list-br"]) ;;
        (if fst answer
         then for_each (Py.split_on (Py.strip (snd answer)) newline)
                       monitor_bridge
         else ret tt) ;;
        (* Получаем статистику ovs-vswitchd процесса *)
        try_except
          (answer <- on_global (_run_ovs_command ["ps"; "aux"]) ;;
           if fst answer
           then for_each (Py.split_on (snd answer) newline) monitor_process
           else ret tt)
          (fun e => ret tt))
       (fun e => ret tt) ;;
     local).

(** [_analyze_vxlan_tunnels] *)
Definition _analyze_vxlan_tunnels : MS (Shell * TopologyData) unit :=
  try_except
    (answer <- on_global
       (_run_ovs_command ["ovs-vsctl"; "--format=json"; "list"; "interface"]) ;;
     if fst answer
     then
       interfaces <- (fun s => (json_loads (snd answer), s)) ;;
       data <- Py.get interfaces "data" (Py.JList []) ;;
       rows <- Py.iter data ;;
       for_each rows
         (fun interface =>
            n <- Py.len interface ;;
            if n >? 2
            then
              kind <- Py.at_index interface 2 ;;
              if Py.eq_str kind "vxlan"
              then
                (* Это VXLAN интерфейс *)
                tunnel <- Py.at_index interface 1 ;;
                Py.hashable tunnel ;;
                update (add_tunnel tunnel)
              else ret tt
            else ret tt)
     else ret tt)
    (fun e => ret tt).

(** The loop of [discover_cee_topology] over the bridges: its body. *)
Definition discover_bridge (bridge : string)
  : MS (Shell * TopologyData) unit :=
  if negb (String.eqb bridge "")
  then
    bridge_info <- on_global (get_bridge_info bridge) ;;
    match bridge_info with
    | Some info =>
        update (set_topology_bridge bridge
                  {| be_datapath_type := datapath_type info;
                     be_ports := ports info;
                     be_role := _identify_bridge_role bridge |})
    | None => ret tt
    end
  else ret tt.

Definition discover_cee_topology : MS Shell TopologyData :=
  with_local
    {| td_bridges := []; td_tunnels := []; td_node_type := None |}
    (try_except
       ((* Получаем информацию о мостах *)
        answer <- on_global (_run_ovs_command ["ovs-vsctl"; "list-br"]) ;;
        (if fst answer
         then for_each (Py.split_on (Py.strip (snd answer)) newline)
                       discover_bridge
         else ret tt) ;;
        (* Анализируем VXLAN туннели *)
        _analyze_vxlan_tunnels ;;
        (* Определяем роли узлов *)
        t <- local ;;
        update (set_node_type (_identify_node_roles (dict_keys (td_bridges t)))))
       (fun e => ret tt) ;;
     local).

(** [setup_cee_standard_bridges], after [load_cee_config_from_yaml] has
    answered: [loaded] is what importing [cee_openstack_client] and
    calling the loader gave, its value (which the function never reads)
    or the exception of a failed import; it happens before the [try]
    statement. *)
Definition setup_cee_standard_bridges (loaded : Res unit) : MS Shell bool :=
  match loaded with
  | Raise e => raise e
  | Ret _ =>
      with_local true
        (try_except
           ((* Интеграционный мост (всегда нужен) *)
            created <- on_global (create_cee_bridge "br-int" None None) ;;
            (if negb created then update (fun _ => false) else ret tt) ;;
            (* Provider мосты (для внешних сетей) *)
            let physical_networks := ["physnet1"; "physnet2"] in
            for_each (combine (map Z.of_nat (seq 0 (List.length physical_networks)))
                              physical_networks)
              (fun item =>
                 let i := fst item in
                 let physnet := snd item in
                 let bridge_name := ("br-" ++ physnet)%string in
                 let physical_interface :=
                   ("eno" ++ Py.str_int (i + 1))%string in
                 configured <- on_global
                   (setup_cee_provider_network bridge_name physical_interface
                      "100:4000") ;;
                 if negb configured then update (fun _ => false)
                 else ret tt) ;;
            (* Tunnel мост (для VXLAN) *)
            let tunnel_ip := "192.168.40.20" in
            configured <- on_global
              (setup_cee_tenant_network "eno3" tunnel_ip "1:1000") ;;
            if negb configured then update (fun _ => false) else ret tt)
           (fun e => update (fun _ => false)) ;;
         local)
  end.

End WithSwitch.
End OVS.

(** ** cee_vxsds_utils.py: the gateway client, request by request *)

(** [try: body / except (C1, C2, ...): handler]: an exception of another
    class goes on. *)
Definition try_except_of {S A} (classes : list string) (body : MS S A)
    (handler : Exn -> MS S A) : MS S A :=
  fun s =>
    match body s with
    | (Ret a, s') => (Ret a, s')
    | (Raise e, s') =>
        if existsb (String.eqb (exn_type e)) classes then handler e s'
        else (Raise e, s')
    end.

Module VxSDSClient.

(** An endpoint, as the f-string that builds it: its literal parts and
    the values put between them. *)
Inductive Part :=
| Lit (s : string)
| Val (v : Py.Json).

Record Request := {
  method : string;
  endpoint : list Part;
  data : option (dict Py.Json)
}.

(** The gateway: what [_make_request] returns for the n-th request, the
    decoded body of an answer with status 200, 201 or 202 (or the dict
    that stands for a body that is not JSON) and [None] otherwise;
    [_make_request] catches every exception. *)
Record Server := { respond : nat -> Request -> Py.Json }.

(** The data classes, with fields of any type: nothing checks what the
    gateway sent. *)
Record VxSDSVolumeInfo := {
  vol_id : Py.Json;
  vol_name : Py.Json;
  size_gb : Py.Json;
  storage_pool : Py.Json;
  vol_protection_domain : string;
  volume_type : Py.Json;
  creation_time : Py.Json;
  mapped_sdcs : list Py.Json
}.

Record VxSDSStoragePoolInfo := {
  pool_id : Py.Json;
  pool_name : Py.Json;
  pool_protection_domain : Py.Json;
  media_type : Py.Json;
  capacity_gb : Py.Json;
  free_capacity_gb : Py.Json;
  num_volumes : Py.Json;
  spare_percentage : Py.Json
}.

Record VxSDSNodeInfo := {
  node_id : Py.Json;
  node_name : Py.Json;
  ip_addresses : list Py.Json;
  role : string;
  state : Py.Json;
  version : Py.Json
}.

Section WithServer.

Variable server : Server.

Definition _make_request (method_ : string) (endpoint_ : list Part)
    (data_ : option (dict Py.Json)) : MS (list Request) Py.Json :=
  fun log =>
    let request :=
      {| method := method_; endpoint := endpoint_; data := data_ |} in
    (Ret (respond server (List.length log) request), log ++ [request]).

(* === Управление системой === *)

Definition get_system_info : MS (list Request) Py.Json :=
  _make_request "GET" [Lit "/instances/System"] None.

Definition get_system_statistics : MS (list Request) Py.Json :=
  system_info <- get_system_info ;;
  if negb (Py.truthy system_info) then ret Py.JNone
  else
    try_except_of ["KeyError"; "IndexError"]
      (systems <- Py.get system_info "data" (Py.JList []) ;;
       if Py.truthy systems
       then
         first <- Py.at_index systems 0 ;;
         system_id <- Py.item first "id" ;;
         _make_request "GET"
           [Lit "/instances/System::"; Val system_id;
            Lit "/relationships/Statistics"] None
       else ret Py.JNone)
      (fun e => ret Py.JNone).

(* === Управление Protection Domains === *)

Definition get_protection_domains : MS (list Request) Py.Json :=
  response <- _make_request "GET" [Lit "/instances/ProtectionDomain"] None ;;
  if Py.truthy response then Py.get response "data" (Py.JList [])
  else ret (Py.JList []).

Definition create_protection_domain (name : Py.Json)
  : MS (list Request) Py.Json :=
  _make_request "POST" [Lit "/instances/ProtectionDomain"]
    (Some [("name", name)]).

(* === Управление Storage Pools === *)

(** The statistics part of the loop of [get_storage_pools]. *)
Definition pool_capacity {S} (pool_stats : Py.Json)
  : MS S (Py.Json * Py.Json) :=
  stats_data <-
    (if Py.truthy pool_stats then Py.get pool_stats "data" Py.JNone
     else ret Py.JNone) ;;
  if Py.truthy pool_stats && Py.truthy stats_data
  then
    stats_list <- Py.item pool_stats "data" ;;
    stats <- Py.at_index stats_list 0 ;;
    in_use <- Py.get stats "capacityInUseInKb" (Py.JInt 0) ;;
    in_use <- Py.floordiv in_use 1024 ;;
    capacity <- Py.floordiv in_use 1024 ;;
    available <-
      Py.get stats "capacityAvailableForVolumeAllocationInKb" (Py.JInt 0) ;;
    available <- Py.floordiv available 1024 ;;
    free <- Py.floordiv available 1024 ;;
    ret (capacity, free)
  else ret (Py.JInt 0, Py.JInt 0).

(** The body of the loop of [get_storage_pools]: the [try] block, and
    the handler, which reads [pool_data.get('id', 'unknown')] for its
    message. *)
Definition add_pool (pool_data : Py.Json)
  : MS (list Request * list VxSDSStoragePoolInfo) unit :=
  try_except
    (pool <- Py.item pool_data "id" ;;
     (* Получаем детальную информацию о пуле *)
     pool_stats <- on_global
       (_make_request "GET"
          [Lit "/instances/StoragePool::"; Val pool;
           Lit "/relationships/Statistics"] None) ;;
     sizes <- pool_capacity pool_stats ;;
     id_ <- Py.item pool_data "id" ;;
     name_ <- Py.item pool_data "name" ;;
     domain <- Py.get pool_data "protectionDomainId" (Py.JStr "") ;;
     media <- Py.get pool_data "mediaType" (Py.JStr "SSD") ;;
     volumes <- Py.get pool_data "numOfVolumes" (Py.JInt 0) ;;
     spare <- Py.get pool_data "sparePercentage" (Py.JInt 10) ;;
     update (fun pools =>
               pools ++ [{| pool_id := id_; pool_name := name_;
                            pool_protection_domain := domain;
                            media_type := media;
                            capacity_gb := fst sizes;
                            free_capacity_gb := snd sizes;
                            num_volumes := volumes;
                            spare_percentage := spare |}]))
    (fun e =>
       _ <- Py.get pool_data "id" (Py.JStr "unknown") ;;
       ret tt).

Definition get_storage_pools (protection_domain_id : Py.Json)
  : MS (list Request) (list VxSDSStoragePoolInfo) :=
  with_local ([] : list VxSDSStoragePoolInfo)
    (let endpoint_ :=
       if Py.truthy protection_domain_id
       then [Lit "/instances/ProtectionDomain::"; Val protection_domain_id;
             Lit "/relationships/StoragePool"]
       else [Lit "/instances/StoragePool"] in
     response <- on_global (_make_request "GET" endpoint_ None) ;;
     (if Py.truthy response
      then
        raw_pools <- Py.get response "data" (Py.JList []) ;;
        items <- Py.iter raw_pools ;;
        for_each items add_pool
      else ret tt) ;;
     local).

Definition create_storage_pool (name protection_domain_id media spare
    : Py.Json) : MS (list Request) Py.Json :=
  _make_request "POST" [Lit "/instances/StoragePool"]
    (Some [("name", name); ("protectionDomainId", protection_domain_id);
           ("mediaType", media); ("sparePercentage", spare)]).

(* === Управление томами === *)

(** The body of the loop over the mappings of a volume. *)
Definition add_mapping {G} (mapping : Py.Json)
  : MS (G * list Py.Json) unit :=
  sdc <- Py.get mapping "sdcId" (Py.JStr "") ;;
  update (fun mapped => mapped ++ [sdc]).

(** The body of the loop of [get_volumes]; its handler too reads
    [volume_data.get('id', 'unknown')]. *)
Definition add_volume (volume_data : Py.Json)
  : MS (list Request * list VxSDSVolumeInfo) unit :=
  try_except
    (volume <- Py.item volume_data "id" ;;
     (* Получаем информацию о маппинге *)
     mapping_response <- on_global
       (_make_request "GET"
          [Lit "/instances/Volume::"; Val volume;
           Lit "/relationships/SdcMappedToVolume"] None) ;;
     mapped <-
       with_local ([] : list Py.Json)
         ((if Py.truthy mapping_response
           then
             mappings <- Py.get mapping_response "data" (Py.JList []) ;;
             items <- Py.iter mappings ;;
             for_each items add_mapping
           else ret tt) ;;
          local) ;;
     id_ <- Py.item volume_data "id" ;;
     name_ <- Py.get volume_data "name" (Py.JStr "") ;;
     size <- Py.get volume_data "sizeInKb" (Py.JInt 0) ;;
     size <- Py.floordiv size 1024 ;;
     size <- Py.floordiv size 1024 ;;
     pool <- Py.get volume_data "storagePoolId" (Py.JStr "") ;;
     type <- Py.get volume_data "volumeType" (Py.JStr "ThinProvisioned") ;;
     created <- Py.get volume_data "creationTime" Py.JNone ;;
     update (fun volumes =>
               volumes ++ [{| vol_id := id_; vol_name := name_;
                              size_gb := size; storage_pool := pool;
                              vol_protection_domain := "";
                              volume_type := type;
                              creation_time := created;
                              mapped_sdcs := mapped |}]))
    (fun e =>
       _ <- Py.get volume_data "id" (Py.JStr "unknown") ;;
       ret tt).

Definition get_volumes (storage_pool_id : Py.Json)
  : MS (list Request) (list VxSDSVolumeInfo) :=
  with_local ([] : list VxSDSVolumeInfo)
    (let endpoint_ :=
       if Py.truthy storage_pool_id
       then [Lit "/instances/StoragePool::"; Val storage_pool_id;
             Lit "/relationships/Volume"]
       else [Lit "/instances/Volume"] in
     response <- on_global (_make_request "GET" endpoint_ None) ;;
     (if Py.truthy response
      then
        raw_volumes <- Py.get response "data" (Py.JList []) ;;
        items <- Py.iter raw_volumes ;;
        for_each items add_volume
      else ret tt) ;;
     local).

Definition create_volume (name size_gb_ storage_pool_id type : Py.Json)
  : MS (list Request) Py.Json :=
  _make_request "POST" [Lit "/instances/Volume"]
    (Some [("name", name); ("sizeInGb", size_gb_);
           ("storagePoolId", storage_pool_id); ("volumeType", type)]).

Definition is_not_none (v : Py.Json) : bool :=
  match v with
  | Py.JNone => false
  | _ => true
  end.

Definition delete_volume (volume remove_mode : Py.Json)
  : MS (list Request) bool :=
  result <- _make_request "POST"
    [Lit "/instances/Volume::"; Val volume; Lit "/action/removeVolume"]
    (Some [("removeMode", remove_mode)]) ;;
  ret (is_not_none result).

Definition map_volume_to_sdc (volume sdc : Py.Json) (allow_multi_map : bool)
  : MS (list Request) bool :=
  result <- _make_request "POST"
    [Lit "/instances/Volume::"; Val volume; Lit "/action/addMappedSdc"]
    (Some [("sdcId", sdc);
           ("allowMultipleMapping",
            Py.JStr (if allow_multi_map then "true" else "false"))]) ;;
  ret (is_not_none result).

Definition unmap_volume_from_sdc (volume sdc : Py.Json)
  : MS (list Request) bool :=
  result <- _make_request "POST"
    [Lit "/instances/Volume::"; Val volume; Lit "/action/removeMappedSdc"]
    (Some [("sdcId", sdc)]) ;;
  ret (is_not_none result).

(* === Управление узлами === *)

(** The body of the loop of [get_sdc_nodes]. *)
Definition add_sdc {G} (node_data : Py.Json)
  : MS (G * list VxSDSNodeInfo) unit :=
  try_except
    (id_ <- Py.item node_data "id" ;;
     name_ <- Py.get node_data "name" (Py.JStr "") ;;
     ip <- Py.get node_data "sdcIp" (Py.JStr "") ;;
     state_ <- Py.get node_data "mdmConnectionState" (Py.JStr "unknown") ;;
     version_ <- Py.get node_data "versionInfo" (Py.JStr "") ;;
     update (fun nodes =>
               nodes ++ [{| node_id := id_; node_name := name_;
                            ip_addresses := [ip]; role := "SDC";
                            state := state_; version := version_ |}]))
    (fun e => ret tt).

Definition get_sdc_nodes : MS (list Request) (list VxSDSNodeInfo) :=
  with_local ([] : list VxSDSNodeInfo)
    (response <- on_global (_make_request "GET" [Lit "/instances/Sdc"] None) ;;
     (if Py.truthy response
      then
        raw_nodes <- Py.get response "data" (Py.JList []) ;;
        items <- Py.iter raw_nodes ;;
        for_each items add_sdc
      else ret tt) ;;
     local).

Definition add_ip {G} (ip_info : Py.Json) : MS (G * list Py.Json) unit :=
  ip <- Py.get ip_info "ip" (Py.JStr "") ;;
  update (fun addresses => addresses ++ [ip]).

(** The body of the loop of [get_sds_nodes]. *)
Definition add_sds {G} (node_data : Py.Json)
  : MS (G * list VxSDSNodeInfo) unit :=
  try_except
    ((* Собираем IP адреса *)
     addresses <-
       with_local ([] : list Py.Json)
         (ip_list <- Py.get node_data "ipList" (Py.JList []) ;;
          items <- Py.iter ip_list ;;
          for_each items add_ip ;;
          local) ;;
     id_ <- Py.item node_data "id" ;;
     name_ <- Py.get node_data "name" (Py.JStr "") ;;
     state_ <- Py.get node_data "sdsState" (Py.JStr "unknown") ;;
     update (fun nodes =>
               nodes ++ [{| node_id := id_; node_name := name_;
                            ip_addresses := addresses; role := "SDS";
                            state := state_; version := Py.JStr "" |}]))
    (fun e => ret tt).

Definition get_sds_nodes : MS (list Request) (list VxSDSNodeInfo) :=
  with_local ([] : list VxSDSNodeInfo)
    (response <- on_global (_make_request "GET" [Lit "/instances/Sds"] None) ;;
     (if Py.truthy response
      then
        raw_nodes <- Py.get response "data" (Py.JList []) ;;
        items <- Py.iter raw_nodes ;;
        for_each items add_sds
      else ret tt) ;;
     local).

End WithServer.
End VxSDSClient.

(** ** cee_vxsds_utils.py: the rest of the manager *)

(** The requests of the manager that change the gateway or read its
    statistics; they are logged apart from the listings. *)
Inductive GatewayRequest :=
| post_volume (name : string) (size_gb : Z) (storage_pool_id : string)
              (volume_type : string)
| add_mapped_sdc (volume_id sdc_id : string)
| system_statistics.

(** What the client answers them: [create_volume] what [_make_request]
    returned, [map_volume_to_sdc] whether that was not [None], and
    [get_system_statistics] a value or an exception. *)
Record Gateway := {
  volume_created_at : nat -> GatewayRequest -> Py.Json;
  sdc_mapped_at : nat -> GatewayRequest -> bool;
  statistics_at : nat -> Res Py.Json
}.

Definition gateway {A} (request : GatewayRequest) (answer : nat -> Res A)
  : MS (State * list GatewayRequest) A :=
  fun s => (answer (List.length (snd s)), (fst s, snd s ++ [request])).








Module CEEVxSDSVolumes.
Section WithWorld.

Variable w : World.
Variable gw : Gateway.

Definition get_default_storage_pool : MS State (option VxSDSStoragePoolInfo) :=
  CEEVxSDSManager._update_cache w ;;
  st <- get ;;
  match find (fun pool => String.eqb (pool_name pool) "pool1")
             (or_empty (_storage_pools_cache st)) with
  | Some pool => ret (Some pool)
  | None =>
      (* Если pool1 не найден, возвращаем первый доступный *)
      if truthy_list (_storage_pools_cache st)
      then ret (hd_error (or_empty (_storage_pools_cache st)))
      else ret None
  end.

Definition create_cee_volume (name : string) (size : Z)
    (type : string) (multiattach : bool)
  : MS (State * list GatewayRequest) (option VxSDSVolumeInfo) :=
  default_pool <- on_global get_default_storage_pool ;;
  match default_pool with
  | None => ret None
  | Some pool =>
      (* Преобразуем тип тома в формат VxSDS *)
      let vxsds_volume_type :=
        if String.eqb type "thin" then "ThinProvisioned"
        else "ThickProvisioned" in
      let request :=
        post_volume name size (pool_id pool) vxsds_volume_type in
      result <- gateway request
                  (fun n => Ret (volume_created_at gw n request)) ;;
      if Py.truthy result
      then
        (* Возвращаем информацию о созданном томе *)
        volume <- Py.get result "id" Py.JNone ;;
        if Py.truthy volume
        then
          listed <- on_global (external get_volumes (volumes_at w)) ;;
          ret (find (fun v => Py.eq_str volume (vol_id v)) listed)
        else ret None
      else ret None
  end.






End WithWorld.
End CEEVxSDSVolumes.

Unset Implicit Arguments.

(** * The vocabulary of the properties *)

(** The value a run returned, if it returned. *)
Definition returned {S A} (r : Res A * S) : option A :=
  match fst r with
  | Ret a => Some a
  | Raise _ => None
  end.

Definition pools_total (pools : list VxSDSStoragePoolInfo) : Z :=
  sum_Z (map capacity_gb pools).
Definition pools_free (pools : list VxSDSStoragePoolInfo) : Z :=
  sum_Z (map free_capacity_gb pools).

(** What [get_cee_storage_summary] derives from the cached pools. *)
Definition capacity_of (pools : list VxSDSStoragePoolInfo) : Capacity :=
  {| total_gb := pools_total pools;
     free_gb := pools_free pools;
     used_gb := pools_total pools - pools_free pools |}.

Definition is_ret {A} (r : Res A) : bool :=
  match r with
  | Ret _ => true
  | Raise _ => false
  end.

(** The storage gateway client answers every listing (the client of
    [cee_vxsds_utils.py] catches its own failures and answers [[]]). *)
Definition gateway_answers (w : World) : Prop :=
  forall n,
    is_ret (protection_domains_at w n) = true /\
    is_ret (storage_pools_at w n) = true /\
    is_ret (volumes_at w n) = true /\
    is_ret (sdc_nodes_at w n) = true /\
    is_ret (sds_nodes_at w n) = true.

(** The free-space check as a function of the summary and of the lists
    it is given: it changes no state, and the division in it is only
    reached under the guard [total_gb > 0]. *)
Definition free_space_checked (m : StorageSummary)
    (iw : list Msg * list Msg) : Res (list Msg * list Msg) :=
  fst (CEEVxSDSManager.check_free_space m iw tt).

(** The findings of the two checks of [monitor_vxsds_health]. *)
Definition classify (m : StorageSummary) : Res (list Msg * list Msg) :=
  free_space_checked m (CEEVxSDSManager.check_nodes m).

(** The precedence rule of the storage classifier. *)
Definition storage_verdict (n_issues n_warnings : nat) : string :=
  match n_issues, n_warnings with
  | S _, _ => "critical"
  | O, S _ => "warning"
  | O, O => "healthy"
  end.

Definition performance_read (w : World) (st : State) : PerformanceData :=
  set_reading (switch_at w (S (List.length (trace st))))
    {| perf_timestamp := clock w (List.length (trace st));
       bridges := []; cpu_usage := []; memory_usage := [] |}.

(** The rule of the network classifier, which has no warning list. *)
Definition network_verdict (n_issues : nat) : string :=
  match n_issues with
  | O => "healthy"
  | 1%nat | 2%nat => "warning"
  | _ => "critical"
  end.

(** What the two checks of [monitor_cee_network_health] find in the
    topology and in the performance data. *)
Definition network_findings (t : Topology) (p : PerformanceData) : list Msg :=
  (if contains (topo_bridges t) "br-int" then []
   else [missing_bridge "br-int"])
  ++ match dict_get (cpu_usage p) "ovs_vswitchd" with
     | Some cpu =>
         if Qlt_bool (inject_Z 80) cpu then [high_vswitchd_cpu cpu] else []
     | None => []
     end.

(** The verdict the reporter derives for each subsystem from what the
    subsystem returned, and the alert line that goes with it. *)
Inductive Level := Healthy | Warning | Critical.

Definition level_name (l : Level) : string :=
  match l with
  | Healthy => "healthy"
  | Warning => "warning"
  | Critical => "critical"
  end.

Definition worst (a b : Level) : Level :=
  match a, b with
  | Critical, _ | _, Critical => Critical
  | Warning, _ | _, Warning => Warning
  | Healthy, Healthy => Healthy
  end.

Definition openstack_level (o : option ClusterStatusResult) : Level :=
  match o with
  | Some os => if String.eqb (cs_status os) "success" then Healthy else Warning
  | None => Healthy
  end.

Definition vxsds_level (o : option HealthReport) : Level :=
  match o with
  | Some h =>
      if String.eqb (overall_status h) "healthy" then Healthy
      else if String.eqb (overall_status h) "critical" then Critical
      else Warning
  | None => Healthy
  end.

Definition vswitchd_cpu (p : PerformanceData) : Q :=
  default (inject_Z 0) (dict_get (cpu_usage p) "ovs_vswitchd").

Definition ovs_level (o : option PerformanceData) : Level :=
  match o with
  | Some p => if Qlt_bool (inject_Z 80) (vswitchd_cpu p) then Warning else Healthy
  | None => Healthy
  end.

Definition worst_of_three (c : Components) : Level :=
  worst (openstack_level (comp_openstack c))
        (worst (vxsds_level (comp_vxsds c)) (ovs_level (comp_ovs c))).

Definition subsystem_alerts (c : Components) : list Msg :=
  (match comp_openstack c with
   | Some os =>
       if String.eqb (cs_status os) "success" then [] else [openstack_alert]
   | None => []
   end)
  ++ (match comp_vxsds c with
      | Some h =>
          if String.eqb (overall_status h) "healthy" then []
          else [vxsds_alert (overall_status h)]
      | None => []
      end)
  ++ (match comp_ovs c with
      | Some p =>
          if Qlt_bool (inject_Z 80) (vswitchd_cpu p)
          then [ovs_cpu_alert (vswitchd_cpu p)] else []
      | None => []
      end).

(** The invariant of the [try] block: health and alerts agree with the
    components recorded so far. *)
Definition consistent (s : SystemStatus) : Prop :=
  overall_health s = level_name (worst_of_three (components s)) /\
  alerts s = subsystem_alerts (components s).

Definition before_vxsds (s : SystemStatus) : Prop :=
  consistent s /\
  comp_vxsds (components s) = None /\ comp_ovs (components s) = None.

Definition before_ovs (s : SystemStatus) : Prop :=
  consistent s /\ comp_ovs (components s) = None.

(** The [try] block of [get_comprehensive_status] and the status it
    starts from. *)
Definition status_body (w : World) (network_globals : list string)
    (self : CEEOrchestrator) : MS (State * SystemStatus) unit :=
  Orchestrator.status_openstack w self ;;
  Orchestrator.status_vxsds w self ;;
  Orchestrator.status_ovs w network_globals self ;;
  Orchestrator.status_recommendations.

(** The exception that the division of the recommendations raises, if
    the division is reached and raises. *)
Definition recommendations_exception (c : Components) : option Exn :=
  match comp_vxsds c with
  | Some health =>
      match metrics health with
      | Some m =>
          if total_gb (capacity m) >? 0
          then match fst (truediv (free_gb (capacity m))
                                  (total_gb (capacity m)) tt) with
               | Ret _ => None
               | Raise e => Some e
               end
          else None
      | None => None
      end
  | None => None
  end.

(** The exception that ends the [try] block, if one does: that of the
    switch monitor when an OVS manager is present and its monitor
    raises, and otherwise that of the recommendations. *)
Definition block_exception {A S} (present : bool) (monitor : Res A * S)
    (c : Components) : option Exn :=
  if present
  then match fst monitor with
       | Ret _ => recommendations_exception c
       | Raise e => Some e
       end
  else recommendations_exception c.

Definition initial_status (now : Q) : SystemStatus :=
  {| ss_timestamp := now; overall_health := "healthy";
     components :=
       {| comp_openstack := None; comp_vxsds := None; comp_ovs := None |};
     alerts := []; recommendations := [] |}.

(** The global state after the probes of a list have run, each once, one
    after the other, whatever each of them returned or raised. *)
Fixpoint after_probes (check_list : list (string * MS State ProbeResult))
    (g : State) : State :=
  match check_list with
  | [] => g
  | check :: rest => after_probes rest (snd (snd check g))
  end.

(** The entry a probe leaves in ["checks"]. *)
Definition entry_of (outcome : Res ProbeResult) : ProbeResult :=
  match outcome with
  | Ret result =>
      match pr_status result with
      | Some _ => result
      | None => check_failed (KeyError "status")
      end
  | Raise e => check_failed e
  end.

Definition tally (h : HealthCheck) : Z := passed h + hc_warnings h + failed h.

(** What a creation result adds to the stack result: the handle of a
    success, nothing for a failure. *)
Definition recorded_volume (res : VmResult) (l : StackResult) : StackResult :=
  if String.eqb (vm_status res) "success"
  then match vm_volume res with
       | Some volume => append_volume volume l
       | None => l
       end
  else l.

Definition recorded_instance (res : VmResult) (l : StackResult)
  : StackResult :=
  if String.eqb (vm_status res) "success"
  then match vm_server res with
       | Some server => append_instance server l
       | None => l
       end
  else l.

Definition volume_attempt (w : World) (name : string) (v : VolumeConfig)
  : MS State VmResult :=
  CEEOpenStackClient.create_vm_with_vxsds_storage w
    (name ++ "-" ++ default "" (vc_name v) ++ "-vol")%string
    "dummy"
    (default "m1.small"%string (vc_flavor v))
    "cee_ctrl_sp"
    (default 20 (vc_size_gb v))
    (default "vxsds_thin_SSD"%string (vc_type v)).

Definition instance_attempt (w : World) (name : string) (i : InstanceConfig)
  : MS State VmResult :=
  CEEOpenStackClient.create_vm_with_vxsds_storage w
    (name ++ "-" ++ default "" (ic_name i))%string
    (default "ubuntu-20.04"%string (ic_image i))
    (default "m1.medium"%string (ic_flavor i))
    (default "default"%string (ic_network i))
    (default 20 (ic_disk_size_gb i))
    (default "vxsds_thin_SSD"%string (ic_volume_type i)).

Definition unmarked (s : State * StackResult) : Prop :=
  sr_status (snd s) = "success" /\ sr_message (snd s) = None.

(** The SDK calls of [create_ovs_network]. *)
Definition is_network_call (c : Call) : bool :=
  match c with
  | conn (create_network _) | conn (create_subnet _) => true
  | _ => false
  end.

(** The state after a subsystem was consulted, if it is present. *)
Definition after {A} (present : bool) (run : Res A * State) (st : State)
  : State :=
  if present then snd run else st.

(** What the reporter records of a subsystem: what it returned, if it
    is present and returned. *)
Definition recorded {A} (present : bool) (run : Res A * State) : option A :=
  if present then returned run else None.

(** ** Concrete worlds *)

Definition pool (name : string) (capacity free : Z) : VxSDSStoragePoolInfo :=
  {| pool_id := name; pool_name := name; pool_protection_domain := "pd1";
     media_type := "SSD"; capacity_gb := capacity; free_capacity_gb := free;
     num_volumes := 0; spare_percentage := 10 |}.

Definition node (name role state : string) : VxSDSNodeInfo :=
  {| node_id := name; node_name := name; ip_addresses := [];
     role := role; state := state; version := "" |}.

(** A laboratory: the clock ticks once per external call from 1000 on,
    the gateway always lists the same pools and nodes and no volumes, and
    the SDK, the switch and the topology are as given. *)
Definition lab (pools : list VxSDSStoragePoolInfo)
    (sdc sds : list VxSDSNodeInfo)
    (sdk_answer : nat -> ConnCall -> Res Obj)
    (cluster : Res (dict Z))
    (reading : SwitchReading) (bridge_names : list string) : World :=
  {| clock := fun n => inject_Z (1000 + Z.of_nat n);
     protection_domains_at := fun _ => Ret ["pd1"];
     storage_pools_at := fun _ => Ret pools;
     volumes_at := fun _ => Ret [];
     sdc_nodes_at := fun _ => Ret sdc;
     sds_nodes_at := fun _ => Ret sds;
     conn_at := sdk_answer;
     ports_at := fun _ => Ret [];
     cluster_at := fun _ => cluster;
     projects_at := fun _ => Ret [];
     system_info_at := fun _ => Ret (Some "system");
     list_br_at := fun _ => (true, bridge_names);
     switch_at := fun _ => reading;
     topology_at := fun _ => {| topo_bridges := bridge_names |} |}.

Definition sdk_ok : nat -> ConnCall -> Res Obj := fun _ _ => Ret (Some "id").

Definition idle_switch : SwitchReading :=
  {| seen_bridges := []; seen_cpu := None; seen_memory := None |}.

Definition busy_switch : SwitchReading :=
  {| seen_bridges := []; seen_cpu := Some (85 # 1); seen_memory := None |}.

Definition sdc1 := node "sdc1" "SDC" "Connected".
Definition sds1 := node "sds1" "SDS" "Normal".

(** Free capacity above the total: one pool of 10 GB reporting 20 GB free. *)
Definition inconsistent_lab : World :=
  lab [pool "pool1" 10 20] [sdc1] [sds1] sdk_ok (Ret []) idle_switch ["br-int"].

(** One pool of one gigabyte that reports [10 ^ 400] gigabytes free. *)
Definition overflowing_lab : World :=
  lab [pool "pool1" 1 (10 ^ 400)] [sdc1] [sds1] sdk_ok (Ret []) idle_switch
      ["br-int"].

(** No pools at all. *)
Definition empty_lab : World :=
  lab [] [sdc1] [sds1] sdk_ok (Ret []) idle_switch ["br-int"].

(** No SDC node, a failing cluster listing and a busy switch. *)
Definition troubled_lab : World :=
  lab [pool "pool1" 100 50] [] [sds1] sdk_ok
      (Raise (mkExn "ConnectionError" "unreachable")) busy_switch [].

(** One pool half free, every node up, a failing cluster listing and a
    busy switch. *)
Definition noisy_lab : World :=
  lab [pool "pool1" 100 50] [sdc1] [sds1] sdk_ok
      (Raise (mkExn "ConnectionError" "unreachable")) busy_switch ["br-int"].

(** The project cannot be created. *)
Definition sdk_conflict : nat -> ConnCall -> Res Obj :=
  fun _ c =>
    match c with
    | create_project _ => Raise (mkExn "ConflictException" "Conflict")
    | _ => Ret (Some "id")
    end.

Definition conflict_lab : World :=
  lab [] [sdc1] [sds1] sdk_conflict (Ret []) idle_switch ["br-int"].

(** The image of the first creation is not found; later ones are. *)
Definition sdk_first_image_missing : nat -> ConnCall -> Res Obj :=
  fun n c =>
    match c with
    | find_image _ => if Nat.eqb n 0 then Ret None else Ret (Some "image")
    | _ => Ret (Some "id")
    end.

Definition image_lab : World :=
  lab [] [sdc1] [sds1] sdk_first_image_missing (Ret []) idle_switch ["br-int"].

(** The integration bridge is missing. *)
Definition bridgeless_lab : World :=
  lab [] [sdc1] [sds1] sdk_ok (Ret []) idle_switch [].

Definition full_orchestrator : CEEOrchestrator :=
  {| openstack_client := true; vxsds_client := true; vxsds_manager := true;
     ovs_manager := true |}.

Definition volume_spec (name : string) : VolumeConfig :=
  {| vc_name := Some name; vc_flavor := None; vc_size_gb := None;
     vc_type := None |}.

Definition two_volumes : StackConfig :=
  {| sc_instances := None;
     sc_volumes := Some [volume_spec "data"; volume_spec "logs"] |}.

Definition boom : Exn := mkExn "RuntimeError" "boom".

Definition raising_battery : list (string * MS State ProbeResult) :=
  [("first", raise boom);
   ("second", ret (probe_result "pass" [Txt "fine"]))].

(** The state after the listed calls were logged, in their order. *)
Definition after_calls (calls : list Call) (g : State) : State :=
  fold_left (fun st c => record_call c st) calls g.

Definition error_result (message : string) : VmResult :=
  {| vm_status := "error"; vm_message := Some message;
     vm_server := None; vm_volume := None |}.

(** Running a plan of commands from the [n]-th event on and stopping at
    the first one that fails: the commands run, and whether all of the
    plan succeeded. *)
Fixpoint until_failure (sw : OVS.Switch) (n : nat)
    (plan : list (list string)) : list (list string) * bool :=
  match plan with
  | [] => ([], true)
  | command :: rest =>
      if fst (OVS.run_at sw n command)
      then (command :: fst (until_failure sw (S n) rest),
            snd (until_failure sw (S n) rest))
      else ([command], false)
  end.

(** The commands of [create_cee_bridge], in their order. *)
Definition bridge_plan (bridge_name : string) (vlan_id : option Z)
    (physical_interface : option string) : list (list string) :=
  [["ovs-vsctl"; "add-br"; bridge_name];
   ["ovs-vsctl"; "set"; "bridge"; bridge_name; "datapath_type=system"]]
  ++ (if truthy_str physical_interface
      then ["ovs-vsctl"; "add-port"; bridge_name;
            default "" physical_interface]
           :: (if truthy_int vlan_id
               then [["ovs-vsctl"; "set"; "port";
                      default "" physical_interface;
                      ("tag=" ++ Py.str_int (default 0 vlan_id))%string]]
               else [])
      else []).

Definition logged (log : OVS.Shell) (commands : list (list string))
  : OVS.Shell :=
  log ++ map OVS.Command commands.

Definition is_tag_command (command : list string) : bool :=
  match nth_error command 4 with
  | Some argument => Py.startswith argument "tag="
  | None => false
  end.

(** The commands of [setup_cee_provider_network] that decide its answer,
    and the one that does not. *)
Definition trunk_command (physical_interface vlan_range : string)
  : list string :=
  ["ovs-vsctl"; "set"; "port"; physical_interface;
   ("trunk=" ++ vlan_range)%string].

Definition stp_command (bridge_name : string) : list string :=
  ["ovs-vsctl"; "set"; "bridge"; bridge_name; "stp_enable=false"].

Definition provider_plan (bridge_name physical_interface vlan_range : string)
  : list (list string) :=
  bridge_plan bridge_name None (Some physical_interface)
  ++ [trunk_command physical_interface vlan_range].

(** What [setup_cee_provider_network] runs from the [n]-th event on. *)
Definition provider_run (sw : OVS.Switch) (n : nat)
    (bridge_name physical_interface vlan_range : string)
  : list (list string) * bool :=
  let steps :=
    until_failure sw n
      (provider_plan bridge_name physical_interface vlan_range) in
  if snd steps then (fst steps ++ [stp_command bridge_name], true)
  else steps.

(** The commands of [setup_cee_tenant_network]. *)
Definition tenant_plan (tunnel_ip : string) : list (list string) :=
  [["ovs-vsctl"; "add-br"; "br-tun"];
   ["ovs-vsctl"; "set"; "bridge"; "br-tun";
    ("other-config:local_ip=" ++ tunnel_ip)%string]].

(** The [add-br] commands among the commands run. *)
Definition bridges_asked (commands : list (list string)) : list string :=
  flat_map (fun command =>
              match command with
              | [_; "add-br"; bridge] => [bridge]
              | _ => []
              end) commands.

(** What [setup_cee_standard_bridges] runs from the [n]-th event on: its
    four steps one after the other, each from where the one before it
    stopped. *)
Definition standard_run (sw : OVS.Switch) (n : nat)
  : list (list string) * bool :=
  let r1 := until_failure sw n (bridge_plan "br-int" None None) in
  let n1 := (List.length (fst r1) + n)%nat in
  let r2 := provider_run sw n1 "br-physnet1" "eno1" "100:4000" in
  let n2 := (List.length (fst r2) + n1)%nat in
  let r3 := provider_run sw n2 "br-physnet2" "eno2" "100:4000" in
  let n3 := (List.length (fst r3) + n2)%nat in
  let r4 := until_failure sw n3 (tenant_plan "192.168.40.20") in
  (fst r1 ++ fst r2 ++ fst r3 ++ fst r4,
   snd r1 && snd r2 && snd r3 && snd r4).

Definition is_role (role : string) (bridge_name : string) : bool :=
  String.eqb (OVS._identify_bridge_role bridge_name) role.

(** A line that names a bridge or a port, and one that starts like one
    but has no second word. *)
Definition keyword_line (line : string) : bool :=
  Py.startswith (Py.strip line) "Bridge"
  || Py.startswith (Py.strip line) "Port".

Definition lone_keyword (line : string) : bool :=
  keyword_line line
  && (List.length (Py.split (Py.strip line)) <? 2)%nat.

(** What a line does to the state of the parser when it has its second
    word. *)
Definition parsed_line (p : OVS.Parser) (line : string) : OVS.Parser :=
  let line := Py.strip line in
  let word := nth 1 (Py.split line) "" in
  if Py.startswith line "Bridge"
  then OVS.open_bridge (Py.strip_chars word OVS.quote) (OVS.close_bridge p)
  else if Py.startswith line "Port"
  then OVS.add_port (Py.strip_chars word OVS.quote) p
  else p.

Definition single (c : ascii) : string := String c "".

Definition is_ascii (c : ascii) : bool := (nat_of_ascii c <? 128)%nat.

Definition ascii_only (s : string) : bool :=
  forallb is_ascii (list_ascii_of_string s).

(** A character of a name: printable ASCII, no space and no double
    quote. *)
Definition plain (c : ascii) : bool :=
  (33 <=? nat_of_ascii c)%nat && (nat_of_ascii c <=? 126)%nat
  && negb (nat_of_ascii c =? 34)%nat.

(** A name: one plain character at least, nothing but plain ones. *)
Definition is_name (s : string) : bool :=
  negb (String.eqb s "") && forallb plain (list_ascii_of_string s).

Definition blank (c : ascii) : bool := Py.isspace (single c).

(** Stripping ASCII text with a test on characters, on the list of its
    bytes. *)
Definition stripped (f : ascii -> bool) (cs : list ascii) : list ascii :=
  rev (Py.dropwhile f (rev (Py.dropwhile f cs))).

(** How the switch prints: which names it puts between double quotes,
    the lines before the first bridge and after the last one, and the
    lines it adds under a bridge and under a port (the interface, its
    type, its options, ...). *)
Record Layout := {
  quoted : string -> bool;
  header : list string;
  bridge_details : string -> list string;
  port_details : string -> list string;
  footer : list string
}.

Definition spaces (n : nat) : string :=
  string_of_list_ascii (repeat " "%char n).

Definition shown (layout : Layout) (name : string) : string :=
  if quoted layout name then (OVS.quote ++ name ++ OVS.quote)%string
  else name.

Definition bridge_line (layout : Layout) (bridge : string) : string :=
  (spaces 4 ++ "Bridge " ++ shown layout bridge)%string.

Definition port_line (layout : Layout) (port : string) : string :=
  (spaces 8 ++ "Port " ++ shown layout port)%string.

Definition shown_port (layout : Layout) (port : string) : list string :=
  port_line layout port :: port_details layout port.

Definition shown_bridge (layout : Layout) (b : string * list string)
  : list string :=
  bridge_line layout (fst b) :: bridge_details layout (fst b)
  ++ flat_map (shown_port layout) (snd b).

Definition show_lines (layout : Layout) (bs : list (string * list string))
  : list string :=
  header layout ++ flat_map (shown_bridge layout) bs ++ footer layout.

(** The output of [ovs-vsctl show] for the bridges [bs], each with its
    ports. *)
Definition show (layout : Layout) (bs : list (string * list string))
  : string :=
  String.concat OVS.newline (show_lines layout bs).

Definition no_newline (line : string) : bool :=
  forallb (fun c => negb (Ascii.eqb c "010"%char)) (list_ascii_of_string line).

(** A line that the parser passes over and that holds no line break. *)
Definition passed_over (line : string) : bool :=
  negb (keyword_line line) && no_newline line.

Definition well_formed (layout : Layout) : Prop :=
  forallb passed_over (header layout) = true /\
  forallb passed_over (footer layout) = true /\
  (forall name, forallb passed_over (bridge_details layout name) = true) /\
  (forall name, forallb passed_over (port_details layout name) = true).

(** The dict the bridges [bs] stand for: one entry per bridge, a later
    bridge of the same name replacing the earlier one. *)
Definition described (bs : list (string * list string))
  : dict OVS.OVSBridgeInfo :=
  fold_left (fun d b => dict_set d (fst b) (OVS.bridge_info (fst b) (snd b)))
            bs [].

(** A word: ASCII text that is not empty and holds no whitespace. *)
Definition is_word (w : string) : bool :=
  negb (String.eqb w "") && ascii_only w
  && forallb (fun c => negb (blank c)) (list_ascii_of_string w).

Definition is_quote (c : ascii) : bool :=
  existsb (String.eqb (single c)) (Py.chars OVS.quote).

Definition well_named (bs : list (string * list string)) : bool :=
  forallb (fun b => is_name (fst b) && forallb is_name (snd b)) bs.

(** A block of statements keeps [P]: if [P] holds of the local object
    before the block, it holds after it, whether the block finished or
    raised. *)
Definition keeps {G L A} (P : L -> Prop) (m : MS (G * L) A) : Prop :=
  forall s, P (snd s) -> P (snd (snd (m s))).

(** A dict that holds the key ["ovs_vswitchd"] or nothing. *)
Definition of_the_daemon {V} (d : dict V) : Prop :=
  d = [] \/ exists x, d = [("ovs_vswitchd", x)].

(** What holds of the data of [monitor_ovs_performance] all along: the
    time stamp read first, only bridges that are lines of the bridge
    list, and at most the daemon's key in the two dicts of the
    process. *)
Definition monitored (now : Q) (listed : list string) (p : OVS.Performance)
  : Prop :=
  OVS.pd_timestamp p = now /\
  Forall (fun entry => In (fst entry) listed) (OVS.pd_bridges p) /\
  of_the_daemon (OVS.pd_cpu_usage p) /\
  of_the_daemon (OVS.pd_memory_usage p).

(** What holds of the topology while the bridges are collected: every
    bridge recorded is one of the names listed, with the role that
    [_identify_bridge_role] gives its name, and no node type is set. *)
Definition collecting (listed : list string) (t : OVS.TopologyData) : Prop :=
  Forall (fun entry =>
            In (fst entry) listed /\
            OVS.be_role (snd entry) = OVS._identify_bridge_role (fst entry))
         (OVS.td_bridges t) /\
  OVS.td_node_type t = None.

Definition discovered (listed : list string) (t : OVS.TopologyData) : Prop :=
  Forall (fun entry =>
            In (fst entry) listed /\
            OVS.be_role (snd entry) = OVS._identify_bridge_role (fst entry))
         (OVS.td_bridges t) /\
  (OVS.td_node_type t = None \/
   OVS.td_node_type t
   = Some (OVS._identify_node_roles (dict_keys (OVS.td_bridges t)))).

(** From [P] before the block to [Q] after it, finished or not. *)
Definition leads {G L A} (P Q : L -> Prop) (m : MS (G * L) A) : Prop :=
  forall s, P (snd s) -> Q (snd (snd (m s))).

Definition is_pool1 (pool : VxSDSStoragePoolInfo) : bool :=
  String.eqb (pool_name pool) "pool1".

(** The pool [get_default_storage_pool] picks among the cached pools. *)
Definition default_of (pools : list VxSDSStoragePoolInfo)
  : option VxSDSStoragePoolInfo :=
  match find is_pool1 pools with
  | Some pool => Some pool
  | None => hd_error pools
  end.

(** The request [create_cee_volume] sends for a pool. *)
Definition volume_request (name : string) (size : Z) (type : string)
    (pool : VxSDSStoragePoolInfo) : GatewayRequest :=
  post_volume name size (pool_id pool)
    (if String.eqb type "thin" then "ThinProvisioned" else "ThickProvisioned").




(** [free_gb / total_gb * 100], as both functions compute it. *)
Definition free_percentage (m : StorageSummary) : Res Float :=
  match fst (truediv (S:=unit) (free_gb (capacity m))
                     (total_gb (capacity m)) tt) with
  | Ret q => Ret (float_mul q (Finite false (inject_Z 100)))
  | Raise e => Raise e
  end.




Definition is_dict (v : Py.Json) : bool :=
  match v with
  | Py.JDict _ => true
  | _ => false
  end.

(** The ["id"] of an entry of a listing, where the entry is a dict that
    has one. *)
Definition id_of (v : Py.Json) : list Py.Json :=
  match v with
  | Py.JDict entries =>
      match dict_get entries "id" with
      | Some x => [x]
      | None => []
      end
  | _ => []
  end.

(** An answer of the gateway that lists [items]: a dict whose ["data"],
    a list by default, is gone through as [items] by a [for] loop. *)
Definition listing (response : Py.Json) (items : list Py.Json) : Prop :=
  exists d,
    response = Py.JDict d /\
    fst (Py.iter (match dict_get d "data" with
                  | Some x => x
                  | None => Py.JList []
                  end) tt) = Ret items.

Definition get_request (endpoint_ : list VxSDSClient.Part)
  : VxSDSClient.Request :=
  {| VxSDSClient.method := "GET"; VxSDSClient.endpoint := endpoint_;
     VxSDSClient.data := None |}.

Definition sdc_request : VxSDSClient.Request :=
  get_request [VxSDSClient.Lit "/instances/Sdc"].

Definition sds_request : VxSDSClient.Request :=
  get_request [VxSDSClient.Lit "/instances/Sds"].

(** The node [get_sdc_nodes] makes of an entry, if it makes one. *)
Definition sdc_of (node_data : Py.Json) : list VxSDSClient.VxSDSNodeInfo :=
  match node_data with
  | Py.JDict entries =>
      match dict_get entries "id" with
      | Some id_ =>
          [{| VxSDSClient.node_id := id_;
              VxSDSClient.node_name :=
                match dict_get entries "name" with
                | Some x => x
                | None => Py.JStr ""
                end;
              VxSDSClient.ip_addresses :=
                [match dict_get entries "sdcIp" with
                 | Some x => x
                 | None => Py.JStr ""
                 end];
              VxSDSClient.role := "SDC";
              VxSDSClient.state :=
                match dict_get entries "mdmConnectionState" with
                | Some x => x
                | None => Py.JStr "unknown"
                end;
              VxSDSClient.version :=
                match dict_get entries "versionInfo" with
                | Some x => x
                | None => Py.JStr ""
                end |}]
      | None => []
      end
  | _ => []
  end.

(** What a function that builds its list in a loop returns for an
    outcome of the loop. *)
Definition loop_outcome {G L} (run : Res unit * (G * L)) : Res L * G :=
  (match fst run with
   | Ret _ => Ret (snd (snd run))
   | Raise e => Raise e
   end,
   fst (snd run)).

(** Where a block ends, whether it returns or raises. *)
Definition lands {S A} (s : S) (Q : S -> Prop) (m : MS S A) : Prop :=
  Q (snd (m s)).

Definition pools_request (protection_domain_id : Py.Json)
  : VxSDSClient.Request :=
  get_request
    (if Py.truthy protection_domain_id
     then [VxSDSClient.Lit "/instances/ProtectionDomain::";
           VxSDSClient.Val protection_domain_id;
           VxSDSClient.Lit "/relationships/StoragePool"]
     else [VxSDSClient.Lit "/instances/StoragePool"]).

Definition pool_statistics_request (pool : Py.Json) : VxSDSClient.Request :=
  get_request
    [VxSDSClient.Lit "/instances/StoragePool::"; VxSDSClient.Val pool;
     VxSDSClient.Lit "/relationships/Statistics"].

(** What [_make_request] returns for an answer whose body is not JSON. *)
Definition text_body (text : string) : Py.Json :=
  Py.JDict [("status", Py.JStr "success"); ("data", Py.JStr text)].

Definition volumes_request (storage_pool_id : Py.Json)
  : VxSDSClient.Request :=
  get_request
    (if Py.truthy storage_pool_id
     then [VxSDSClient.Lit "/instances/StoragePool::";
           VxSDSClient.Val storage_pool_id;
           VxSDSClient.Lit "/relationships/Volume"]
     else [VxSDSClient.Lit "/instances/Volume"]).

Definition system_request : VxSDSClient.Request :=
  get_request [VxSDSClient.Lit "/instances/System"].

Definition system_statistics_request (system_id : Py.Json)
  : VxSDSClient.Request :=
  get_request
    [VxSDSClient.Lit "/instances/System::"; VxSDSClient.Val system_id;
     VxSDSClient.Lit "/relationships/Statistics"].

(** The ["id"] of the first system of an answer. *)
Definition first_system_id (system_info : Py.Json) : option Py.Json :=
  match system_info with
  | Py.JDict d =>
      match dict_get d "data" with
      | Some (Py.JList (Py.JDict first :: _)) => dict_get first "id"
      | _ => None
      end
  | _ => None
  end.

(** Whether the SDK answered a call with an object. *)
Definition answered (answer : Res Obj) : bool :=
  match answer with
  | Ret (Some _) => true
  | _ => false
  end.

(** The calls of [create_ovs_network] that were made: the subnet is
    asked for when a CIDR is given and the network is an object. *)
Definition network_calls (w : World) (name : string) (cidr : option string)
    (n : nat) : list Call :=
  conn (create_network name)
  :: (if truthy_str cidr && answered (conn_at w n (create_network name))
      then [conn (create_subnet (name ++ "-subnet"))]
      else []).

(** What [_create_tenant_security_groups] can return: nothing, the web
    group, or the web group and the SSH group, each an object. *)
Definition group_prefix (groups : dict Obj) : Prop :=
  groups = [] \/
  (exists web, groups = [("web", Some web)]) \/
  (exists web ssh, groups = [("web", Some web); ("ssh", Some ssh)]).

(** No networking error is among the errors of a result. *)
Definition no_networking_error (r : TenantResult) : Prop :=
  forall message, ~ In (networking_error message) (errors r).


(** A switch on which every command succeeds and prints nothing, and one
    on which disabling STP fails. *)
Definition quiet_switch : OVS.Switch :=
  {| OVS.now_at := fun n => inject_Z (Z.of_nat n);
     OVS.run_at := fun _ _ => (true, "") |}.

Definition stp_less_switch : OVS.Switch :=
  {| OVS.now_at := fun n => inject_Z (Z.of_nat n);
     OVS.run_at := fun _ command =>
       if list_eq_dec string_dec command (stp_command "br-physnet1")
       then (false, "not supported")
       else (true, "") |}.

(** A layout close to what [ovs-vsctl show] prints: the identifier of
    the switch first, the failure mode under each bridge, the interface
    type under each port, the version last; [eth0] between quotes. *)
Definition lab_layout : Layout :=
  {| quoted := fun name => String.eqb name "eth0";
     header := ["2f6d4a2e-6c1b-4c3e-9d4f-0a1b2c3d4e5f"];
     bridge_details := fun _ => ["        fail_mode: secure"];
     port_details := fun _ => ["                type: internal"];
     footer := ["    ovs_version: 2.17.9"] |}.

Definition lab_bridges : list (string * list string) :=
  [("br-int", ["br-int"; "eth0"]); ("br-tun", [])].

(** Two pools, the one named [pool1] second. *)
Definition two_pools_lab : World :=
  lab [pool "fast" 10 5; pool "pool1" 10 5] [sdc1] [sds1] sdk_ok (Ret [])
      idle_switch ["br-int"].

(** A gateway that creates nothing and maps everything. *)
Definition quiet_gateway : Gateway :=
  {| volume_created_at := fun _ _ => Py.JNone;
     sdc_mapped_at := fun _ _ => true;
     statistics_at := fun _ => Ret Py.JNone |}.

(** A gateway that answers every request with the same listing, and one
    that answers every request with a page that is not JSON. *)
Definition listing_server (entries : list Py.Json) : VxSDSClient.Server :=
  {| VxSDSClient.respond := fun _ _ =>
       Py.JDict [("data", Py.JList entries)] |}.

Definition page_server : VxSDSClient.Server :=
  {| VxSDSClient.respond := fun _ _ => text_body "<html>" |}.

Definition mixed_entries : list Py.Json :=
  [Py.JDict [("id", Py.JStr "a"); ("name", Py.JStr "first")];
   Py.JDict [("name", Py.JStr "nameless")];
   Py.JStr "b";
   Py.JDict [("id", Py.JStr "c"); ("name", Py.JStr "third")]].

(** The network cannot be created. *)
Definition sdk_no_network : nat -> ConnCall -> Res Obj :=
  fun _ c =>
    match c with
    | create_network _ => Raise (mkExn "ConflictException" "Conflict")
    | _ => Ret (Some "id")
    end.

Definition netless_lab : World :=
  lab [] [sdc1] [sds1] sdk_no_network (Ret []) idle_switch ["br-int"].

(** * Properties *)

(** ** The monad *)

Lemma bind_Ret {S A B} (m : MS S A) (k : A -> MS S B) s a s' :
  m s = (Ret a, s') -> bind m k s = k a s'.
Proof. intros H. unfold bind. now rewrite H. Qed.

Lemma bind_Raise {S A B} (m : MS S A) (k : A -> MS S B) s e s' :
  m s = (Raise e, s') -> bind m k s = (Raise e, s').
Proof. intros H. unfold bind. now rewrite H. Qed.

Lemma external_run {A} (c : Call) (answer : nat -> Res A) st :
  external c answer st = (answer (List.length (trace st)), record_call c st).
Proof. reflexivity. Qed.

(** ** Capacity totals *)

Lemma fold_left_add_shift (xs : list Z) (a : Z) :
  fold_left Z.add xs a = a + fold_left Z.add xs 0.
Proof.
  revert a. induction xs as [|x xs IH]; intros a; simpl.
  - lia.
  - rewrite (IH (a + x)), (IH x). lia.
Qed.

Lemma fold_add_pool (pools : list VxSDSStoragePoolInfo) d t f :
  snd (fst (fold_left add_pool pools (d, t, f))) = t + pools_total pools /\
  snd (fold_left add_pool pools (d, t, f)) = f + pools_free pools.
Proof.
  revert d t f. induction pools as [|p ps IH]; intros d t f.
  - unfold pools_total, pools_free, sum_Z. simpl. lia.
  - simpl.
    destruct (IH (dict_set d (pool_name p)
                   {| ps_capacity_gb := capacity_gb p;
                      ps_free_capacity_gb := free_capacity_gb p;
                      ps_num_volumes := num_volumes p;
                      ps_media_type := media_type p |})
                 (t + capacity_gb p) (f + free_capacity_gb p)) as [Ht Hf].
    rewrite Ht, Hf. unfold pools_total, pools_free, sum_Z. simpl.
    rewrite (fold_left_add_shift _ (capacity_gb p)).
    rewrite (fold_left_add_shift _ (free_capacity_gb p)). lia.
Qed.

Lemma _update_cache_fresh w st :
  Qlt_bool (_cache_ttl st)
           (clock w (List.length (trace st)) - _cache_time st) = false ->
  CEEVxSDSManager._update_cache w st = (Ret tt, record_call time_time st).
Proof.
  intros H. unfold CEEVxSDSManager._update_cache, bind, external, get.
  simpl. now rewrite H.
Qed.

Lemma record_call_caches c st :
  _storage_pools_cache (record_call c st) = _storage_pools_cache st /\
  _protection_domains_cache (record_call c st) = _protection_domains_cache st /\
  _cache_time (record_call c st) = _cache_time st /\
  _cache_ttl (record_call c st) = _cache_ttl st.
Proof. now repeat split. Qed.

(** The summary is a function of the cache as [_update_cache] left it, of
    the clock and of three gateway answers. *)
Lemma get_cee_storage_summary_inv w st s st' :
  CEEVxSDSManager.get_cee_storage_summary w st = (Ret s, st') ->
  exists st1,
    CEEVxSDSManager._update_cache w st = (Ret tt, st1) /\
    _storage_pools_cache st' = _storage_pools_cache st1 /\
    _protection_domains_cache st' = _protection_domains_cache st1 /\
    _cache_time st' = _cache_time st1 /\
    _cache_ttl st' = _cache_ttl st1 /\
    trace st' = trace st1 ++ [time_time; get_volumes; get_sdc_nodes; get_sds_nodes] /\
    capacity s = capacity_of (or_empty (_storage_pools_cache st1)) /\
    storage_pools s =
      fst (fst (fold_left add_pool (or_empty (_storage_pools_cache st1))
                          ([], 0, 0))) /\
    protection_domains s = len (or_empty (_protection_domains_cache st1)).
Proof.
  unfold CEEVxSDSManager.get_cee_storage_summary.
  unfold bind at 1.
  destruct (CEEVxSDSManager._update_cache w st) as [[[]|e] st1]; [|discriminate].
  unfold bind, external, get, ret. simpl.
  destruct (volumes_at w _) as [vols|e]; [|discriminate].
  destruct (sdc_nodes_at w _) as [sdc|e]; [|discriminate].
  destruct (sds_nodes_at w _) as [sds|e]; [|discriminate].
  intros H. inversion H; subst; clear H. simpl.
  exists st1. repeat split; try reflexivity.
  - now rewrite <- !app_assoc.
  - unfold capacity_of.
    destruct (fold_add_pool (or_empty (_storage_pools_cache st1)) [] 0 0)
      as [Ht Hf].
    rewrite Z.add_0_l in Ht, Hf.
    f_equal; [exact Ht | exact Hf | f_equal; [exact Ht | exact Hf]].
Qed.

Lemma is_ret_inv {A} (r : Res A) : is_ret r = true -> exists a, r = Ret a.
Proof. destruct r; [eauto | discriminate]. Qed.

Ltac answer H :=
  match goal with
  | |- context [protection_domains_at ?w ?n] =>
      let x := fresh "pds" in let E := fresh "E" in
      destruct (is_ret_inv _ (proj1 (H n))) as [x E]; rewrite E; clear E
  | |- context [storage_pools_at ?w ?n] =>
      let x := fresh "pools" in let E := fresh "E" in
      destruct (is_ret_inv _ (proj1 (proj2 (H n)))) as [x E]; rewrite E; clear E
  | |- context [volumes_at ?w ?n] =>
      let x := fresh "vols" in let E := fresh "E" in
      destruct (is_ret_inv _ (proj1 (proj2 (proj2 (H n))))) as [x E];
      rewrite E; clear E
  | |- context [sdc_nodes_at ?w ?n] =>
      let x := fresh "sdc" in let E := fresh "E" in
      destruct (is_ret_inv _ (proj1 (proj2 (proj2 (proj2 (H n)))))) as [x E];
      rewrite E; clear E
  | |- context [sds_nodes_at ?w ?n] =>
      let x := fresh "sds" in let E := fresh "E" in
      destruct (is_ret_inv _ (proj2 (proj2 (proj2 (proj2 (H n)))))) as [x E];
      rewrite E; clear E
  end.




(** Without the assumption on the gateway: whatever summary is returned
    obeys the same equation. *)
Lemma used_gb_of_returned_summary w st s st' :
  CEEVxSDSManager.get_cee_storage_summary w st = (Ret s, st') ->
  used_gb (capacity s) = total_gb (capacity s) - free_gb (capacity s).
Proof.
  intros E.
  destruct (get_cee_storage_summary_inv _ _ _ _ E)
    as (st1 & _ & _ & _ & _ & _ & _ & Hc & _).
  now rewrite Hc.
Qed.

(** C3 (amended): a second call whose clock reading is within
    [_cache_ttl] of [_cache_time] lists neither protection domains nor
    pools again and leaves the cache as it is, so the capacity, pool and
    protection-domain entries repeat those of the first call; it still
    reads the clock twice and lists volumes, SDC nodes and SDS nodes. *)
Theorem second_summary_within_ttl w st s1 st1 s2 st2 :
  CEEVxSDSManager.get_cee_storage_summary w st = (Ret s1, st1) ->
  (clock w (List.length (trace st1)) - _cache_time st1 <= _cache_ttl st1)%Q ->
  CEEVxSDSManager.get_cee_storage_summary w st1 = (Ret s2, st2) ->
  trace st2 =
    trace st1 ++ [time_time; time_time; get_volumes; get_sdc_nodes;
                  get_sds_nodes] /\
  capacity s2 = capacity s1 /\
  storage_pools s2 = storage_pools s1 /\
  protection_domains s2 = protection_domains s1 /\
  _storage_pools_cache st2 = _storage_pools_cache st1 /\
  _protection_domains_cache st2 = _protection_domains_cache st1 /\
  _cache_time st2 = _cache_time st1.
Proof.
  intros E1 Httl E2.
  destruct (get_cee_storage_summary_inv _ _ _ _ E1)
    as (m1 & _ & Hp1 & Hd1 & _ & _ & _ & Hc1 & Hs1 & Hn1).
  destruct (get_cee_storage_summary_inv _ _ _ _ E2)
    as (m2 & U2 & Hp2 & Hd2 & Ht2 & _ & Htr2 & Hc2 & Hs2 & Hn2).
  rewrite _update_cache_fresh in U2.
  - inversion U2; subst m2; clear U2. simpl in *.
    rewrite Htr2, Hc2, Hs2, Hn2, Hc1, Hs1, Hn1, Hp2, Hd2, Ht2, <- Hp1, <- Hd1.
    rewrite <- app_assoc. simpl. repeat split; reflexivity.
  - unfold Qlt_bool. apply negb_false_iff. now apply Qle_bool_iff.
Qed.

(** ** The storage classifier *)

Lemma check_free_space_run {S} (m : StorageSummary) iw (s : S) :
  CEEVxSDSManager.check_free_space m iw s = (free_space_checked m iw, s).
Proof.
  unfold free_space_checked, CEEVxSDSManager.check_free_space.
  destruct (total_gb (capacity m) >? 0); [|reflexivity].
  unfold truediv, bind.
  destruct (total_gb (capacity m) =? 0); [reflexivity|].
  destruct (nearest_double _ _); [|reflexivity].
  unfold ret.
  destruct (float_lt_int _ 10); [reflexivity|].
  destruct (float_lt_int _ 20); reflexivity.
Qed.

Lemma free_space_checked_zero m iw :
  total_gb (capacity m) = 0 -> free_space_checked m iw = Ret iw.
Proof.
  intros Z. unfold free_space_checked, CEEVxSDSManager.check_free_space.
  now rewrite Z.
Qed.

(** All the check can raise is the [OverflowError] of the division. *)
Lemma free_space_checked_Raise m iw e :
  free_space_checked m iw = Raise e ->
  e = OverflowError /\ 0 < total_gb (capacity m) /\
  nearest_double (Z.abs (free_gb (capacity m)))
                 (Z.abs (total_gb (capacity m))) = None.
Proof.
  unfold free_space_checked, CEEVxSDSManager.check_free_space.
  destruct (total_gb (capacity m) >? 0) eqn:G; [|discriminate].
  unfold truediv, bind.
  assert (Z : (total_gb (capacity m) =? 0) = false) by lia.
  rewrite Z.
  destruct (nearest_double _ _).
  - unfold ret. destruct (float_lt_int _ 10); [discriminate|].
    destruct (float_lt_int _ 20); discriminate.
  - cbn. intros H. inversion H. split; [reflexivity|]. split; [lia|].
    reflexivity.
Qed.

Lemma monitor_vxsds_health_Ret w st m st' iw :
  CEEVxSDSManager.get_cee_storage_summary w (record_call time_time st)
    = (Ret m, st') ->
  classify m = Ret iw ->
  CEEVxSDSManager.monitor_vxsds_health w st =
    (Ret {| hr_timestamp := clock w (List.length (trace st));
            overall_status :=
              storage_verdict (List.length (fst iw)) (List.length (snd iw));
            issues := fst iw;
            warnings := snd iw;
            metrics := Some m |}, st').
Proof.
  intros E C.
  unfold CEEVxSDSManager.monitor_vxsds_health.
  unfold bind at 1. rewrite external_run.
  unfold with_local, bind at 1, try_except, bind at 1, on_global.
  cbn [fst snd]. rewrite E.
  unfold bind at 1, update at 1. cbn [fst snd].
  unfold bind at 1. rewrite check_free_space_run. fold (classify m).
  rewrite C.
  unfold bind, update, local, ret. cbn [fst snd].
  destruct (fst iw) as [|i rest]; cbn [nonempty List.length storage_verdict].
  - destruct (snd iw) as [|x xs]; reflexivity.
  - reflexivity.
Qed.

(** The division overflowed: the handler reports it, and the summary
    stays in the report. *)
Lemma monitor_vxsds_health_Overflow w st m st' e :
  CEEVxSDSManager.get_cee_storage_summary w (record_call time_time st)
    = (Ret m, st') ->
  classify m = Raise e ->
  CEEVxSDSManager.monitor_vxsds_health w st =
    (Ret {| hr_timestamp := clock w (List.length (trace st));
            overall_status := "error";
            issues := [monitoring_error e];
            warnings := [];
            metrics := Some m |}, st').
Proof.
  intros E C.
  unfold CEEVxSDSManager.monitor_vxsds_health.
  unfold bind at 1. rewrite external_run.
  unfold with_local, bind at 1, try_except, bind at 1, on_global.
  cbn [fst snd]. rewrite E.
  unfold bind at 1, update at 1. cbn [fst snd].
  unfold bind at 1. rewrite check_free_space_run. fold (classify m).
  rewrite C. reflexivity.
Qed.

Lemma monitor_vxsds_health_Raise w st e st' :
  CEEVxSDSManager.get_cee_storage_summary w (record_call time_time st)
    = (Raise e, st') ->
  CEEVxSDSManager.monitor_vxsds_health w st =
    (Ret {| hr_timestamp := clock w (List.length (trace st));
            overall_status := "error";
            issues := [monitoring_error e];
            warnings := [];
            metrics := None |}, st').
Proof.
  intros E.
  unfold CEEVxSDSManager.monitor_vxsds_health.
  unfold bind at 1. rewrite external_run.
  unfold with_local, bind at 1, try_except, bind at 1, on_global.
  cbn [fst snd]. rewrite E. reflexivity.
Qed.

(** [monitor_vxsds_health] returns a report on every input. *)
Lemma monitor_vxsds_health_returns w st :
  exists r st', CEEVxSDSManager.monitor_vxsds_health w st = (Ret r, st').
Proof.
  destruct (CEEVxSDSManager.get_cee_storage_summary w (record_call time_time st))
    as [[m|e] st'] eqn:E.
  - destruct (classify m) as [iw|e] eqn:C.
    + rewrite (monitor_vxsds_health_Ret _ _ _ _ _ E C). eauto.
    + rewrite (monitor_vxsds_health_Overflow _ _ _ _ _ E C). eauto.
  - rewrite (monitor_vxsds_health_Raise _ _ _ _ E). eauto.
Qed.

Lemma check_nodes_issues m i :
  In i (fst (CEEVxSDSManager.check_nodes m)) ->
  i = no_sdc_nodes \/ i = no_sds_nodes.
Proof.
  unfold CEEVxSDSManager.check_nodes.
  destruct (sdc_count (nodes m) =? 0), (sds_count (nodes m) =? 0),
    (sdc_online (nodes m) <? sdc_count (nodes m)),
    (sds_online (nodes m) <? sds_count (nodes m));
    simpl; intuition auto.
Qed.

Lemma check_nodes_warnings m x :
  In x (snd (CEEVxSDSManager.check_nodes m)) ->
  x = sdc_not_all_online (sdc_online (nodes m)) (sdc_count (nodes m)) \/
  x = sds_not_all_online (sds_online (nodes m)) (sds_count (nodes m)).
Proof.
  unfold CEEVxSDSManager.check_nodes.
  destruct (sdc_count (nodes m) =? 0), (sds_count (nodes m) =? 0),
    (sdc_online (nodes m) <? sdc_count (nodes m)),
    (sds_online (nodes m) <? sds_count (nodes m));
    simpl; intuition auto.
Qed.

(** C8: when the summary that [monitor_vxsds_health] obtains has
    [total_gb = 0], the free-space check returns the lists it was given
    without evaluating the division, and the report that is returned
    carries the node findings only: no capacity issue, no capacity
    warning, and a verdict other than [error]. *)
Theorem zero_total_skips_capacity_check w st m st' :
  CEEVxSDSManager.get_cee_storage_summary w (record_call time_time st)
    = (Ret m, st') ->
  total_gb (capacity m) = 0 ->
  (forall iw (s : State * HealthReport),
      CEEVxSDSManager.check_free_space m iw s = (Ret iw, s)) /\
  exists r,
    CEEVxSDSManager.monitor_vxsds_health w st = (Ret r, st') /\
    metrics r = Some m /\
    issues r = fst (CEEVxSDSManager.check_nodes m) /\
    warnings r = snd (CEEVxSDSManager.check_nodes m) /\
    (forall q, ~ In (critically_low_space q) (issues r)) /\
    (forall q, ~ In (low_space q) (warnings r)) /\
    overall_status r <> "error".
Proof.
  intros E Z. split.
  - intros iw s. rewrite check_free_space_run.
    now rewrite (free_space_checked_zero _ _ Z).
  - assert (C : classify m = Ret (CEEVxSDSManager.check_nodes m))
      by now apply free_space_checked_zero.
    rewrite (monitor_vxsds_health_Ret _ _ _ _ _ E C).
    eexists; split; [reflexivity|].
    cbn [metrics issues warnings overall_status].
    repeat split.
    + intros q Hin. apply check_nodes_issues in Hin.
      destruct Hin; discriminate.
    + intros q Hin. apply check_nodes_warnings in Hin.
      destruct Hin; discriminate.
    + destruct (fst (CEEVxSDSManager.check_nodes m)),
        (snd (CEEVxSDSManager.check_nodes m)); discriminate.
Qed.

(** ** The switch monitor and the network classifier *)

Lemma global_name_bound {S} globals name (s : S) :
  contains globals name = true -> global_name globals name s = (Ret tt, s).
Proof. unfold global_name, contains. now intros ->. Qed.

Lemma global_name_unbound {S} globals name (s : S) :
  contains globals name = false ->
  global_name globals name s = (Raise (NameError name), s).
Proof. unfold global_name, contains. now intros ->. Qed.

Lemma monitor_ovs_performance_unbound w globals st :
  contains globals "time" = false ->
  CEEOVSManager.monitor_ovs_performance w globals st
    = (Raise (NameError "time"), st).
Proof.
  intros H. unfold CEEOVSManager.monitor_ovs_performance.
  apply bind_Raise. now apply global_name_unbound.
Qed.

Lemma monitor_ovs_performance_bound w globals st :
  contains globals "time" = true ->
  CEEOVSManager.monitor_ovs_performance w globals st
    = (Ret (performance_read w st),
       record_call (ovs_commands "monitor_ovs_performance")
                   (record_call time_time st)).
Proof.
  intros H. unfold CEEOVSManager.monitor_ovs_performance.
  rewrite (bind_Ret _ _ _ _ _ (global_name_bound _ _ _ H)).
  unfold bind at 1. rewrite external_run.
  unfold with_local, try_except, bind, on_global, external, update, local.
  cbn [fst snd trace record_call].
  rewrite length_app. cbn [List.length]. rewrite Nat.add_1_r.
  reflexivity.
Qed.

Lemma network_findings_at_most_two t p :
  (List.length (network_findings t p) <= 2)%nat.
Proof.
  unfold network_findings.
  destruct (contains _ _); destruct (dict_get _ _) as [cpu|];
    try destruct (Qlt_bool _ cpu); cbn; lia.
Qed.

Lemma monitor_cee_network_health_run w globals st :
  contains globals "time" = true ->
  exists r t p st2 st',
    monitor_cee_network_health w globals st = (Ret r, st') /\
    CEENetworkTopology.discover_cee_topology w (record_call time_time st)
      = (Ret t, st2) /\
    CEEOVSManager.monitor_ovs_performance w globals st2 = (Ret p, st') /\
    nh_topology r = Some t /\
    nh_performance r = Some p /\
    nh_issues r = network_findings t p /\
    nh_overall_status r = network_verdict (List.length (nh_issues r)).
Proof.
  intros H. unfold monitor_cee_network_health.
  rewrite (bind_Ret _ _ _ _ _ (global_name_bound _ _ _ H)).
  unfold bind at 1. rewrite external_run.
  unfold with_local, bind at 1, try_except, bind at 1, on_global at 1.
  unfold CEENetworkTopology.discover_cee_topology. rewrite !external_run.
  cbn [fst snd].
  unfold bind at 1, update at 1. cbn [fst snd].
  unfold bind at 1, on_global at 1. cbn [fst snd].
  rewrite (monitor_ovs_performance_bound _ _ _ H).
  unfold bind at 1, update at 1. cbn [fst snd].
  set (perf := performance_read _ _).
  set (topo := topology_at _ _).
  cbn [fold_left]. unfold network_findings.
  destruct (contains (topo_bridges topo) "br-int") eqn:B;
    destruct (dict_get (cpu_usage perf) "ovs_vswitchd") as [cpu|] eqn:D;
    try destruct (Qlt_bool (inject_Z 80) cpu) eqn:Q;
    (eexists; exists topo, perf;
     exists (record_call (ovs_commands "discover_cee_topology")
               (record_call time_time st));
     eexists;
     split; [reflexivity|]; split; [reflexivity|];
     split; [now apply monitor_ovs_performance_bound|]);
    cbn [fst snd nh_topology nh_performance nh_issues nh_overall_status
         set_nh_issues set_nh_overall_status set_nh_performance
         set_nh_topology negb app List.length network_verdict len];
    rewrite ?B, ?D, ?Q; repeat split; reflexivity.
Qed.

(** C6 (amended): the storage classifier returns on every input.  When
    it obtains the summary and the free-space check finishes, the report
    carries the summary and the findings of the two checks, and the
    verdict is [critical] for any issue, [warning] for no issue and some
    warning and [healthy] for neither.  When obtaining the summary
    raises, and when the division of the free-space check overflows
    (the total is above zero and the quotient has no nearest double; the
    summary then stays in the report), the verdict is [error] and the
    one issue is the text of the exception.  The network
    classifier, run with [time] bound, records the topology and the
    performance data it read, has no warning list and reports [healthy]
    for no issue and [warning] for one or two issues, which is all its
    two checks can find ([critical] is kept for more than two). *)
Theorem verdict_rules :
  (forall w st,
      exists r st',
        CEEVxSDSManager.monitor_vxsds_health w st = (Ret r, st') /\
        match CEEVxSDSManager.get_cee_storage_summary w
                (record_call time_time st) with
        | (Ret m, st1) =>
            st' = st1 /\ metrics r = Some m /\
            match classify m with
            | Ret iw =>
                issues r = fst iw /\ warnings r = snd iw /\
                overall_status r
                  = storage_verdict (List.length (issues r))
                                    (List.length (warnings r))
            | Raise e =>
                e = OverflowError /\
                0 < total_gb (capacity m) /\
                nearest_double (Z.abs (free_gb (capacity m)))
                               (Z.abs (total_gb (capacity m))) = None /\
                overall_status r = "error" /\
                issues r = [monitoring_error e] /\ warnings r = []
            end
        | (Raise e, st1) =>
            st' = st1 /\ metrics r = None /\
            overall_status r = "error" /\
            issues r = [monitoring_error e] /\ warnings r = []
        end) /\
  (forall w globals st,
      contains globals "time" = true ->
      exists r t p st2 st',
        monitor_cee_network_health w globals st = (Ret r, st') /\
        CEENetworkTopology.discover_cee_topology w (record_call time_time st)
          = (Ret t, st2) /\
        CEEOVSManager.monitor_ovs_performance w globals st2 = (Ret p, st') /\
        nh_topology r = Some t /\
        nh_performance r = Some p /\
        nh_issues r = network_findings t p /\
        nh_overall_status r = network_verdict (List.length (nh_issues r)) /\
        (List.length (nh_issues r) <= 2)%nat).
Proof.
  split.
  - intros w st.
    destruct (CEEVxSDSManager.get_cee_storage_summary w
                (record_call time_time st)) as [[m|e] st'] eqn:E.
    + destruct (classify m) as [iw|e] eqn:C.
      * rewrite (monitor_vxsds_health_Ret _ _ _ _ _ E C).
        eexists; eexists; split; [reflexivity|]. now repeat split.
      * rewrite (monitor_vxsds_health_Overflow _ _ _ _ _ E C).
        eexists; eexists; split; [reflexivity|].
        destruct (free_space_checked_Raise _ _ _ C) as (-> & T & N).
        now repeat split.
    + rewrite (monitor_vxsds_health_Raise _ _ _ _ E).
      eexists; eexists; split; [reflexivity|]. now repeat split.
  - intros w globals st H.
    destruct (monitor_cee_network_health_run w globals st H)
      as (r & t & p & st2 & st' & E & T & P & Ht & Hp & Hi & Hs).
    exists r, t, p, st2, st'. repeat (split; [assumption|]).
    rewrite Hi. apply network_findings_at_most_two.
Qed.

(** ** The status reporter *)

Ltac case_openstack c :=
  let os := fresh "os" in let E := fresh "E" in
  destruct c as [os|];
  [destruct (String.eqb (cs_status os) "success") eqn:E|];
  unfold openstack_level; simpl; rewrite ?E; simpl.

Ltac case_vxsds c :=
  let h := fresh "h" in let E := fresh "E" in let E' := fresh "E" in
  destruct c as [h|];
  [destruct (String.eqb (overall_status h) "healthy") eqn:E;
   [|destruct (String.eqb (overall_status h) "critical") eqn:E']|];
  unfold vxsds_level; simpl; rewrite ?E, ?E'; simpl.

Ltac use_tests :=
  repeat match goal with
         | H : ?b = true |- context [?b] => rewrite H
         | H : ?b = false |- context [?b] => rewrite H
         end.

Ltac lists :=
  simpl; use_tests; simpl; rewrite ?app_nil_r, <- ?app_assoc; simpl;
  try reflexivity.

Section Reporter.

Variable w : World.
Variable network_globals : list string.
Variable self : CEEOrchestrator.

Lemma status_openstack_keeps g s :
  before_vxsds s -> comp_openstack (components s) = None ->
  before_vxsds (snd (snd (Orchestrator.status_openstack w self (g, s)))).
Proof.
  intros [[Hh Ha] [Hv Ho]] Hos.
  unfold Orchestrator.status_openstack.
  destruct (openstack_client self); [|now repeat split].
  unfold bind at 1, on_global. cbn [fst snd].
  destruct (CEEOpenStackClient.get_cee_cluster_status w g) as [[os|e] g'];
    [|now repeat split].
  destruct s as [ts oh [c1 c2 c3] al rc]. simpl in *. subst.
  unfold bind, update, ret, before_vxsds, consistent, worst_of_three,
    subsystem_alerts.
  destruct (String.eqb (cs_status os) "success") eqn:E; simpl; rewrite E;
    simpl; repeat split; try assumption.
Qed.

Lemma status_vxsds_keeps g s :
  before_vxsds s ->
  before_ovs (snd (snd (Orchestrator.status_vxsds w self (g, s)))).
Proof.
  intros [[Hh Ha] [Hv Ho]].
  unfold Orchestrator.status_vxsds.
  destruct (vxsds_manager self); [|now repeat split].
  unfold bind at 1, on_global. cbn [fst snd].
  destruct (CEEVxSDSManager.monitor_vxsds_health w g) as [[h|e] g'];
    [|now repeat split].
  destruct s as [ts oh [c1 c2 c3] al rc]. simpl in *. subst.
  unfold bind, update, ret, local, before_ovs, consistent, worst_of_three,
    subsystem_alerts.
  destruct (String.eqb (overall_status h) "healthy") eqn:E1; simpl.
  - rewrite E1. case_openstack c1; repeat split; lists.
  - destruct (String.eqb (overall_status h) "critical") eqn:E2; simpl;
      rewrite ?E1, ?E2; simpl;
      case_openstack c1; rewrite ?E1, ?E2; simpl; repeat split; lists.
Qed.

Lemma status_ovs_keeps g s :
  before_ovs s ->
  consistent (snd (snd (Orchestrator.status_ovs w network_globals self (g, s)))).
Proof.
  intros [[Hh Ha] Ho].
  unfold Orchestrator.status_ovs.
  destruct (ovs_manager self); [|now repeat split].
  unfold bind at 1, on_global. cbn [fst snd].
  destruct (CEEOVSManager.monitor_ovs_performance w network_globals g)
    as [[p|e] g']; [|now repeat split].
  destruct s as [ts oh [c1 c2 c3] al rc]. simpl in *. subst.
  fold (vswitchd_cpu p).
  unfold bind, update, ret, local, consistent, worst_of_three,
    subsystem_alerts.
  destruct (Qlt_bool (inject_Z 80) (vswitchd_cpu p)) eqn:E; simpl;
    rewrite ?E; simpl;
    case_openstack c1; case_vxsds c2; rewrite ?E; simpl;
    repeat split; lists.
Qed.

(** The recommendation block touches neither the health nor the alerts
    nor the components, and all it can raise is the [OverflowError] of
    its division. *)
Lemma status_recommendations_run g s :
  exists outcome s',
    Orchestrator.status_recommendations (g, s) = (outcome, (g, s')) /\
    ((outcome = Ret tt /\ exists recs, s' = set_recommendations recs s) \/
     (outcome = Raise OverflowError /\ s' = s)).
Proof.
  unfold Orchestrator.status_recommendations.
  unfold bind at 1, local. cbn [fst snd].
  destruct (comp_vxsds (components s)) as [h|].
  - destruct (_ >? 0) eqn:G.
    + unfold truediv.
      match goal with
      | |- context [if ?t =? 0 then _ else _] =>
          assert (Z : (t =? 0) = false) by lia; rewrite Z
      end.
      destruct (nearest_double _ _).
      * unfold bind, ret, update. cbn [fst snd].
        destruct (float_lt_int _ _);
          (eexists; eexists; split; [reflexivity|]; left; split;
           [reflexivity | eexists; reflexivity]).
      * eexists; eexists; split; [reflexivity|]. right. now split.
    + unfold bind, ret, update. cbn [fst snd].
      eexists; eexists; split; [reflexivity|]; left; split;
        [reflexivity | eexists; reflexivity].
  - unfold bind, ret, update. cbn [fst snd].
    eexists; eexists; split; [reflexivity|]; left; split;
      [reflexivity | eexists; reflexivity].
Qed.

(** When the recommendation block raises, and what. *)
Lemma status_recommendations_outcome g s :
  exists s',
    Orchestrator.status_recommendations (g, s)
      = (match recommendations_exception (components s) with
         | None => Ret tt
         | Some e => Raise e
         end, (g, s')) /\
    components s' = components s.
Proof.
  unfold Orchestrator.status_recommendations, recommendations_exception.
  unfold bind at 1, local. cbn [fst snd].
  destruct (comp_vxsds (components s)) as [h|].
  - destruct (metrics h) as [m|].
    + destruct (_ >? 0) eqn:G.
      * unfold truediv.
        match goal with
        | |- context [if ?t =? 0 then _ else _] =>
            assert (Z : (t =? 0) = false) by lia; rewrite Z
        end.
        destruct (nearest_double _ _).
        -- unfold bind, ret, update. cbn [fst snd].
           destruct (float_lt_int _ _);
             (eexists; split; reflexivity).
        -- eexists; split; reflexivity.
      * unfold bind, ret, update. cbn [fst snd].
        eexists; split; reflexivity.
    + unfold bind, ret, update. cbn [fst snd].
      eexists; split; reflexivity.
  - unfold bind, ret, update. cbn [fst snd].
    eexists; split; reflexivity.
Qed.

Lemma recommendations_exception_overflow c e :
  recommendations_exception c = Some e -> e = OverflowError.
Proof.
  unfold recommendations_exception.
  destruct (comp_vxsds c) as [h|]; [|discriminate].
  destruct (metrics h) as [m|]; [|discriminate].
  destruct (_ >? 0) eqn:G; [|discriminate].
  unfold truediv.
  match goal with
  | |- context [if ?t =? 0 then _ else _] =>
      assert (Z : (t =? 0) = false) by lia; rewrite Z
  end.
  destruct (nearest_double _ _); cbn; [discriminate|].
  now intros [= <-].
Qed.

Lemma consistent_set_recommendations recs s :
  consistent s -> consistent (set_recommendations recs s).
Proof. now intros [? ?]. Qed.

(** Wherever the [try] block stops, by finishing or by an exception, it
    leaves a consistent status. *)
Lemma status_body_consistent g now :
  consistent
    (snd (snd (status_body w network_globals self (g, initial_status now)))).
Proof.
  unfold status_body.
  assert (H0 : before_vxsds (initial_status now)) by now repeat split.
  pose proof (status_openstack_keeps g (initial_status now) H0 eq_refl) as H1.
  unfold bind at 1.
  destruct (Orchestrator.status_openstack w self (g, initial_status now))
    as [[[]|e] [g1 s1]]; cbn [fst snd] in *; [|apply H1].
  pose proof (status_vxsds_keeps g1 s1 H1) as H2.
  unfold bind at 1.
  destruct (Orchestrator.status_vxsds w self (g1, s1))
    as [[[]|e] [g2 s2]]; cbn [fst snd] in *; [|apply H2].
  pose proof (status_ovs_keeps g2 s2 H2) as H3.
  unfold bind at 1.
  destruct (Orchestrator.status_ovs w network_globals self (g2, s2))
    as [[[]|e] [g3 s3]]; cbn [fst snd] in *; [|apply H3].
  destruct (status_recommendations_run g3 s3)
    as (outcome & s4 & E & [[_ [recs ->]] | [_ ->]]);
    rewrite E; cbn [fst snd]; [|exact H3].
  now apply consistent_set_recommendations.
Qed.

(** [get_comprehensive_status] returns on every input: either the [try]
    block finished and the status is consistent, or it raised and the
    handler marked a consistent status as [error]. *)
Lemma get_comprehensive_status_run st :
  exists r st',
    Orchestrator.get_comprehensive_status w network_globals self st
      = (Ret r, st') /\
    (consistent r \/
     exists e s,
       consistent s /\
       r = append_alert (collection_error e) (set_overall_health "error" s)).
Proof.
  unfold Orchestrator.get_comprehensive_status.
  unfold bind at 1. rewrite external_run.
  fold (initial_status (clock w (List.length (trace st)))).
  fold (status_body w network_globals self).
  unfold with_local, bind at 1, try_except.
  pose proof (status_body_consistent (record_call time_time st)
                (clock w (List.length (trace st)))) as H.
  destruct (status_body _ _ _ _) as [[[]|e] [g s]]; cbn [fst snd] in H.
  - unfold local. cbn [fst snd]. eexists; eexists; split; [reflexivity|].
    now left.
  - unfold bind, update, local. cbn [fst snd].
    eexists; eexists; split; [reflexivity|]. right. now exists e, s.
Qed.

End Reporter.




(** ** The missing import *)

Lemma time_unbound_when_imported :
  contains (network_utils_globals false) "time" = false.
Proof. reflexivity. Qed.

Lemma status_ovs_raises w globals self g s :
  ovs_manager self = true ->
  contains globals "time" = false ->
  Orchestrator.status_ovs w globals self (g, s)
    = (Raise (NameError "time"), (g, s)).
Proof.
  intros Ho Hg. unfold Orchestrator.status_ovs. rewrite Ho.
  unfold bind at 1, on_global. cbn [fst snd].
  now rewrite (monitor_ovs_performance_unbound w globals g Hg).
Qed.

Lemma status_body_raises w globals self g s :
  ovs_manager self = true ->
  contains globals "time" = false ->
  exists e g' s', status_body w globals self (g, s) = (Raise e, (g', s')).
Proof.
  intros Ho Hg. unfold status_body.
  unfold bind at 1.
  destruct (Orchestrator.status_openstack w self (g, s))
    as [[[]|e] [g1 s1]]; [|eauto].
  unfold bind at 1.
  destruct (Orchestrator.status_vxsds w self (g1, s1))
    as [[[]|e] [g2 s2]]; [|eauto].
  unfold bind at 1.
  rewrite (status_ovs_raises w globals self g2 s2 Ho Hg). eauto.
Qed.

(** C4: in a process that imports [cee_network_utils] (as
    [cee_integration_example] does), [monitor_ovs_performance] raises
    [NameError] on every input, before its [try] statement is entered;
    [get_comprehensive_status], which calls it inside its own [try],
    therefore reports [error] whenever an OVS manager is present. *)
Theorem monitor_ovs_performance_raises_when_imported w st :
  CEEOVSManager.monitor_ovs_performance w (network_utils_globals false) st
    = (Raise (NameError "time"), st) /\
  monitor_cee_network_health w (network_utils_globals false) st
    = (Raise (NameError "time"), st) /\
  forall self,
    ovs_manager self = true ->
    exists r st',
      Orchestrator.get_comprehensive_status w (network_utils_globals false)
        self st = (Ret r, st') /\
      overall_health r = "error".
Proof.
  split; [|split].
  - apply monitor_ovs_performance_unbound. reflexivity.
  - unfold monitor_cee_network_health. apply bind_Raise.
    apply global_name_unbound. reflexivity.
  - intros self Ho.
    unfold Orchestrator.get_comprehensive_status.
    unfold bind at 1. rewrite external_run.
    fold (initial_status (clock w (List.length (trace st)))).
    fold (status_body w (network_utils_globals false) self).
    unfold with_local, bind at 1, try_except.
    destruct (status_body_raises w (network_utils_globals false) self
                (record_call time_time st)
                (initial_status (clock w (List.length (trace st))))
                Ho eq_refl) as (e & g' & s' & E).
    rewrite E. unfold bind, update, local. cbn [fst snd].
    eexists; eexists; split; reflexivity.
Qed.

(** ** The health-check battery *)

Lemma dict_get_set_same {V} (d : dict V) k v :
  dict_get (dict_set d k v) k = Some v.
Proof.
  induction d as [|[k' v'] d IH]; simpl.
  - now rewrite String.eqb_refl.
  - destruct (String.eqb k' k) eqn:E; simpl.
    + now rewrite String.eqb_refl.
    + now rewrite E.
Qed.

Lemma dict_get_set_other {V} (d : dict V) k k' v :
  k <> k' -> dict_get (dict_set d k' v) k = dict_get d k.
Proof.
  intros N. induction d as [|[k0 v0] d IH]; simpl.
  - destruct (String.eqb k' k) eqn:E; [|reflexivity].
    apply String.eqb_eq in E. congruence.
  - destruct (String.eqb k0 k') eqn:E; simpl.
    + apply String.eqb_eq in E. subst k0.
      destruct (String.eqb k' k) eqn:E'; [|reflexivity].
      apply String.eqb_eq in E'. congruence.
    + destruct (String.eqb k0 k); [reflexivity | exact IH].
Qed.

Section Battery.

Variable w : World.

(** One turn of the loop: it never raises, it runs the probe once, counts
    one result and stores the probe's entry under its name. *)
Lemma check_step name (f : MS State ProbeResult) rest g h :
  exists h',
    Orchestrator.run_checks ((name, f) :: rest) (g, h)
      = Orchestrator.run_checks rest (snd (f g), h') /\
    tally h' = tally h + 1 /\
    dict_get (checks h') name = Some (entry_of (fst (f g))) /\
    forall other, other <> name ->
                  dict_get (checks h') other = dict_get (checks h) other.
Proof.
  unfold Orchestrator.run_checks. cbn [for_each fst snd].
  unfold bind at 1, try_except, bind at 1, on_global. cbn [fst snd].
  destruct (f g) as [[result|e] g1]; cbn [fst snd entry_of].
  - unfold bind at 1, update at 1. cbn [fst snd].
    unfold bind at 1, item.
    destruct (pr_status result) as [status|] eqn:Es.
    + unfold ret at 1.
      destruct (String.eqb status "pass");
        [|destruct (String.eqb status "warning")];
        unfold update; cbn [fst snd];
        (eexists; split; [reflexivity|]);
        unfold tally; simpl; (split; [lia|]); split;
        try apply dict_get_set_same;
        intros other N; now apply dict_get_set_other.
    + unfold raise, bind, update. cbn [fst snd].
      eexists; split; [reflexivity|].
      unfold tally; simpl. split; [lia|]. split.
      * apply dict_get_set_same.
      * intros other N. now rewrite !dict_get_set_other.
  - unfold bind, update. cbn [fst snd].
    eexists; split; [reflexivity|].
    unfold tally; simpl. split; [lia|]. split.
    + apply dict_get_set_same.
    + intros other N. now apply dict_get_set_other.
Qed.

Lemma run_checks_spec check_list : forall g h,
  exists h',
    Orchestrator.run_checks check_list (g, h)
      = (Ret tt, (after_probes check_list g, h')) /\
    tally h' = tally h + len check_list /\
    (forall name, ~ In name (map fst check_list) ->
                  dict_get (checks h') name = dict_get (checks h) name) /\
    (forall pre name f post,
        check_list = pre ++ (name, f) :: post ->
        ~ In name (map fst post) ->
        dict_get (checks h') name
          = Some (entry_of (fst (f (after_probes pre g))))).
Proof.
  induction check_list as [|[name f] rest IH]; intros g h.
  - exists h. split; [reflexivity|]. split; [unfold len; simpl; lia|].
    split; [reflexivity|].
    intros pre name f post E. destruct pre; discriminate.
  - destruct (check_step name f rest g h) as (h1 & E1 & T1 & G1 & O1).
    destruct (IH (snd (f g)) h1) as (h' & E & T & K & P).
    exists h'. split; [now rewrite E1, E|].
    split.
    { rewrite T, T1. unfold len. simpl List.length. lia. }
    split.
    { intros other N. simpl in N.
      rewrite K by tauto. apply O1. intros ->. tauto. }
    intros pre name' f' post Eq N.
    destruct pre as [|c pre]; simpl in Eq; inversion Eq; subst.
    + simpl. rewrite K by exact N. exact G1.
    + simpl. now apply (P pre name' f' post).
Qed.

Lemma perform_health_check_of_tally
    (check_list : list (string * MS State ProbeResult)) st :
  exists hc st',
    Orchestrator.perform_health_check_of w check_list st = (Ret hc, st') /\
    passed hc + hc_warnings hc + failed hc = len check_list.
Proof.
  unfold Orchestrator.perform_health_check_of.
  unfold bind at 1. rewrite external_run.
  unfold with_local, bind at 1.
  destruct (run_checks_spec check_list (record_call time_time st)
              {| hc_timestamp := clock w (List.length (trace st));
                 checks := []; passed := 0; failed := 0; hc_warnings := 0 |})
    as (h' & E & T & _).
  rewrite E. unfold local. cbn [fst snd]. eauto.
Qed.

(** C9: the battery returns its report on every input; every probe of the
    list has run, once and in order, also after a probe that raised; the
    three counters add up to the number of probes; and a probe that
    raised has the entry with status [fail] and the exception text. *)
Theorem health_check_isolates_probes
    (check_list : list (string * MS State ProbeResult)) st :
  exists hc st',
    Orchestrator.perform_health_check_of w check_list st = (Ret hc, st') /\
    st' = after_probes check_list (record_call time_time st) /\
    passed hc + hc_warnings hc + failed hc = len check_list /\
    forall pre name f post e g',
      check_list = pre ++ (name, f) :: post ->
      ~ In name (map fst post) ->
      f (after_probes pre (record_call time_time st)) = (Raise e, g') ->
      dict_get (checks hc) name = Some (check_failed e) /\
      pr_status (check_failed e) = Some "fail" /\
      pr_message (check_failed e)
        = [Txt "Check failed with exception: "; Txt (exn_str e)].
Proof.
  unfold Orchestrator.perform_health_check_of.
  unfold bind at 1. rewrite external_run.
  unfold with_local, bind at 1.
  destruct (run_checks_spec check_list (record_call time_time st)
              {| hc_timestamp := clock w (List.length (trace st));
                 checks := []; passed := 0; failed := 0; hc_warnings := 0 |})
    as (h' & E & T & _ & P).
  rewrite E. unfold local. cbn [fst snd].
  exists h', (after_probes check_list (record_call time_time st)).
  split; [reflexivity|]. split; [reflexivity|].
  split; [exact T|].
  intros pre name f post e g' Eq N R.
  rewrite (P pre name f post Eq N), R. now repeat split.
Qed.

(** The battery of the orchestrator has five probes with five names. *)
Lemma perform_health_check_tally self st :
  exists hc st',
    Orchestrator.perform_health_check w self st = (Ret hc, st') /\
    passed hc + hc_warnings hc + failed hc = 5 /\
    map fst (Orchestrator.battery w self)
      = ["openstack_api"; "vxsds_connectivity"; "ovs_bridges";
         "network_connectivity"; "storage_health"].
Proof.
  unfold Orchestrator.perform_health_check.
  destruct (perform_health_check_of_tally (Orchestrator.battery w self) st)
    as (hc & st' & E & T).
  exists hc, st'. split; [exact E|]. split; [exact T | reflexivity].
Qed.

End Battery.

(** ** Statements that never raise *)

Lemma bind_Ret_inv {S A B} (m : MS S A) (k : A -> MS S B) s b s' :
  bind m k s = (Ret b, s') ->
  exists a s1, m s = (Ret a, s1) /\ k a s1 = (Ret b, s').
Proof.
  unfold bind. destruct (m s) as [[a|e] s1]; [eauto | discriminate].
Qed.

Lemma try_except_returns {S A} (body : MS S A) (fallback : Exn -> A) s :
  exists a s',
    try_except body (fun e => ret (fallback e)) s = (Ret a, s') /\
    (body s = (Ret a, s') \/ exists e, body s = (Raise e, s') /\ a = fallback e).
Proof.
  unfold try_except, ret.
  destruct (body s) as [[a|e] s']; eauto 7.
Qed.

Lemma attr_Ret_inv {S} (o : Obj) name (s s' : S) h :
  attr o name s = (Ret h, s') -> o = Some h /\ s' = s.
Proof.
  destruct o; unfold attr, ret, raise; intros H; inversion H; auto.
Qed.

Lemma ret_inv {S A} (a b : A) (s s' : S) :
  ret a s = (Ret b, s') -> a = b /\ s = s'.
Proof. unfold ret. intros H. inversion H. auto. Qed.

Lemma on_global_run {G L A} (m : MS G A) g (l : L) r g' :
  m g = (r, g') -> on_global m (g, l) = (r, (g', l)).
Proof. unfold on_global. cbn [fst snd]. now intros ->. Qed.

(** One statement that returns: rewrite the sequence to its rest. *)
Ltac run := erewrite bind_Ret by reflexivity.
Ltac run_with E :=
  erewrite bind_Ret by (apply on_global_run; exact E).

Ltac inv_bind H :=
  let a := fresh "a" in let s1 := fresh "s" in let E := fresh "E" in
  apply bind_Ret_inv in H; destruct H as (a & s1 & E & H).

Section Client.

Variable w : World.

(** [create_vm_with_vxsds_storage] catches everything: it always returns,
    and a result with status [success] carries a server and a volume. *)
Lemma create_vm_with_vxsds_storage_returns name image flavor net size type g :
  exists res g',
    CEEOpenStackClient.create_vm_with_vxsds_storage w name image flavor net
      size type g = (Ret res, g') /\
    (vm_status res = "success" ->
     exists server volume,
       vm_server res = Some (Some server) /\ vm_volume res = Some volume).
Proof.
  unfold CEEOpenStackClient.create_vm_with_vxsds_storage.
  match goal with
  | |- context [try_except ?b (fun e => ret (@?f e))] =>
      destruct (try_except_returns b f g) as (res & g' & E & H)
  end.
  exists res, g'. split; [exact E|].
  destruct H as [H | (e & _ & ->)]; [|discriminate].
  intros _.
  repeat inv_bind H.
  apply ret_inv in H. destruct H as [<- _].
  match goal with
  | E : attr ?o "name" _ = (Ret _, _) |- context [vm_server {| vm_server := Some ?o |}] =>
      apply attr_Ret_inv in E; destruct E as [-> _]
  end.
  simpl. eauto.
Qed.

Lemma configure_ovs_qos_returns port max_kbps min_kbps g :
  exists res g',
    CEEOpenStackClient.configure_ovs_qos w port max_kbps min_kbps g
      = (Ret res, g').
Proof.
  unfold CEEOpenStackClient.configure_ovs_qos.
  match goal with
  | |- context [try_except ?b (fun e => ret (@?f e))] =>
      destruct (try_except_returns b f g) as (res & g' & E & _)
  end.
  eauto.
Qed.

End Client.

(** ** Application stacks *)

Lemma for_each_all {S A} (xs : list A) (body : A -> MS S unit) :
  (forall x, In x xs -> forall s, exists s', body x s = (Ret tt, s')) ->
  forall s,
    for_each xs body s
      = (Ret tt, fold_left (fun s x => snd (body x s)) xs s).
Proof.
  induction xs as [|x xs IH]; intros H s.
  - reflexivity.
  - simpl. destruct (H x (or_introl eq_refl) s) as [s' E].
    rewrite (bind_Ret _ _ _ _ _ E), E. simpl.
    apply IH. intros y Hy. apply H. now right.
Qed.

Section Stack.

Variable w : World.
Variable self : CEEOrchestrator.
Hypothesis client : openstack_client self = true.

Lemma deploy_volume_run name v g l :
  vc_name v <> None ->
  exists res g',
    volume_attempt w name v g = (Ret res, g') /\
    Orchestrator.deploy_volume w self name v (g, l)
      = (Ret tt, (g', recorded_volume res l)).
Proof.
  intros N.
  destruct (create_vm_with_vxsds_storage_returns w
              (name ++ "-" ++ default "" (vc_name v) ++ "-vol")%string "dummy"
              (default "m1.small"%string (vc_flavor v)) "cee_ctrl_sp"
              (default 20 (vc_size_gb v))
              (default "vxsds_thin_SSD"%string (vc_type v)) g)
    as (res & g' & E & Hs).
  exists res, g'. split; [exact E|].
  unfold Orchestrator.deploy_volume. rewrite client.
  destruct (vc_name v) as [n|]; [|contradiction].
  run. run. run_with E.
  unfold recorded_volume.
  destruct (String.eqb (vm_status res) "success") eqn:S; [|reflexivity].
  apply String.eqb_eq in S. destruct (Hs S) as (srv & vol & _ & ->).
  run. reflexivity.
Qed.

Lemma qos_loop_run qos_config port_list : forall g (l : StackResult),
  exists g',
    for_each port_list
      (fun port =>
         method (openstack_client self) "configure_ovs_qos" ;;
         _ <- on_global
           (CEEOpenStackClient.configure_ovs_qos w port
              (dict_get qos_config "max_kbps")
              (dict_get qos_config "min_kbps")) ;;
         ret tt) (g, l) = (Ret tt, (g', l)).
Proof.
  induction port_list as [|p ps IH]; intros g l.
  - exists g. reflexivity.
  - destruct (configure_ovs_qos_returns w p (dict_get qos_config "max_kbps")
                (dict_get qos_config "min_kbps") g) as (res & g1 & E).
    destruct (IH g1 l) as (g' & E').
    exists g'. cbn [for_each].
    erewrite bind_Ret; [exact E'|].
    rewrite client. unfold method, bind, on_global, ret. cbn [fst snd].
    now rewrite E.
Qed.

Hypothesis ports_answer : forall n, is_ret (ports_at w n) = true.

Lemma deploy_instance_run name i g l :
  ic_name i <> None ->
  exists res g1,
    instance_attempt w name i g = (Ret res, g1) /\
    exists g',
      Orchestrator.deploy_instance w self name i (g, l)
        = (Ret tt, (g', recorded_instance res l)).
Proof.
  intros N.
  destruct (create_vm_with_vxsds_storage_returns w
              (name ++ "-" ++ default "" (ic_name i))%string
              (default "ubuntu-20.04"%string (ic_image i))
              (default "m1.medium"%string (ic_flavor i))
              (default "default"%string (ic_network i))
              (default 20 (ic_disk_size_gb i))
              (default "vxsds_thin_SSD"%string (ic_volume_type i)) g)
    as (res & g1 & E & Hs).
  exists res, g1. split; [exact E|].
  unfold Orchestrator.deploy_instance. rewrite client.
  destruct (ic_name i) as [n|]; [|contradiction].
  unfold recorded_instance.
  destruct (String.eqb (vm_status res) "success") eqn:S.
  - apply String.eqb_eq in S. destruct (Hs S) as (srv & vol & Esrv & _).
    destruct (truthy_dict (ic_qos i)) eqn:T.
    + destruct (ic_qos i) as [qos_config|]; [|discriminate].
      destruct (is_ret_inv _ (ports_answer (List.length (trace g1))))
        as [port_list Ep].
      destruct (qos_loop_run qos_config port_list
                  (record_call (conn (ports srv)) g1)
                  (append_instance (Some srv) l)) as (g' & Eq).
      rewrite client in Eq.
      exists g'.
      run. run. run_with E.
      rewrite (proj2 (String.eqb_eq _ _) S), Esrv.
      run. run. run. run. run. run. cbn [fst snd].
      erewrite bind_Ret;
        [|apply on_global_run; rewrite external_run, Ep; reflexivity].
      exact Eq.
    + exists g1.
      run. run. run_with E.
      rewrite (proj2 (String.eqb_eq _ _) S), Esrv.
      run. run. reflexivity.
  - exists g1.
    run. run. run_with E. rewrite S. reflexivity.
Qed.

End Stack.

Lemma fold_left_keeps {S A} (P : S -> Prop) (f : S -> A -> S) (xs : list A) :
  (forall s x, In x xs -> P s -> P (f s x)) ->
  forall s, P s -> P (fold_left f xs s).
Proof.
  induction xs as [|x xs IH]; intros H s Hs; simpl.
  - exact Hs.
  - apply IH.
    + intros s' y Hy. apply H. now right.
    + apply H; [now left | exact Hs].
Qed.

Lemma recorded_volume_unmarked res g g' l :
  unmarked (g, l) -> unmarked (g', recorded_volume res l).
Proof.
  unfold unmarked, recorded_volume. simpl.
  destruct (String.eqb _ _); [destruct (vm_volume res)|]; auto.
Qed.

Lemma recorded_instance_unmarked res g g' l :
  unmarked (g, l) -> unmarked (g', recorded_instance res l).
Proof.
  unfold unmarked, recorded_instance. simpl.
  destruct (String.eqb _ _); [destruct (vm_server res)|]; auto.
Qed.

(** C5 (amended): with a client, named specs and port listings that
    answer, every volume spec and then every instance spec is attempted,
    in order and whatever happened to the items before it; the attempt of
    one item adds its handle to the result when the creation succeeded and
    changes nothing in the result when it failed, so the run ends with
    status [success] and without a message. *)
Theorem deploy_attempts_every_item w self name project_id stack_config st :
  openstack_client self = true ->
  Forall (fun v => vc_name v <> None) (default [] (sc_volumes stack_config)) ->
  Forall (fun i => ic_name i <> None)
         (default [] (sc_instances stack_config)) ->
  (forall n, is_ret (ports_at w n) = true) ->
  let volumes_config := default [] (sc_volumes stack_config) in
  let instances_config := default [] (sc_instances stack_config) in
  let start :=
    (st, {| stack_name := name; sr_status := "success"; instances := [];
            sr_volumes := []; load_balancers := []; sr_message := None |}) in
  let finish :=
    fold_left (fun s i => snd (Orchestrator.deploy_instance w self name i s))
      instances_config
      (fold_left (fun s v => snd (Orchestrator.deploy_volume w self name v s))
         volumes_config start) in
  Orchestrator.deploy_application_stack w self name project_id stack_config st
    = (Ret (snd finish), fst finish) /\
  sr_status (snd finish) = "success" /\
  sr_message (snd finish) = None /\
  (forall v g l,
      In v volumes_config ->
      exists res g',
        volume_attempt w name v g = (Ret res, g') /\
        Orchestrator.deploy_volume w self name v (g, l)
          = (Ret tt, (g', recorded_volume res l))) /\
  (forall i g l,
      In i instances_config ->
      exists res g1,
        instance_attempt w name i g = (Ret res, g1) /\
        exists g',
          Orchestrator.deploy_instance w self name i (g, l)
            = (Ret tt, (g', recorded_instance res l))).
Proof.
  intros client Hv Hi Hp volumes_config instances_config start finish.
  rewrite Forall_forall in Hv, Hi.
  assert (V : forall v g l,
             In v volumes_config ->
             exists res g',
               volume_attempt w name v g = (Ret res, g') /\
               Orchestrator.deploy_volume w self name v (g, l)
                 = (Ret tt, (g', recorded_volume res l))).
  { intros v g l Hin. apply deploy_volume_run; auto. }
  assert (I : forall i g l,
             In i instances_config ->
             exists res g1,
               instance_attempt w name i g = (Ret res, g1) /\
               exists g',
                 Orchestrator.deploy_instance w self name i (g, l)
                   = (Ret tt, (g', recorded_instance res l))).
  { intros i g l Hin. apply deploy_instance_run; auto. }
  assert (U : unmarked finish).
  { unfold finish. apply fold_left_keeps.
    - intros [g l] i Hin Hs.
      destruct (I i g l Hin) as (res & g1 & _ & g' & ->).
      now apply (recorded_instance_unmarked res g).
    - apply fold_left_keeps.
      + intros [g l] v Hin Hs.
        destruct (V v g l Hin) as (res & g' & _ & ->).
        now apply (recorded_volume_unmarked res g).
      + now split. }
  split; [|split; [apply U | split; [apply U | split; assumption]]].
  unfold Orchestrator.deploy_application_stack.
  fold volumes_config instances_config.
  unfold with_local. fold start.
  assert (B : (for_each volumes_config (Orchestrator.deploy_volume w self name) ;;
               for_each instances_config
                 (Orchestrator.deploy_instance w self name)) start
              = (Ret tt, finish)).
  { erewrite bind_Ret.
    - apply for_each_all. intros i Hin [g l].
      destruct (I i g l Hin) as (res & g1 & _ & g' & ->). eauto.
    - apply for_each_all. intros v Hin [g l].
      destruct (V v g l Hin) as (res & g' & _ & ->). eauto. }
  unfold bind at 1, try_except. rewrite B.
  unfold local. cbn [fst snd]. now destruct finish.
Qed.

(** ** Tenant environments *)

Ltac go := erewrite bind_Ret by reflexivity; cbv beta.
Ltac go_with E :=
  erewrite bind_Ret by (apply on_global_run; exact E); cbv beta.

Section Tenant.

Variable w : World.

Lemma create_ovs_network_returns name type cidr g :
  exists res g',
    CEEOpenStackClient.create_ovs_network w name type cidr g = (Ret res, g') /\
    (nr_status res = "success" ->
     exists network subnet,
       nr_network res = Some network /\ nr_subnet res = Some subnet) /\
    exists calls,
      trace g' = trace g ++ calls /\ forallb is_network_call calls = true.
Proof.
  unfold CEEOpenStackClient.create_ovs_network, try_except, bind,
    CEEOpenStackClient.sdk, external, attr, ret, raise.
  cbn [fst snd].
  destruct (conn_at w (List.length (trace g)) (create_network name))
    as [[network|]|e]; destruct (truthy_str cidr); cbn [trace record_call];
    try (destruct (conn_at w _ (create_subnet _)) as [[subnet|]|e']);
    (eexists; eexists; split; [reflexivity|]);
    (split; [cbn; intros; try discriminate; eauto|]);
    cbn [trace record_call]; rewrite <- ?app_assoc;
    (eexists; split; [reflexivity|reflexivity]).
Qed.

Variable self : CEEOrchestrator.
Hypothesis client : openstack_client self = true.

Lemma forallb_app_true {A} (f : A -> bool) xs ys :
  forallb f xs = true -> forallb f ys = true -> forallb f (xs ++ ys) = true.
Proof. intros H1 H2. rewrite forallb_app. now rewrite H1, H2. Qed.

(** With a client, [_setup_tenant_networking] reports [success] whether
    or not its two networks were created, and calls nothing but
    [create_network] and [create_subnet]. *)
Lemma _setup_tenant_networking_returns tenant_name project_id g :
  exists res g',
    Orchestrator._setup_tenant_networking w self tenant_name project_id g
      = (Ret res, g') /\
    tn_status res = "success" /\
    exists calls,
      trace g' = trace g ++ calls /\ forallb is_network_call calls = true.
Proof.
  destruct (create_ovs_network_returns (tenant_name ++ "-internal")%string
              "vxlan" (Some "10.0.1.0/24"%string) g)
    as (net1 & g1 & E1 & S1 & calls1 & T1 & F1).
  destruct (create_ovs_network_returns (tenant_name ++ "-dmz")%string
              "vxlan" (Some "10.0.2.0/24"%string) g1)
    as (net2 & g2 & E2 & S2 & calls2 & T2 & F2).
  assert (T : trace g2 = trace g ++ calls1 ++ calls2)
    by (now rewrite T2, T1, app_assoc).
  assert (F : forallb is_network_call (calls1 ++ calls2) = true)
    by (now apply forallb_app_true).
  unfold Orchestrator._setup_tenant_networking, with_local.
  rewrite client.
  match goal with
  | |- context [try_except ?b ?h] =>
      assert (B : exists l, b (g, {| tn_status := "success"; tn_networks := [];
                                     tn_subnets := []; tn_message := None |})
                            = (Ret tt, (g2, l)) /\ tn_status l = "success")
  end.
  { go. go_with E1.
    destruct (String.eqb (nr_status net1) "success") eqn:Q1.
    - apply String.eqb_eq in Q1. destruct (S1 Q1) as (n1 & s1 & -> & ->).
      go. go. cbn [fst snd]. go_with E2.
      destruct (String.eqb (nr_status net2) "success") eqn:Q2.
      + apply String.eqb_eq in Q2. destruct (S2 Q2) as (n2 & s2 & -> & ->).
        eexists. split; reflexivity.
      + eexists. split; reflexivity.
    - go. go. go_with E2.
      destruct (String.eqb (nr_status net2) "success") eqn:Q2.
      + apply String.eqb_eq in Q2. destruct (S2 Q2) as (n2 & s2 & -> & ->).
        eexists. split; reflexivity.
      + eexists. split; reflexivity. }
  destruct B as (l & B & Sl).
  unfold bind at 1, try_except. rewrite B. unfold local. cbn [fst snd].
  exists l, g2. split; [reflexivity|]. split; [exact Sl|].
  exists (calls1 ++ calls2). now split.
Qed.

(** [create_cee_tenant_setup] catches everything: it returns [success],
    or [error] with the text of the exception and no setup. *)
Lemma create_cee_tenant_setup_returns name description user password cidr
    router g :
  exists setup g',
    CEEOpenStackClient.create_cee_tenant_setup w name description user
      password cidr router g = (Ret setup, g') /\
    (tsr_status setup = "success" \/
     exists e,
       setup = {| tsr_status := "error"; tsr_message := Some (exn_str e);
                  tenant_setup := None |}).
Proof.
  unfold CEEOpenStackClient.create_cee_tenant_setup.
  match goal with
  | |- context [try_except ?b (fun e => ret (@?f e))] =>
      destruct (try_except_returns b f g) as (res & g' & E & H)
  end.
  exists res, g'. split; [exact E|].
  destruct H as [H | (e & _ & ->)]; [left | right; eauto].
  repeat inv_bind H. apply ret_inv in H. destruct H as [<- _]. reflexivity.
Qed.

(** C2 (amended): when step 1 returns a status other than [success], the
    environment is reported as [partial_failure]; the error list is the
    step-1 message behind its prefix; no OpenStack resources and no
    security groups are recorded; and what is called after step 1 are the
    [create_network] and [create_subnet] calls of step 2 only: no security
    group and no router is asked for. *)
Theorem failed_tenant_setup_gives_partial_failure
    tenant_name tenant_description user_name user_password network_cidr
    storage_quota_gb st setup st1 :
  CEEOpenStackClient.create_cee_tenant_setup w tenant_name tenant_description
    user_name user_password network_cidr true st = (Ret setup, st1) ->
  tsr_status setup <> "success" ->
  exists r st2 calls,
    Orchestrator.create_complete_tenant_environment w self tenant_name
      tenant_description user_name user_password network_cidr
      storage_quota_gb st = (Ret r, st2) /\
    tr_status r = "partial_failure" /\
    errors r = [tenant_error (tsr_message setup)] /\
    cr_openstack (created_resources r) = None /\
    cr_security_groups (created_resources r) = None /\
    trace st2 = trace st1 ++ calls /\
    forallb is_network_call calls = true /\
    (forall n, ~ In (conn (create_security_group n)) calls) /\
    (forall n, ~ In (conn (create_router n)) calls).
Proof.
  intros E N.
  assert (Q : String.eqb (tsr_status setup) "success" = false).
  { destruct (String.eqb _ _) eqn:Q; [|reflexivity].
    apply String.eqb_eq in Q. contradiction. }
  destruct (_setup_tenant_networking_returns tenant_name None st1)
    as (net & st2 & En & Sn & calls & T & F).
  unfold Orchestrator.create_complete_tenant_environment, with_local.
  rewrite client.
  match goal with
  | |- context [try_except ?b ?h] =>
    match goal with
    | |- context [(st, ?l0)] =>
      assert (B : exists l,
                 b (st, l0) = (Ret tt, (st2, l)) /\
                 tr_status l = "partial_failure" /\
                 errors l = [tenant_error (tsr_message setup)] /\
                 cr_openstack (created_resources l) = None /\
                 cr_security_groups (created_resources l) = None)
    end
  end.
  { go. go_with E. rewrite Q. go. go. cbn [fst snd]. go_with En.
    rewrite (proj2 (String.eqb_eq _ _) Sn). go. go.
    eexists. split; [reflexivity|]. now repeat split. }
  destruct B as (l & B & H1 & H2 & H3 & H4).
  unfold bind at 1, try_except. rewrite B. unfold local. cbn [fst snd].
  exists l, st2, calls. split; [reflexivity|].
  repeat (split; [assumption|]).
  rewrite forallb_forall in F.
  split; intros n Hin; apply F in Hin; discriminate.
Qed.

(** Without a client the call of step 1 itself raises, into the handler
    of [create_complete_tenant_environment]: that is the run reported as
    [error]. *)
Lemma missing_client_gives_error other tenant_name tenant_description
    user_name user_password network_cidr storage_quota_gb st :
  openstack_client other = false ->
  exists r,
    Orchestrator.create_complete_tenant_environment w other tenant_name
      tenant_description user_name user_password network_cidr
      storage_quota_gb st = (Ret r, st) /\
    tr_status r = "error" /\
    errors r = [[Txt (exn_str (AttributeError "create_cee_tenant_setup"))]].
Proof.
  intros H.
  unfold Orchestrator.create_complete_tenant_environment, with_local.
  rewrite H. eexists. split; [reflexivity|]. now split.
Qed.

End Tenant.

(** ** What the reporter collects *)

Lemma get_cee_cluster_status_returns w g :
  exists res g',
    CEEOpenStackClient.get_cee_cluster_status w g = (Ret res, g').
Proof.
  unfold CEEOpenStackClient.get_cee_cluster_status.
  match goal with
  | |- context [try_except ?b (fun e => ret (@?f e))] =>
      destruct (try_except_returns b f g) as (res & g' & E & _)
  end.
  eauto.
Qed.

Section Collecting.

Variable w : World.
Variable network_globals : list string.
Variable self : CEEOrchestrator.

Lemma status_openstack_collects g s :
  let os := CEEOpenStackClient.get_cee_cluster_status w g in
  exists s',
    Orchestrator.status_openstack w self (g, s)
      = (Ret tt, (after (openstack_client self) os g, s')) /\
    comp_openstack (components s')
      = (if openstack_client self then returned os
         else comp_openstack (components s)) /\
    comp_vxsds (components s') = comp_vxsds (components s) /\
    comp_ovs (components s') = comp_ovs (components s).
Proof.
  cbv zeta. unfold Orchestrator.status_openstack, after.
  destruct (openstack_client self);
    [|eexists; split; [reflexivity | now repeat split]].
  destruct (get_cee_cluster_status_returns w g) as (os & g' & E).
  unfold returned. rewrite E. cbn [fst snd].
  go_with E. go.
  destruct (negb _); (eexists; split; [reflexivity | now repeat split]).
Qed.

Lemma status_vxsds_collects g s :
  let vx := CEEVxSDSManager.monitor_vxsds_health w g in
  exists s',
    Orchestrator.status_vxsds w self (g, s)
      = (Ret tt, (after (vxsds_manager self) vx g, s')) /\
    comp_openstack (components s') = comp_openstack (components s) /\
    comp_vxsds (components s')
      = (if vxsds_manager self then returned vx
         else comp_vxsds (components s)) /\
    comp_ovs (components s') = comp_ovs (components s).
Proof.
  cbv zeta. unfold Orchestrator.status_vxsds, after.
  destruct (vxsds_manager self);
    [|eexists; split; [reflexivity | now repeat split]].
  destruct (monitor_vxsds_health_returns w g) as (h & g' & E).
  unfold returned. rewrite E. cbn [fst snd].
  go_with E. go.
  destruct (negb _); [|eexists; split; [reflexivity | now repeat split]].
  go. go.
  destruct (String.eqb (overall_status h) "critical");
    [eexists; split; [reflexivity | now repeat split]|].
  cbn [snd fst].
  destruct (String.eqb _ "healthy");
    (eexists; split; [reflexivity | now repeat split]).
Qed.

Lemma status_ovs_collects g s :
  let ovs := CEEOVSManager.monitor_ovs_performance w network_globals g in
  exists s',
    Orchestrator.status_ovs w network_globals self (g, s)
      = ((if ovs_manager self
          then match fst ovs with
               | Ret _ => Ret tt
               | Raise e => Raise e
               end
          else Ret tt),
         (after (ovs_manager self) ovs g, s')) /\
    comp_openstack (components s') = comp_openstack (components s) /\
    comp_vxsds (components s') = comp_vxsds (components s) /\
    comp_ovs (components s')
      = (if ovs_manager self
         then match returned ovs with
              | Some p => Some p
              | None => comp_ovs (components s)
              end
         else comp_ovs (components s)).
Proof.
  cbv zeta. unfold Orchestrator.status_ovs, after.
  destruct (ovs_manager self);
    [|eexists; split; [reflexivity | now repeat split]].
  destruct (CEEOVSManager.monitor_ovs_performance w network_globals g)
    as [[p|e] g'] eqn:E; unfold returned; cbn [fst snd].
  - go_with E. go.
    destruct (Qlt_bool _ _);
      [|eexists; split; [reflexivity | now repeat split]].
    go. go. cbn [snd fst].
    destruct (String.eqb _ "healthy");
      (eexists; split; [reflexivity | now repeat split]).
  - erewrite bind_Raise by (apply on_global_run; exact E).
    eexists; split; [reflexivity | now repeat split].
Qed.

(** The [try] block, from a status that records nothing: the states it
    goes through, what it records, and when it raises. *)
Lemma status_body_collects g s :
  comp_openstack (components s) = None ->
  comp_vxsds (components s) = None ->
  comp_ovs (components s) = None ->
  let os := CEEOpenStackClient.get_cee_cluster_status w g in
  let g1 := after (openstack_client self) os g in
  let vx := CEEVxSDSManager.monitor_vxsds_health w g1 in
  let g2 := after (vxsds_manager self) vx g1 in
  let ovs := CEEOVSManager.monitor_ovs_performance w network_globals g2 in
  let g3 := after (ovs_manager self) ovs g2 in
  exists s',
    status_body w network_globals self (g, s)
      = (match block_exception (ovs_manager self) ovs (components s') with
         | None => Ret tt
         | Some e => Raise e
         end, (g3, s')) /\
    comp_openstack (components s') = recorded (openstack_client self) os /\
    comp_vxsds (components s') = recorded (vxsds_manager self) vx /\
    comp_ovs (components s') = recorded (ovs_manager self) ovs.
Proof.
  intros H1 H2 H3. cbv zeta. unfold status_body, recorded, block_exception.
  destruct (status_openstack_collects g s) as (s1 & E1 & A1 & B1 & C1).
  rewrite (bind_Ret _ _ _ _ _ E1).
  set (g1 := after (openstack_client self) _ g) in *.
  destruct (status_vxsds_collects g1 s1) as (s2 & E2 & A2 & B2 & C2).
  rewrite (bind_Ret _ _ _ _ _ E2).
  set (g2 := after (vxsds_manager self) _ g1) in *.
  destruct (status_ovs_collects g2 s2) as (s3 & E3 & A3 & B3 & C3).
  set (g3 := after (ovs_manager self) _ g2) in *.
  assert (K1 : comp_openstack (components s3)
               = (if openstack_client self
                  then returned (CEEOpenStackClient.get_cee_cluster_status w g)
                  else None)).
  { rewrite A3, A2, A1, H1. now destruct (openstack_client self). }
  assert (K2 : comp_vxsds (components s3)
               = (if vxsds_manager self
                  then returned (CEEVxSDSManager.monitor_vxsds_health w g1)
                  else None)).
  { rewrite B3, B2, B1, H2. now destruct (vxsds_manager self). }
  assert (K3 : comp_ovs (components s3)
               = (if ovs_manager self
                  then returned (CEEOVSManager.monitor_ovs_performance w
                                   network_globals g2)
                  else None)).
  { rewrite C3, C2, C1, H3. destruct (ovs_manager self); [|reflexivity].
    match goal with
    | |- match ?x with _ => _ end = _ => generalize x
    end.
    now intros [p|]. }
  destruct (status_recommendations_outcome g3 s3) as (s4 & E4 & K4).
  assert (F : forall s5 : SystemStatus,
            components s5 = components s3 ->
            comp_openstack (components s5)
              = (if openstack_client self
                 then returned (CEEOpenStackClient.get_cee_cluster_status w g)
                 else None) /\
            comp_vxsds (components s5)
              = (if vxsds_manager self
                 then returned (CEEVxSDSManager.monitor_vxsds_health w g1)
                 else None) /\
            comp_ovs (components s5)
              = (if ovs_manager self
                 then returned (CEEOVSManager.monitor_ovs_performance w
                                  network_globals g2)
                 else None)).
  { intros s5 ->. now repeat split. }
  destruct (ovs_manager self).
  - destruct (fst (CEEOVSManager.monitor_ovs_performance w network_globals g2))
      as [p|e] eqn:M.
    + rewrite (bind_Ret _ _ _ _ _ E3). rewrite E4.
      exists s4. rewrite K4. split; [reflexivity|]. now apply F.
    + rewrite (bind_Raise _ _ _ _ _ E3).
      exists s3. split; [reflexivity|]. now apply F.
  - rewrite (bind_Ret _ _ _ _ _ E3). rewrite E4.
    exists s4. rewrite K4. split; [reflexivity|]. now apply F.
Qed.

(** What [get_comprehensive_status] returns, in full. *)
Lemma get_comprehensive_status_collects st :
  let st1 := record_call time_time st in
  let os := CEEOpenStackClient.get_cee_cluster_status w st1 in
  let st2 := after (openstack_client self) os st1 in
  let vx := CEEVxSDSManager.monitor_vxsds_health w st2 in
  let st3 := after (vxsds_manager self) vx st2 in
  let ovs := CEEOVSManager.monitor_ovs_performance w network_globals st3 in
  let st4 := after (ovs_manager self) ovs st3 in
  exists r,
    Orchestrator.get_comprehensive_status w network_globals self st
      = (Ret r, st4) /\
    comp_openstack (components r) = recorded (openstack_client self) os /\
    comp_vxsds (components r) = recorded (vxsds_manager self) vx /\
    comp_ovs (components r) = recorded (ovs_manager self) ovs /\
    match block_exception (ovs_manager self) ovs (components r) with
    | None =>
        overall_health r = level_name (worst_of_three (components r)) /\
        alerts r = subsystem_alerts (components r)
    | Some e =>
        overall_health r = "error" /\
        alerts r = subsystem_alerts (components r) ++ [collection_error e]
    end /\
    (forall e, recommendations_exception (components r) = Some e ->
               e = OverflowError).
Proof.
  cbv zeta.
  unfold Orchestrator.get_comprehensive_status.
  unfold bind at 1. rewrite external_run.
  fold (initial_status (clock w (List.length (trace st)))).
  fold (status_body w network_globals self).
  unfold with_local, bind at 1, try_except.
  pose proof (status_body_consistent w network_globals self
                (record_call time_time st)
                (clock w (List.length (trace st)))) as C.
  destruct (status_body_collects (record_call time_time st)
              (initial_status (clock w (List.length (trace st))))
              eq_refl eq_refl eq_refl)
    as (s' & E & K1 & K2 & K3).
  rewrite E in C |- *. cbn [fst snd] in C. destruct C as [Hh Ha].
  destruct (block_exception _ _ (components s')) as [e|] eqn:B.
  - unfold bind, update, local. cbn [fst snd].
    eexists. split; [reflexivity|].
    cbn [components append_alert set_overall_health overall_health alerts].
    split; [exact K1|]. split; [exact K2|]. split; [exact K3|].
    rewrite B. split; [|apply recommendations_exception_overflow].
    split; [reflexivity|]. now rewrite Ha.
  - unfold local. cbn [fst snd].
    exists s'. split; [reflexivity|].
    split; [exact K1|]. split; [exact K2|]. split; [exact K3|].
    rewrite B. split; [now split | apply recommendations_exception_overflow].
Qed.

(** C7 (amended): [get_comprehensive_status] returns on every input.
    Every component that is present is consulted, in the order
    OpenStack, VxSDS, switch, and what it returned is recorded; an
    absent one is neither.  The [try] block raises in two cases: when an
    OVS manager is present and its monitor raises, and otherwise when
    the division of the recommendations, reached with a VxSDS report
    whose summary has a total above zero, raises, which it does only
    with [OverflowError].  When the block finishes, [overall_health] is
    the worst of three levels that the reporter derives itself from what
    is recorded (OpenStack: [warning] unless the cluster status is
    [success]; VxSDS: [critical] for a critical report, [warning] for
    any other report that is not healthy; switch: [warning] when the
    [ovs-vswitchd] CPU share exceeds 80; an absent component counts as
    healthy), and [alerts] holds one summary line for each subsystem
    whose level is not healthy, nothing else.  When the block raises,
    [overall_health] is [error] and the exception text is appended to
    those lines. *)
Theorem overall_health_is_worst_of_derived_levels st :
  let st1 := record_call time_time st in
  let os := CEEOpenStackClient.get_cee_cluster_status w st1 in
  let st2 := after (openstack_client self) os st1 in
  let vx := CEEVxSDSManager.monitor_vxsds_health w st2 in
  let st3 := after (vxsds_manager self) vx st2 in
  let ovs := CEEOVSManager.monitor_ovs_performance w network_globals st3 in
  let st4 := after (ovs_manager self) ovs st3 in
  exists r,
    Orchestrator.get_comprehensive_status w network_globals self st
      = (Ret r, st4) /\
    comp_openstack (components r) = recorded (openstack_client self) os /\
    comp_vxsds (components r) = recorded (vxsds_manager self) vx /\
    comp_ovs (components r) = recorded (ovs_manager self) ovs /\
    match block_exception (ovs_manager self) ovs (components r) with
    | None =>
        overall_health r = level_name (worst_of_three (components r)) /\
        alerts r = subsystem_alerts (components r)
    | Some e =>
        overall_health r = "error" /\
        alerts r = subsystem_alerts (components r) ++ [collection_error e]
    end /\
    (forall e, recommendations_exception (components r) = Some e ->
               e = OverflowError).
Proof. exact (get_comprehensive_status_collects st). Qed.

End Collecting.

Lemma level_name_not_error l : level_name l <> "error".
Proof. destruct l; discriminate. Qed.


(** ** The claims on concrete runs *)

Lemma inconsistent_lab_answers : gateway_answers inconsistent_lab.
Proof. intro n. now repeat split. Qed.



(** C3, as stated, fails: seven clock ticks after the first call, well
    within the 300 of the TTL, the second call lists volumes, SDC nodes
    and SDS nodes again, and its summary differs from the first by its
    timestamp. *)
Lemma second_summary_calls_the_gateway_again :
  exists s1 st1 s2 st2,
    CEEVxSDSManager.get_cee_storage_summary inconsistent_lab init_state
      = (Ret s1, st1) /\
    CEEVxSDSManager.get_cee_storage_summary inconsistent_lab st1
      = (Ret s2, st2) /\
    (clock inconsistent_lab (List.length (trace st1)) - _cache_time st1
       <= _cache_ttl st1)%Q /\
    trace st2 = trace st1 ++ [time_time; time_time; get_volumes;
                              get_sdc_nodes; get_sds_nodes] /\
    timestamp s1 = inject_Z 1003 /\
    timestamp s2 = inject_Z 1008 /\
    s2 <> s1.
Proof.
  do 4 eexists.
  split; [vm_compute; reflexivity|]. split; [vm_compute; reflexivity|].
  split; [vm_compute; discriminate|].
  split; [reflexivity|]. split; [reflexivity|]. split; [reflexivity|].
  intros H. discriminate H.
Qed.

Lemma two_summaries_in_the_lab :
  exists s1 st1 s2 st2,
    CEEVxSDSManager.get_cee_storage_summary inconsistent_lab init_state
      = (Ret s1, st1) /\
    (clock inconsistent_lab (List.length (trace st1)) - _cache_time st1
       <= _cache_ttl st1)%Q /\
    CEEVxSDSManager.get_cee_storage_summary inconsistent_lab st1
      = (Ret s2, st2).
Proof.
  do 4 eexists.
  split; [vm_compute; reflexivity|].
  split; [vm_compute; discriminate | vm_compute; reflexivity].
Qed.

Lemma second_summary_within_ttl_witness :
  exists s1 st1 s2 st2,
    CEEVxSDSManager.get_cee_storage_summary inconsistent_lab init_state
      = (Ret s1, st1) /\
    (clock inconsistent_lab (List.length (trace st1)) - _cache_time st1
       <= _cache_ttl st1)%Q /\
    CEEVxSDSManager.get_cee_storage_summary inconsistent_lab st1
      = (Ret s2, st2) /\
    capacity s2 = capacity s1 /\
    storage_pools s2 = storage_pools s1 /\
    _cache_time st2 = _cache_time st1.
Proof.
  destruct two_summaries_in_the_lab as (s1 & st1 & s2 & st2 & E1 & T & E2).
  exists s1, st1, s2, st2.
  split; [exact E1|]. split; [exact T|]. split; [exact E2|].
  destruct (second_summary_within_ttl _ _ _ _ _ _ E1 T E2)
    as (_ & Hc & Hs & _ & _ & _ & Ht).
  now repeat split.
Defined.

(** C6, as stated, fails for the network classifier: with the required
    bridge missing it finds one issue and reports [warning]. *)
Lemma one_network_issue_is_a_warning :
  exists r st',
    monitor_cee_network_health bridgeless_lab (network_utils_globals true)
      init_state = (Ret r, st') /\
    nh_issues r = [missing_bridge "br-int"] /\
    nh_overall_status r = "warning" /\
    nh_overall_status r <> "critical".
Proof.
  do 2 eexists. split; [vm_compute; reflexivity|].
  split; [reflexivity|]. split; [reflexivity | discriminate].
Qed.

Lemma verdict_rules_witness :
  contains (network_utils_globals true) "time" = true /\
  exists r,
    fst (monitor_cee_network_health bridgeless_lab (network_utils_globals true)
           init_state) = Ret r /\
    nh_issues r = [missing_bridge "br-int"] /\
    nh_overall_status r = network_verdict 1.
Proof.
  split; [reflexivity|].
  destruct (proj2 verdict_rules bridgeless_lab (network_utils_globals true)
              init_state eq_refl)
    as (r & t & p & st2 & st' & E & T & P & _ & _ & I & S & _).
  exists r. rewrite E. split; [reflexivity|].
  inversion T; subst t st2. clear T.
  rewrite monitor_ovs_performance_bound in P by reflexivity.
  inversion P; subst p st'. clear P.
  split; [exact I | now rewrite S, I].
Defined.

(** A pool of one gigabyte that reports [10 ^ 400] gigabytes free: the
    division of the free-space check overflows, and the report is
    [error] with the summary in it. *)
Lemma overflowing_free_space_is_an_error :
  exists r st' m,
    CEEVxSDSManager.monitor_vxsds_health overflowing_lab init_state
      = (Ret r, st') /\
    overall_status r = "error" /\
    issues r = [monitoring_error OverflowError] /\
    metrics r = Some m /\
    total_gb (capacity m) = 1 /\ free_gb (capacity m) = 10 ^ 400.
Proof.
  do 3 eexists. split; [vm_compute; reflexivity|].
  split; [reflexivity|]. split; [reflexivity|]. split; [reflexivity|].
  split; reflexivity.
Qed.

Lemma summary_in_the_empty_lab :
  exists m st',
    CEEVxSDSManager.get_cee_storage_summary empty_lab
      (record_call time_time init_state) = (Ret m, st') /\
    total_gb (capacity m) = 0.
Proof.
  do 2 eexists. split; [vm_compute; reflexivity | reflexivity].
Qed.

Lemma zero_total_skips_capacity_check_witness :
  exists m st',
    CEEVxSDSManager.get_cee_storage_summary empty_lab
      (record_call time_time init_state) = (Ret m, st') /\
    total_gb (capacity m) = 0 /\
    exists r,
      CEEVxSDSManager.monitor_vxsds_health empty_lab init_state = (Ret r, st') /\
      issues r = fst (CEEVxSDSManager.check_nodes m) /\
      overall_status r <> "error".
Proof.
  destruct summary_in_the_empty_lab as (m & st' & E & Z).
  exists m, st'. split; [exact E|]. split; [exact Z|].
  destruct (zero_total_skips_capacity_check empty_lab init_state m st' E Z)
    as (_ & r & Er & _ & Hi & _ & _ & _ & Hs).
  exists r. now repeat split.
Defined.

(** C7, as stated, fails.  In the process of the orchestrator, which
    imports [cee_network_utils], the VxSDS report is [critical] with the
    issue that no SDC node is available; [alerts] has the line
    ["VxSDS issues: critical"] but not the issue itself, and
    [overall_health] is [error], not the worst of the three. *)
Lemma alerts_omit_the_issues_of_the_subsystems :
  exists r st' h,
    Orchestrator.get_comprehensive_status troubled_lab
      (network_utils_globals false) full_orchestrator init_state
      = (Ret r, st') /\
    comp_vxsds (components r) = Some h /\
    overall_status h = "critical" /\
    issues h = [no_sdc_nodes] /\
    alerts r = [openstack_alert; vxsds_alert "critical";
                collection_error (NameError "time")] /\
    ~ In no_sdc_nodes (alerts r) /\
    overall_health r = "error".
Proof.
  do 3 eexists. split; [vm_compute; reflexivity|].
  split; [reflexivity|]. split; [reflexivity|]. split; [reflexivity|].
  split; [reflexivity|]. split; [|reflexivity].
  simpl. intros [H|[H|[H|[]]]]; discriminate H.
Qed.

(** The same collection with [time] bound in [cee_network_utils]: the
    health is the worst of the three, [critical], and the issue is still
    not among the alerts. *)
Lemma alerts_with_time_bound :
  exists r st',
    Orchestrator.get_comprehensive_status troubled_lab
      (network_utils_globals true) full_orchestrator init_state
      = (Ret r, st') /\
    overall_health r = "critical" /\
    alerts r = [openstack_alert; vxsds_alert "critical";
                ovs_cpu_alert (85 # 1)] /\
    ~ In no_sdc_nodes (alerts r).
Proof.
  do 2 eexists. split; [vm_compute; reflexivity|].
  split; [reflexivity|]. split; [reflexivity|].
  simpl. intros [H|[H|[H|[]]]]; discriminate H.
Qed.

Lemma monitor_ovs_performance_raises_when_imported_witness :
  ovs_manager full_orchestrator = true /\
  exists r st',
    Orchestrator.get_comprehensive_status noisy_lab
      (network_utils_globals false) full_orchestrator init_state
      = (Ret r, st') /\
    overall_health r = "error".
Proof.
  split; [reflexivity|].
  apply (proj2 (proj2 (monitor_ovs_performance_raises_when_imported
                         noisy_lab init_state)) full_orchestrator).
  reflexivity.
Defined.


(** The same collection with [time] bound in [cee_network_utils]: the
    block finishes and the health is [warning]. *)
Lemma status_in_the_noisy_lab :
  exists r st',
    Orchestrator.get_comprehensive_status noisy_lab
      (network_utils_globals true) full_orchestrator init_state
      = (Ret r, st') /\
    (forall h, comp_vxsds (components r) = Some h ->
               overall_status h <> "critical") /\
    overall_health r = "warning".
Proof.
  do 2 eexists. split; [vm_compute; reflexivity|].
  split; [|reflexivity].
  intros h H. inversion H. discriminate.
Qed.

(** C2, as stated, fails: project creation is refused, step 1 returns
    [error], and the environment is reported as [partial_failure], after
    both networks of step 2 have been asked for. *)
Lemma failed_project_creation_is_a_partial_failure :
  exists setup st1 r st2,
    CEEOpenStackClient.create_cee_tenant_setup conflict_lab "t1" "" None None
      "192.168.100.0/24" true init_state = (Ret setup, st1) /\
    tsr_status setup = "error" /\
    Orchestrator.create_complete_tenant_environment conflict_lab
      full_orchestrator "t1" "" None None "192.168.100.0/24" 100 init_state
      = (Ret r, st2) /\
    tr_status r = "partial_failure" /\
    tr_status r <> "error" /\
    errors r = [tenant_error (Some "Conflict")] /\
    trace st2 = [conn (create_project "t1");
                 conn (create_network "t1-internal");
                 conn (create_subnet "t1-internal-subnet");
                 conn (create_network "t1-dmz");
                 conn (create_subnet "t1-dmz-subnet")].
Proof.
  do 4 eexists. split; [vm_compute; reflexivity|].
  split; [reflexivity|]. split; [vm_compute; reflexivity|].
  split; [reflexivity|]. split; [discriminate|].
  split; reflexivity.
Qed.

Lemma setup_in_the_conflict_lab :
  exists setup st1,
    CEEOpenStackClient.create_cee_tenant_setup conflict_lab "t1" "" None None
      "192.168.100.0/24" true init_state = (Ret setup, st1) /\
    tsr_status setup <> "success".
Proof.
  do 2 eexists. split; [vm_compute; reflexivity | discriminate].
Qed.

Lemma failed_tenant_setup_gives_partial_failure_witness :
  openstack_client full_orchestrator = true /\
  exists setup st1,
    CEEOpenStackClient.create_cee_tenant_setup conflict_lab "t1" "" None None
      "192.168.100.0/24" true init_state = (Ret setup, st1) /\
    tsr_status setup <> "success" /\
    exists r st2,
      Orchestrator.create_complete_tenant_environment conflict_lab
        full_orchestrator "t1" "" None None "192.168.100.0/24" 100 init_state
        = (Ret r, st2) /\
      tr_status r = "partial_failure" /\
      errors r = [tenant_error (tsr_message setup)].
Proof.
  split; [reflexivity|].
  destruct setup_in_the_conflict_lab as (setup & st1 & E & N).
  exists setup, st1. split; [exact E|]. split; [exact N|].
  destruct (failed_tenant_setup_gives_partial_failure conflict_lab
              full_orchestrator eq_refl "t1" "" None None "192.168.100.0/24"
              100 init_state setup st1 E N)
    as (r & st2 & calls & Er & Hs & He & _).
  exists r, st2. now repeat split.
Defined.

(** C5, as stated, fails in its first half: the image of the first volume
    is not found, its creation returns [error], the second volume is
    created, and the result has that one volume, status [success] and no
    message: the failure is recorded nowhere. *)
Lemma failed_volume_leaves_no_record :
  exists res g1 r st',
    volume_attempt image_lab "app" (volume_spec "data") init_state
      = (Ret res, g1) /\
    vm_status res = "error" /\
    Orchestrator.deploy_application_stack image_lab full_orchestrator "app"
      "p1" two_volumes init_state = (Ret r, st') /\
    r = {| stack_name := "app"; sr_status := "success"; instances := [];
           sr_volumes := [Some "id"]; load_balancers := [];
           sr_message := None |}.
Proof.
  do 4 eexists. split; [vm_compute; reflexivity|].
  split; [reflexivity|]. split; [vm_compute; reflexivity | reflexivity].
Qed.

Lemma deploy_attempts_every_item_witness :
  openstack_client full_orchestrator = true /\
  Forall (fun v => vc_name v <> None) (default [] (sc_volumes two_volumes)) /\
  Forall (fun i => ic_name i <> None) (default [] (sc_instances two_volumes)) /\
  (forall n, is_ret (ports_at image_lab n) = true) /\
  exists r st',
    Orchestrator.deploy_application_stack image_lab full_orchestrator "app"
      "p1" two_volumes init_state = (Ret r, st') /\
    sr_status r = "success" /\ sr_message r = None.
Proof.
  assert (Hv : Forall (fun v => vc_name v <> None)
                      (default [] (sc_volumes two_volumes)))
    by (repeat constructor; discriminate).
  assert (Hi : Forall (fun i => ic_name i <> None)
                      (default [] (sc_instances two_volumes)))
    by constructor.
  assert (Hp : forall n, is_ret (ports_at image_lab n) = true)
    by reflexivity.
  split; [reflexivity|]. split; [exact Hv|]. split; [exact Hi|].
  split; [exact Hp|].
  destruct (deploy_attempts_every_item image_lab full_orchestrator "app" "p1"
              two_volumes init_state eq_refl Hv Hi Hp)
    as (E & Hs & Hm & _).
  eexists. eexists. split; [exact E|]. now split.
Defined.

(** In a battery whose first probe raises, the second probe still runs
    and the first has its [fail] entry. *)
Lemma health_check_isolates_probes_witness :
  exists hc st',
    Orchestrator.perform_health_check_of empty_lab raising_battery init_state
      = (Ret hc, st') /\
    passed hc + hc_warnings hc + failed hc = 2 /\
    dict_get (checks hc) "first" = Some (check_failed boom).
Proof.
  destruct (health_check_isolates_probes empty_lab raising_battery init_state)
    as (hc & st' & E & _ & T & P).
  exists hc, st'. split; [exact E|]. split; [exact T|].
  apply (P [] "first" (raise boom)
           [("second", ret (probe_result "pass" [Txt "fine"]))]
           boom (record_call time_time init_state) eq_refl).
  - simpl. intros [H|[]]. discriminate H.
  - reflexivity.
Defined.

Lemma raising_battery_run :
  exists st',
    Orchestrator.perform_health_check_of empty_lab raising_battery init_state
      = (Ret {| hc_timestamp := inject_Z 1000;
                checks := [("first", check_failed boom);
                           ("second", probe_result "pass" [Txt "fine"])];
                passed := 1; failed := 1; hc_warnings := 0 |}, st').
Proof. eexists. vm_compute. reflexivity. Qed.

(** A spec without a name is another matter: the [KeyError] of the loop
    body reaches the handler of the function, which reports [error] and
    leaves the specs after it untried. *)
Lemma nameless_volume_stops_the_stack :
  exists r,
    Orchestrator.deploy_application_stack image_lab full_orchestrator "app"
      "p1"
      {| sc_instances := None;
         sc_volumes :=
           Some [{| vc_name := None; vc_flavor := None; vc_size_gb := None;
                    vc_type := None |};
                 volume_spec "logs"] |}
      init_state = (Ret r, init_state) /\
    sr_status r = "error" /\
    sr_message r = Some "'name'" /\
    sr_volumes r = [].
Proof. eexists. split; [vm_compute; reflexivity|]. now repeat split. Qed.

(** ** The OpenStack client, call by call *)

Lemma length_trace_record_call c g :
  List.length (trace (record_call c g)) = S (List.length (trace g)).
Proof. cbn. rewrite length_app. cbn. lia. Qed.

(** X1: when the three lookups of [create_vm_with_vxsds_storage]
    (image, flavor, network) all answer and one of them found nothing,
    all three were made, also when it is the first that found nothing;
    the result is the error "Не найдены необходимые ресурсы" and nothing
    else was called: no volume and no server is asked for. *)
Theorem missing_resource_creates_nothing
    w name image flavor network_name size type g
    (image_obj flavor_obj network_obj : Obj) :
  let n := List.length (trace g) in
  conn_at w n (find_image image) = Ret image_obj ->
  conn_at w (S n) (find_flavor flavor) = Ret flavor_obj ->
  conn_at w (S (S n)) (find_network network_name) = Ret network_obj ->
  image_obj = None \/ flavor_obj = None \/ network_obj = None ->
  CEEOpenStackClient.create_vm_with_vxsds_storage w name image flavor
    network_name size type g
  = (Ret (error_result "Не найдены необходимые ресурсы"),
     after_calls [conn (find_image image); conn (find_flavor flavor);
                  conn (find_network network_name)] g).
Proof.
  intros n Hi Hf Hn Hmiss.
  unfold CEEOpenStackClient.create_vm_with_vxsds_storage, try_except,
    CEEOpenStackClient.sdk.
  unfold bind at 1. rewrite external_run. fold n. rewrite Hi.
  unfold bind at 1. rewrite external_run, length_trace_record_call. fold n.
  rewrite Hf.
  unfold bind at 1. rewrite external_run, !length_trace_record_call. fold n.
  rewrite Hn.
  assert (M : forallb is_some [image_obj; flavor_obj; network_obj] = false).
  { destruct Hmiss as [-> | [-> | ->]]; cbn;
      rewrite ?andb_false_r; reflexivity. }
  unfold bind at 1. rewrite M. reflexivity.
Qed.

(** ** Switch commands *)

Lemma run_step sw command log :
  OVS._run_ovs_command sw command log
  = (Ret (OVS.run_at sw (List.length log) command),
     log ++ [OVS.Command command]).
Proof. reflexivity. Qed.

Lemma logged_cons log c cs :
  logged (log ++ [OVS.Command c]) cs = logged log (c :: cs).
Proof. unfold logged. cbn. now rewrite <- app_assoc. Qed.

Lemma length_log_step (log : OVS.Shell) c :
  List.length (log ++ [OVS.Command c]) = S (List.length log).
Proof. rewrite length_app. cbn. lia. Qed.

Lemma until_failure_prefix sw plan : forall n,
  exists rest, plan = fst (until_failure sw n plan) ++ rest.
Proof.
  induction plan as [|c plan IH]; intros n; cbn.
  - now exists [].
  - destruct (fst (OVS.run_at sw n c)); cbn.
    + destruct (IH (S n)) as [rest E]. exists rest. now rewrite <- E.
    + now exists plan.
Qed.

Lemma until_failure_all sw plan : forall n,
  snd (until_failure sw n plan) = true ->
  fst (until_failure sw n plan) = plan.
Proof.
  induction plan as [|c plan IH]; intros n; cbn; [reflexivity|].
  destruct (fst (OVS.run_at sw n c)); cbn; [|discriminate].
  intros H. now rewrite IH.
Qed.

Lemma until_failure_ok sw plan : forall n,
  snd (until_failure sw n plan) = true <->
  (forall i command,
      nth_error plan i = Some command ->
      fst (OVS.run_at sw (n + i) command) = true).
Proof.
  induction plan as [|c plan IH]; intros n; cbn.
  - split; [|reflexivity]. intros _ [|i] command H; discriminate H.
  - destruct (fst (OVS.run_at sw n c)) eqn:E; cbn.
    + rewrite IH. split.
      * intros H [|i] command Hc; cbn in Hc.
        { inversion Hc; subst. now rewrite Nat.add_0_r. }
        { replace (n + S i)%nat with (S n + i)%nat by lia. now apply H. }
      * intros H i command Hc. specialize (H (S i) command Hc).
        now replace (n + S i)%nat with (S n + i)%nat in H by lia.
    + split; [discriminate|]. intros H.
      specialize (H 0%nat c eq_refl). rewrite Nat.add_0_r in H. congruence.
Qed.

Lemma until_failure_stops sw plan : forall n,
  snd (until_failure sw n plan) = false ->
  exists before failed,
    fst (until_failure sw n plan) = before ++ [failed] /\
    fst (OVS.run_at sw (n + List.length before) failed) = false /\
    forall i command,
      nth_error before i = Some command ->
      fst (OVS.run_at sw (n + i) command) = true.
Proof.
  induction plan as [|c plan IH]; intros n; cbn; [discriminate|].
  destruct (fst (OVS.run_at sw n c)) eqn:E; cbn.
  - intros H. destruct (IH (S n) H) as (before & failed & F & X & A).
    exists (c :: before), failed. rewrite F. split; [reflexivity|]. split.
    + cbn [List.length].
      now replace (n + S (List.length before))%nat
        with (S n + List.length before)%nat by lia.
    + intros [|i] command Hc; cbn in Hc.
      * inversion Hc; subst. now rewrite Nat.add_0_r.
      * replace (n + S i)%nat with (S n + i)%nat by lia. now apply A.
  - intros _. exists [], c. split; [reflexivity|]. split.
    + cbn. now rewrite Nat.add_0_r.
    + intros [|i] command Hc; discriminate Hc.
Qed.

Ltac step :=
  unfold bind at 1; rewrite run_step, ?length_log_step; cbv beta iota;
  match goal with
  | |- context [fst (OVS.run_at ?sw ?n ?c)] =>
      destruct (fst (OVS.run_at sw n c)) eqn:?; cbn [negb]; cbv iota
  end.

Ltac close_run :=
  cbn; unfold ret; rewrite <- ?app_assoc; reflexivity.

(** The body of [create_cee_bridge] runs its plan and stops at the first
    command that fails. *)
Lemma create_cee_bridge_run sw bridge_name vlan_id physical_interface log :
  OVS.create_cee_bridge sw bridge_name vlan_id physical_interface log
  = (Ret (snd (until_failure sw (List.length log)
                 (bridge_plan bridge_name vlan_id physical_interface))),
     logged log
       (fst (until_failure sw (List.length log)
               (bridge_plan bridge_name vlan_id physical_interface)))).
Proof.
  unfold OVS.create_cee_bridge, try_except, bridge_plan, logged.
  destruct (truthy_str physical_interface), (truthy_int vlan_id);
    cbn [app until_failure];
    repeat (step; [|close_run]);
    close_run.
Qed.

(** X2: [create_cee_bridge] runs the commands of its plan in order (add
    the bridge, set its datapath type, add the port when a physical
    interface is given, tag the port when a VLAN id is given too) and
    stops at the first one that fails: what it ran is a prefix of the
    plan, and when it answers [False] the last command it ran failed and
    those before it succeeded.  It answers [True] exactly when every
    command of the plan succeeded, each at its place in the log, and the
    whole plan has then run.  A VLAN id without a physical interface is
    ignored: no [tag=] command is run then. *)
Theorem create_cee_bridge_stops_at_first_failure
    sw bridge_name vlan_id physical_interface log :
  let plan := bridge_plan bridge_name vlan_id physical_interface in
  exists ran ok,
    OVS.create_cee_bridge sw bridge_name vlan_id physical_interface log
      = (Ret ok, logged log ran) /\
    (ran, ok) = until_failure sw (List.length log) plan /\
    (exists rest, plan = ran ++ rest) /\
    (ok = true <->
     forall i command,
       nth_error plan i = Some command ->
       fst (OVS.run_at sw (List.length log + i) command) = true) /\
    (ok = true -> ran = plan) /\
    (ok = false ->
     exists before failed,
       ran = before ++ [failed] /\
       fst (OVS.run_at sw (List.length log + List.length before) failed)
         = false /\
       forall i command,
         nth_error before i = Some command ->
         fst (OVS.run_at sw (List.length log + i) command) = true) /\
    (truthy_str physical_interface = false ->
     existsb is_tag_command ran = false).
Proof.
  cbv zeta.
  eexists; eexists. split; [apply create_cee_bridge_run|].
  split; [now destruct (until_failure _ _ _)|].
  split; [apply until_failure_prefix|].
  split; [apply until_failure_ok|].
  split; [apply until_failure_all|].
  split; [apply until_failure_stops|].
  intros H. unfold bridge_plan. rewrite H. cbn.
  destruct (fst (OVS.run_at sw _ _)); cbn; [|reflexivity].
  destruct (fst (OVS.run_at sw _ _)); reflexivity.
Qed.

Lemma length_logged (log more : OVS.Shell) :
  List.length (log ++ more) = (List.length more + List.length log)%nat.
Proof. rewrite length_app. lia. Qed.

Ltac flags :=
  repeat match goal with
         | H : fst (OVS.run_at ?sw ?n ?c) = _
           |- context [fst (OVS.run_at ?sw ?n ?c)] => rewrite H
         end.

Ltac split_flags :=
  repeat match goal with
         | |- context [fst (OVS.run_at ?sw ?n ?c)] =>
             destruct (fst (OVS.run_at sw n c)) eqn:?;
             cbn [negb fst snd map app List.length]; cbv iota
         end.

Ltac next_command :=
  unfold bind at 1;
  rewrite run_step, ?length_logged;
  cbn [List.length Nat.add]; cbv beta iota; flags; cbn [negb]; cbv iota.

Lemma setup_cee_provider_network_run sw bridge_name physical_interface
    vlan_range log :
  OVS.setup_cee_provider_network sw bridge_name physical_interface vlan_range
    log
  = (Ret (snd (provider_run sw (List.length log) bridge_name
                 physical_interface vlan_range)),
     logged log (fst (provider_run sw (List.length log) bridge_name
                        physical_interface vlan_range))).
Proof.
  unfold OVS.setup_cee_provider_network, try_except.
  unfold bind at 1. rewrite create_cee_bridge_run.
  unfold provider_run, provider_plan, bridge_plan, logged, trunk_command,
    stp_command.
  cbn [truthy_int default].
  destruct (truthy_str (Some physical_interface));
    cbn [app until_failure];
    split_flags; try reflexivity;
    cbv beta iota; cbn [negb];
    repeat next_command;
    unfold ret; cbn; rewrite <- ?app_assoc; reflexivity.
Qed.

Lemma until_failure_agree sw sw' plan : forall n,
  (forall k c, In c plan -> OVS.run_at sw k c = OVS.run_at sw' k c) ->
  until_failure sw n plan = until_failure sw' n plan.
Proof.
  induction plan as [|c plan IH]; intros n H; cbn; [reflexivity|].
  rewrite (H n c (or_introl eq_refl)).
  rewrite (IH (S n)); [reflexivity|].
  intros k c' Hc. apply H. now right.
Qed.

Lemma stp_not_in_provider_plan bridge_name physical_interface vlan_range c :
  In c (provider_plan bridge_name physical_interface vlan_range) ->
  c <> stp_command bridge_name.
Proof.
  unfold provider_plan, bridge_plan, trunk_command, stp_command.
  cbn [truthy_int]. destruct (truthy_str (Some physical_interface)); cbn;
    intuition (subst; discriminate).
Qed.

Lemma no_tag_in_provider_run sw n bridge_name physical_interface vlan_range :
  existsb is_tag_command
    (fst (provider_run sw n bridge_name physical_interface vlan_range))
  = false.
Proof.
  unfold provider_run, provider_plan, bridge_plan, trunk_command, stp_command.
  cbn [truthy_int]. destruct (truthy_str (Some physical_interface));
    cbn [app until_failure]; split_flags; reflexivity.
Qed.

(** X3: [setup_cee_provider_network] does not look at what the command
    that disables STP answers: two switches that differ only there get
    the same answer and the same commands.  It answers [True] only after
    the bridge plan, the trunk command and the STP command all ran, and
    it never tags the port with a VLAN. *)
Theorem provider_network_ignores_stp_answer
    sw sw' bridge_name physical_interface vlan_range log :
  (forall n command,
     command <> stp_command bridge_name ->
     OVS.run_at sw n command = OVS.run_at sw' n command) ->
  exists ran ok,
    OVS.setup_cee_provider_network sw bridge_name physical_interface
      vlan_range log = (Ret ok, logged log ran) /\
    OVS.setup_cee_provider_network sw' bridge_name physical_interface
      vlan_range log = (Ret ok, logged log ran) /\
    (ok = true ->
     ran = provider_plan bridge_name physical_interface vlan_range
           ++ [stp_command bridge_name]) /\
    existsb is_tag_command ran = false.
Proof.
  intros H.
  assert (E : provider_run sw (List.length log) bridge_name
                physical_interface vlan_range
              = provider_run sw' (List.length log) bridge_name
                  physical_interface vlan_range).
  { unfold provider_run.
    rewrite (until_failure_agree sw sw'); [reflexivity|].
    intros k c Hc. apply H. eapply stp_not_in_provider_plan. exact Hc. }
  eexists; eexists.
  split; [apply setup_cee_provider_network_run|].
  split; [rewrite E; apply setup_cee_provider_network_run|].
  split; [|apply no_tag_in_provider_run].
  unfold provider_run.
  destruct (snd (until_failure sw _ _)) eqn:S; cbn [fst snd].
  - intros _. now rewrite (until_failure_all _ _ _ S).
  - intros D. rewrite S in D. discriminate.
Qed.

Lemma setup_cee_tenant_network_run sw tunnel_interface tunnel_ip vni_range
    log :
  OVS.setup_cee_tenant_network sw tunnel_interface tunnel_ip vni_range log
  = (Ret (snd (until_failure sw (List.length log) (tenant_plan tunnel_ip))),
     logged log (fst (until_failure sw (List.length log)
                        (tenant_plan tunnel_ip)))).
Proof.
  unfold OVS.setup_cee_tenant_network, try_except, tenant_plan, logged.
  cbn [until_failure].
  repeat (step; [|close_run]); close_run.
Qed.

Lemma logged_app log xs ys : logged (logged log xs) ys = logged log (xs ++ ys).
Proof. unfold logged. now rewrite map_app, app_assoc. Qed.

Lemma length_logged_commands log xs :
  List.length (logged log xs) = (List.length xs + List.length log)%nat.
Proof. unfold logged. rewrite length_app, length_map. lia. Qed.

Lemma setup_cee_standard_bridges_run sw log :
  OVS.setup_cee_standard_bridges sw (Ret tt) log
  = (Ret (snd (standard_run sw (List.length log))),
     logged log (fst (standard_run sw (List.length log)))).
Proof.
  unfold OVS.setup_cee_standard_bridges, with_local, try_except, standard_run.
  cbn [List.length seq map combine for_each fst snd Z.of_nat].
  set (r1 := until_failure sw (List.length log) (bridge_plan "br-int" None None)).
  set (n1 := (List.length (fst r1) + List.length log)%nat).
  set (r2 := provider_run sw n1 "br-physnet1" "eno1" "100:4000").
  set (n2 := (List.length (fst r2) + n1)%nat).
  set (r3 := provider_run sw n2 "br-physnet2" "eno2" "100:4000").
  set (n3 := (List.length (fst r3) + n2)%nat).
  set (r4 := until_failure sw n3 (tenant_plan "192.168.40.20")).
  assert (B1 : forall l : bool,
             on_global (OVS.create_cee_bridge sw "br-int" None None) (log, l)
             = (Ret (snd r1), (logged log (fst r1), l))).
  { intros l. apply on_global_run. apply create_cee_bridge_run. }
  assert (B2 : forall l : bool,
             on_global (OVS.setup_cee_provider_network sw "br-physnet1"
                          "eno1" "100:4000") (logged log (fst r1), l)
             = (Ret (snd r2), (logged log (fst r1 ++ fst r2), l))).
  { intros l. apply on_global_run.
    rewrite setup_cee_provider_network_run, length_logged_commands.
    fold n1. fold r2. now rewrite logged_app. }
  assert (B3 : forall l : bool,
             on_global (OVS.setup_cee_provider_network sw "br-physnet2"
                          "eno2" "100:4000")
                       (logged log (fst r1 ++ fst r2), l)
             = (Ret (snd r3), (logged log (fst r1 ++ fst r2 ++ fst r3), l))).
  { intros l. apply on_global_run.
    rewrite setup_cee_provider_network_run, length_logged_commands.
    rewrite length_app.
    replace (List.length (fst r1) + List.length (fst r2) + List.length log)%nat
      with n2 by (unfold n2, n1; lia).
    fold r3. now rewrite logged_app, <- app_assoc. }
  assert (B4 : forall l : bool,
             on_global (OVS.setup_cee_tenant_network sw "eno3" "192.168.40.20"
                          "1:1000")
                       (logged log (fst r1 ++ fst r2 ++ fst r3), l)
             = (Ret (snd r4),
                (logged log (fst r1 ++ fst r2 ++ fst r3 ++ fst r4), l))).
  { intros l. apply on_global_run.
    rewrite setup_cee_tenant_network_run, length_logged_commands.
    rewrite !length_app.
    replace (List.length (fst r1)
             + (List.length (fst r2) + List.length (fst r3))
             + List.length log)%nat
      with n3 by (unfold n3, n2, n1; lia).
    fold r4. now rewrite logged_app, <- !app_assoc. }
  change ("br-" ++ "physnet1")%string with "br-physnet1".
  change ("br-" ++ "physnet2")%string with "br-physnet2".
  change ("eno" ++ Py.str_int (0 + 1))%string with "eno1".
  change ("eno" ++ Py.str_int (1 + 1))%string with "eno2".
  unfold bind, update, ret, local. cbn [fst snd].
  rewrite B1.
  destruct (snd r1); cbn [negb fst snd]; rewrite B2;
    destruct (snd r2); cbn [negb fst snd]; rewrite B3;
    destruct (snd r3); cbn [negb fst snd]; rewrite B4;
    destruct (snd r4); reflexivity.
Qed.

Lemma bridges_asked_app xs ys :
  bridges_asked (xs ++ ys) = bridges_asked xs ++ bridges_asked ys.
Proof. unfold bridges_asked. apply flat_map_app. Qed.

Lemma bridges_asked_provider_run sw n bridge_name physical_interface
    vlan_range :
  bridges_asked
    (fst (provider_run sw n bridge_name physical_interface vlan_range))
  = [bridge_name].
Proof.
  unfold provider_run, provider_plan, bridge_plan, trunk_command, stp_command.
  cbn [truthy_int]. destruct (truthy_str (Some physical_interface));
    cbn [app until_failure]; split_flags; reflexivity.
Qed.

(** X4: [setup_cee_standard_bridges] attempts all four of its steps
    whatever the earlier ones answered: the integration bridge, the two
    provider bridges and the tunnel bridge are each asked for, in that
    order, on every switch, and the answer is the conjunction of the four
    steps.  When importing the configuration loader raises, the
    exception leaves the function and no command is run.  The provider
    bridges it asks for, [br-physnet1] and [br-physnet2], are not what
    [_identify_bridge_role] takes for a provider bridge. *)
Theorem standard_bridges_attempt_every_step sw log :
  (forall e,
     OVS.setup_cee_standard_bridges sw (Raise e) log = (Raise e, log)) /\
  exists ran ok,
    OVS.setup_cee_standard_bridges sw (Ret tt) log = (Ret ok, logged log ran) /\
    (ran, ok) = standard_run sw (List.length log) /\
    bridges_asked ran = ["br-int"; "br-physnet1"; "br-physnet2"; "br-tun"] /\
    map OVS._identify_bridge_role (bridges_asked ran)
      = ["integration"; "unknown"; "unknown"; "tunnel"].
Proof.
  split; [reflexivity|].
  eexists; eexists. split; [apply setup_cee_standard_bridges_run|].
  split; [now destruct (standard_run _ _)|].
  assert (B : bridges_asked (fst (standard_run sw (List.length log)))
              = ["br-int"; "br-physnet1"; "br-physnet2"; "br-tun"]).
  { unfold standard_run. cbn [fst].
    rewrite !bridges_asked_app, !bridges_asked_provider_run.
    unfold bridge_plan, tenant_plan. cbn [truthy_str app until_failure].
    split_flags; reflexivity. }
  split; [exact B|]. rewrite B. reflexivity.
Qed.

(** ** Bridge roles and node types *)

Lemma is_role_integration b :
  is_role "integration" b = String.eqb "br-int" b.
Proof.
  unfold is_role, OVS._identify_bridge_role.
  rewrite (String.eqb_sym "br-int" b).
  destruct (String.eqb b "br-int") eqn:E; [reflexivity|].
  destruct (_ || _); [reflexivity|].
  destruct (String.eqb b "br-tun"); reflexivity.
Qed.

Lemma is_role_tunnel b : is_role "tunnel" b = String.eqb "br-tun" b.
Proof.
  unfold is_role, OVS._identify_bridge_role.
  rewrite (String.eqb_sym "br-tun" b).
  destruct (String.eqb b "br-int") eqn:E.
  - apply String.eqb_eq in E. subst. reflexivity.
  - destruct (String.eqb b "br-tun") eqn:T.
    + apply String.eqb_eq in T. subst. reflexivity.
    + destruct (_ || _); reflexivity.
Qed.

Lemma is_role_provider b :
  is_role "provider" b
  = Py.startswith b "br-provider" || Py.startswith b "br-ex".
Proof.
  unfold is_role, OVS._identify_bridge_role.
  destruct (String.eqb b "br-int") eqn:E.
  - apply String.eqb_eq in E. subst. reflexivity.
  - destruct (_ || _); [reflexivity|].
    destruct (String.eqb b "br-tun"); reflexivity.
Qed.

Lemma existsb_same {A} (f g : A -> bool) xs :
  (forall x, f x = g x) -> existsb f xs = existsb g xs.
Proof.
  intros H. induction xs as [|x xs IH]; [reflexivity|].
  cbn [existsb]. now rewrite H, IH.
Qed.

(** X5: the node type that [_identify_node_roles] derives from the bridge
    names is a function of the roles that [_identify_bridge_role] gives
    those bridges: the two functions agree on what an integration, a
    tunnel and a provider bridge is.  A node with no integration bridge
    is [unknown] whatever else it has. *)
Theorem node_type_follows_bridge_roles (bridge_names : list string) :
  let has role := existsb (is_role role) bridge_names in
  OVS._identify_node_roles bridge_names
  = (if has "integration" && has "tunnel"
     then if has "provider" then "network_node" else "compute_node"
     else if has "integration" then "controller_node"
     else "unknown") /\
  (has "integration" = false ->
   OVS._identify_node_roles bridge_names = "unknown").
Proof.
  intros has.
  assert (E : OVS._identify_node_roles bridge_names
              = (if has "integration" && has "tunnel"
                 then if has "provider" then "network_node" else "compute_node"
                 else if has "integration" then "controller_node"
                 else "unknown")).
  { unfold has, OVS._identify_node_roles.
    rewrite (existsb_same _ _ bridge_names is_role_integration).
    rewrite (existsb_same _ _ bridge_names is_role_tunnel).
    rewrite (existsb_same _ _ bridge_names is_role_provider).
    reflexivity. }
  split; [exact E|].
  intros H. rewrite E, H. reflexivity.
Qed.

(** ** The parser of [ovs-vsctl show] *)

Lemma for_each_returns {S A} (xs : list A) (body : A -> MS S unit)
    (f : S -> A -> S) :
  (forall x s, In x xs -> body x s = (Ret tt, f s x)) ->
  forall s, for_each xs body s = (Ret tt, fold_left f xs s).
Proof.
  induction xs as [|x xs IH]; intros H s; [reflexivity|].
  cbn [for_each fold_left].
  rewrite (bind_Ret _ _ _ _ _ (H x s (or_introl eq_refl))).
  apply IH. intros y t Hy. apply H. now right.
Qed.

Lemma index_second {S} (ws : list string) (s : S) :
  Py.index ws 1 s
  = if (List.length ws <? 2)%nat then (Raise Py.IndexError, s)
    else (Ret (nth 1 ws ""), s).
Proof.
  unfold Py.index. destruct ws as [|a [|b ws]]; reflexivity.
Qed.

Lemma parse_line_run {G} line (g : G) p :
  OVS.parse_line line (g, p)
  = if lone_keyword line
    then (Raise Py.IndexError,
          (g, if Py.startswith (Py.strip line) "Bridge"
              then OVS.close_bridge p else p))
    else (Ret tt, (g, parsed_line p line)).
Proof.
  unfold OVS.parse_line, lone_keyword, keyword_line, parsed_line.
  destruct (Py.startswith (Py.strip line) "Bridge") eqn:B; cbn [orb andb].
  - unfold bind at 1, update at 1. cbn [fst snd].
    unfold bind at 1. rewrite index_second.
    destruct (_ <? 2)%nat; reflexivity.
  - destruct (Py.startswith (Py.strip line) "Port") eqn:P; cbn [orb andb].
    + unfold bind at 1. rewrite index_second.
      destruct (_ <? 2)%nat; reflexivity.
    + reflexivity.
Qed.

Lemma parse_lines_run {G} lines : forall (g : G) p,
  if existsb lone_keyword lines
  then exists p',
         for_each lines OVS.parse_line (g, p) = (Raise Py.IndexError, (g, p'))
  else for_each lines OVS.parse_line (g, p)
       = (Ret tt, (g, fold_left parsed_line lines p)).
Proof.
  induction lines as [|line lines IH]; intros g p; [reflexivity|].
  cbn [for_each existsb fold_left]. unfold bind.
  rewrite parse_line_run.
  destruct (lone_keyword line); cbn [orb]; [eexists; reflexivity|].
  apply IH.
Qed.

(** X6: [_parse_ovs_show_output] raises [IndexError] exactly when some
    line of the output, stripped, starts with [Bridge] or [Port] and has
    no second word; on every other output it returns a dict.  No other
    exception can leave it. *)
Theorem parse_fails_exactly_on_a_lone_keyword {G} (output : string) (g : G) :
  if existsb lone_keyword (Py.split_on output OVS.newline)
  then OVS._parse_ovs_show_output output g = (Raise Py.IndexError, g)
  else exists found, OVS._parse_ovs_show_output output g = (Ret found, g).
Proof.
  unfold OVS._parse_ovs_show_output, with_local.
  pose proof (parse_lines_run (Py.split_on output OVS.newline) g
                {| OVS.bridges := []; OVS.current_bridge := None;
                   OVS.current_ports := [] |}) as H.
  destruct (existsb lone_keyword _).
  - destruct H as [p' H]. now rewrite (bind_Raise _ _ _ _ _ H).
  - rewrite (bind_Ret _ _ _ _ _ H). eexists. reflexivity.
Qed.

(** *** ASCII text *)

Lemma plain_is_ascii c : plain c = true -> is_ascii c = true.
Proof.
  unfold plain, is_ascii. intros H.
  apply andb_true_iff in H. destruct H as [H _].
  apply andb_true_iff in H. destruct H as [_ H].
  apply Nat.leb_le in H. apply Nat.ltb_lt. lia.
Qed.

Lemma plain_not_blank c : plain c = true -> blank c = false.
Proof.
  destruct c as [[] [] [] [] [] [] [] []]; vm_compute; congruence.
Qed.

Lemma plain_not_quote c : plain c = true -> String.eqb (single c) OVS.quote = false.
Proof.
  destruct c as [[] [] [] [] [] [] [] []]; vm_compute; congruence.
Qed.

Lemma ascii_not_continuation c : is_ascii c = true -> Py.is_continuation c = false.
Proof.
  unfold is_ascii, Py.is_continuation. intros H. apply Nat.ltb_lt in H.
  apply andb_false_iff. left. apply Nat.leb_gt. lia.
Qed.

Lemma chars_ascii s :
  ascii_only s = true -> Py.chars s = map single (list_ascii_of_string s).
Proof.
  unfold ascii_only.
  induction s as [|c s IH]; intros H; [reflexivity|].
  cbn [list_ascii_of_string forallb] in H.
  apply andb_true_iff in H. destruct H as [Hc Hs].
  cbn [Py.chars list_ascii_of_string map].
  destruct s as [|d s']; [reflexivity|].
  cbn [list_ascii_of_string forallb] in Hs.
  pose proof Hs as Hs'. apply andb_true_iff in Hs'. destruct Hs' as [Hd _].
  rewrite (ascii_not_continuation d Hd).
  now rewrite (IH Hs).
Qed.

Lemma list_of_append s t :
  list_ascii_of_string (s ++ t)
  = list_ascii_of_string s ++ list_ascii_of_string t.
Proof. induction s as [|c s IH]; cbn; [reflexivity | now rewrite IH]. Qed.

Lemma ascii_only_append s t :
  ascii_only (s ++ t) = ascii_only s && ascii_only t.
Proof. unfold ascii_only. now rewrite list_of_append, forallb_app. Qed.

Lemma concat_singles cs :
  String.concat "" (map single cs) = string_of_list_ascii cs.
Proof.
  induction cs as [|c cs IH]; [reflexivity|].
  cbn [map String.concat].
  destruct cs as [|d cs']; [reflexivity|].
  cbn [map] in *. rewrite IH. reflexivity.
Qed.

Lemma dropwhile_map {A B} (f : B -> bool) (g : A -> B) xs :
  Py.dropwhile f (map g xs) = map g (Py.dropwhile (fun x => f (g x)) xs).
Proof.
  induction xs as [|x xs IH]; [reflexivity|].
  cbn. destruct (f (g x)); [exact IH | reflexivity].
Qed.

Lemma strip_where_ascii f s :
  ascii_only s = true ->
  Py.strip_where f s
  = string_of_list_ascii
      (stripped (fun c => f (single c)) (list_ascii_of_string s)).
Proof.
  intros H. unfold Py.strip_where, stripped.
  rewrite (chars_ascii s H), dropwhile_map, <- map_rev, dropwhile_map,
    <- map_rev.
  apply concat_singles.
Qed.

Lemma dropwhile_all {A} (f : A -> bool) xs ys :
  forallb f xs = true -> Py.dropwhile f (xs ++ ys) = Py.dropwhile f ys.
Proof.
  induction xs as [|x xs IH]; intros H; [reflexivity|].
  cbn in *. apply andb_true_iff in H. destruct H as [-> H]. now apply IH.
Qed.

Lemma dropwhile_stop {A} (f : A -> bool) x xs :
  f x = false -> Py.dropwhile f (x :: xs) = x :: xs.
Proof. intros H. cbn. now rewrite H. Qed.

Lemma forallb_rev {A} (f : A -> bool) xs :
  forallb f (rev xs) = forallb f xs.
Proof.
  induction xs as [|x xs IH]; [reflexivity|].
  cbn. rewrite forallb_app, IH. cbn. rewrite andb_true_r. apply andb_comm.
Qed.

Lemma dropwhile_nil {A} (f : A -> bool) xs :
  forallb f xs = true -> Py.dropwhile f xs = [].
Proof.
  intros H. rewrite <- (app_nil_r xs). now rewrite dropwhile_all.
Qed.

Lemma dropwhile_kept {A} (f : A -> bool) xs ys :
  xs <> [] -> Py.dropwhile f xs = xs -> Py.dropwhile f (xs ++ ys) = xs ++ ys.
Proof.
  destruct xs as [|x xs]; [congruence|]. intros _. cbn.
  destruct (f x); [|reflexivity].
  intros H. exfalso.
  assert (L : (List.length (Py.dropwhile f xs) <= List.length xs)%nat).
  { clear. induction xs as [|y ys IH]; cbn; [lia|].
    destruct (f y); cbn; lia. }
  rewrite H in L. cbn in L. lia.
Qed.

(** Text that starts and ends with a kept character survives stripping;
    what is stripped before and after it goes. *)
Lemma stripped_core f pre core post :
  forallb f pre = true -> forallb f post = true ->
  Py.dropwhile f core = core -> Py.dropwhile f (rev core) = rev core ->
  stripped f (pre ++ core ++ post) = core.
Proof.
  intros Hpre Hpost Hc Hr. unfold stripped.
  rewrite (dropwhile_all f pre _ Hpre).
  destruct core as [|c core].
  - cbn [app]. rewrite (dropwhile_nil f post Hpost). reflexivity.
  - rewrite (dropwhile_kept f (c :: core) post); [|discriminate|exact Hc].
    rewrite rev_app_distr.
    rewrite (dropwhile_all f (rev post)); [|now rewrite forallb_rev].
    rewrite Hr. apply rev_involutive.
Qed.

(** *** A printer for [ovs-vsctl show] *)

(** *** Lines *)

Lemma append_assoc (a b c : string) : ((a ++ b) ++ c = a ++ (b ++ c))%string.
Proof. induction a as [|x a IH]; cbn; [reflexivity | now rewrite IH]. Qed.

Lemma append_nil_r (a : string) : (a ++ "" = a)%string.
Proof. induction a as [|x a IH]; cbn; [reflexivity | now rewrite IH]. Qed.

Lemma prefix_newline c s :
  String.prefix OVS.newline (String c s) = Ascii.eqb c "010"%char.
Proof.
  change (String.prefix OVS.newline (String c s))
    with (if ascii_dec "010" c then String.prefix "" s else false).
  destruct (ascii_dec "010" c) as [<-|N].
  - now destruct s.
  - symmetry. apply Ascii.eqb_neq. congruence.
Qed.

Lemma split_at_newline cur rest :
  Py.split_from OVS.newline 0 cur (String "010" rest)
  = cur :: Py.split_from OVS.newline 0 "" rest.
Proof.
  cbn [Py.split_from]. rewrite prefix_newline. reflexivity.
Qed.

Lemma split_line line : forall cur rest,
  no_newline line = true ->
  Py.split_from OVS.newline 0 cur (line ++ OVS.newline ++ rest)
  = (cur ++ line)%string :: Py.split_from OVS.newline 0 "" rest.
Proof.
  induction line as [|c line IH]; intros cur rest H.
  - change (("" ++ OVS.newline ++ rest)%string) with (String "010" rest).
    now rewrite split_at_newline, append_nil_r.
  - cbn [no_newline list_ascii_of_string forallb] in H.
    apply andb_true_iff in H. destruct H as [Hc H].
    change ((String c line ++ OVS.newline ++ rest)%string)
      with (String c (line ++ OVS.newline ++ rest)).
    cbn [Py.split_from]. rewrite prefix_newline.
    apply negb_true_iff in Hc. rewrite Hc.
    rewrite (IH _ _ H), append_assoc. reflexivity.
Qed.

Lemma split_last_line line : forall cur,
  no_newline line = true ->
  Py.split_from OVS.newline 0 cur line = [(cur ++ line)%string].
Proof.
  induction line as [|c line IH]; intros cur H.
  - cbn [Py.split_from]. now rewrite append_nil_r.
  - cbn [no_newline list_ascii_of_string forallb] in H.
    apply andb_true_iff in H. destruct H as [Hc H].
    cbn [Py.split_from]. rewrite prefix_newline.
    apply negb_true_iff in Hc. rewrite Hc.
    rewrite (IH _ H), append_assoc. reflexivity.
Qed.

(** Splitting what [concat] joined gives the lines back. *)
Lemma split_concat lines :
  lines <> [] -> forallb no_newline lines = true ->
  Py.split_on (String.concat OVS.newline lines) OVS.newline = lines.
Proof.
  unfold Py.split_on.
  induction lines as [|line lines IH]; [congruence|]. intros _ H.
  cbn [forallb] in H. apply andb_true_iff in H. destruct H as [Hl H].
  destruct lines as [|line' lines'].
  - cbn [String.concat]. now rewrite split_last_line.
  - cbn [String.concat] in *.
    rewrite (split_line line "" _ Hl). cbn [String.append].
    now rewrite IH.
Qed.

(** *** Words *)

Lemma string_of_list_of s : string_of_list_ascii (list_ascii_of_string s) = s.
Proof. apply string_of_list_ascii_of_string. Qed.

Lemma is_word_inv w :
  is_word w = true ->
  w <> "" /\ ascii_only w = true /\
  forallb (fun c => negb (blank c)) (list_ascii_of_string w) = true.
Proof.
  unfold is_word. intros H.
  apply andb_true_iff in H. destruct H as [H H3].
  apply andb_true_iff in H. destruct H as [H1 H2].
  apply negb_true_iff, String.eqb_neq in H1. auto.
Qed.

Lemma list_of_word_nonempty w : w <> "" -> list_ascii_of_string w <> [].
Proof. destruct w; [congruence | discriminate]. Qed.

Lemma words_token t : forall cur rest,
  forallb (fun c => negb (blank c)) t = true ->
  Py.words cur (map single (t ++ rest))
  = Py.words (cur ++ string_of_list_ascii t) (map single rest).
Proof.
  induction t as [|c t IH]; intros cur rest H.
  - cbn. now rewrite append_nil_r.
  - cbn [forallb] in H. apply andb_true_iff in H. destruct H as [Hc H].
    apply negb_true_iff in Hc.
    cbn [app map Py.words]. fold (blank c). rewrite Hc.
    rewrite (IH _ _ H), append_assoc. reflexivity.
Qed.

Lemma dropwhile_solid {A} (f : A -> bool) xs ys :
  xs <> [] -> forallb (fun x => negb (f x)) xs = true ->
  Py.dropwhile f (xs ++ ys) = xs ++ ys.
Proof.
  destruct xs as [|x xs]; [congruence|]. intros _ H.
  cbn in *. apply andb_true_iff in H. destruct H as [H _].
  apply negb_true_iff in H. now rewrite H.
Qed.

Lemma blank_space : blank " " = true.
Proof. reflexivity. Qed.

Lemma spaces_blank n :
  forallb blank (list_ascii_of_string (spaces n)) = true.
Proof.
  unfold spaces. rewrite list_ascii_of_string_of_list_ascii.
  induction n as [|n IH]; [reflexivity|].
  cbn [repeat forallb]. now rewrite blank_space, IH.
Qed.

Lemma spaces_ascii n : ascii_only (spaces n) = true.
Proof.
  unfold ascii_only, spaces. rewrite list_ascii_of_string_of_list_ascii.
  induction n as [|n IH]; [reflexivity|].
  cbn [repeat forallb]. now rewrite IH.
Qed.

(** A line made of an indent, a keyword, one space and a word: what
    [strip] and [split] give. *)
Lemma strip_keyword_line n keyword w :
  is_word keyword = true -> is_word w = true ->
  Py.strip (spaces n ++ keyword ++ " " ++ w) = (keyword ++ " " ++ w)%string.
Proof.
  intros Hk Hw.
  destruct (is_word_inv _ Hk) as (K1 & K2 & K3).
  destruct (is_word_inv _ Hw) as (W1 & W2 & W3).
  unfold Py.strip. rewrite strip_where_ascii.
  2:{ rewrite !ascii_only_append, spaces_ascii, K2, W2. reflexivity. }
  fold blank.
  rewrite list_of_append.
  rewrite <- (app_nil_r (list_ascii_of_string (keyword ++ " " ++ w))).
  rewrite stripped_core.
  - apply string_of_list_of.
  - apply spaces_blank.
  - reflexivity.
  - rewrite list_of_append.
    apply dropwhile_solid; [now apply list_of_word_nonempty | exact K3].
  - rewrite !list_of_append, !rev_app_distr, <- app_assoc.
    apply dropwhile_solid.
    + intros E. apply (f_equal (@rev ascii)) in E.
      rewrite rev_involutive in E. now apply (list_of_word_nonempty w).
    + now rewrite forallb_rev.
Qed.

Lemma split_keyword_line keyword w :
  is_word keyword = true -> is_word w = true ->
  Py.split (keyword ++ " " ++ w) = [keyword; w].
Proof.
  intros Hk Hw.
  destruct (is_word_inv _ Hk) as (K1 & K2 & K3).
  destruct (is_word_inv _ Hw) as (W1 & W2 & W3).
  unfold Py.split. rewrite chars_ascii.
  2:{ rewrite !ascii_only_append, K2, W2. reflexivity. }
  rewrite list_of_append, (words_token _ _ _ K3), string_of_list_of.
  cbn [String.append list_ascii_of_string map Py.words].
  fold (blank " "). rewrite blank_space.
  apply String.eqb_neq in K1. rewrite K1.
  rewrite <- (app_nil_r (list_ascii_of_string w)).
  rewrite (words_token _ _ _ W3), string_of_list_of.
  cbn [String.append map Py.words].
  apply String.eqb_neq in W1. now rewrite W1.
Qed.

(** *** Names *)

Lemma plain_is_not_quote c : plain c = true -> is_quote c = false.
Proof.
  destruct c as [[] [] [] [] [] [] [] []]; vm_compute; congruence.
Qed.

Lemma is_name_inv name :
  is_name name = true ->
  name <> "" /\ forallb plain (list_ascii_of_string name) = true.
Proof.
  unfold is_name. intros H. apply andb_true_iff in H. destruct H as [H1 H2].
  apply negb_true_iff, String.eqb_neq in H1. auto.
Qed.

Lemma forallb_impl {A} (f g : A -> bool) xs :
  (forall x, f x = true -> g x = true) ->
  forallb f xs = true -> forallb g xs = true.
Proof.
  intros H. induction xs as [|x xs IH]; [reflexivity|]. cbn.
  intros E. apply andb_true_iff in E. destruct E as [E1 E2].
  now rewrite (H x E1), IH.
Qed.

Lemma name_is_word name : is_name name = true -> is_word name = true.
Proof.
  intros H. destruct (is_name_inv _ H) as [N P]. unfold is_word.
  apply String.eqb_neq in N. rewrite N. cbn [negb andb].
  apply andb_true_iff. split.
  - unfold ascii_only. eapply forallb_impl; [|exact P]. apply plain_is_ascii.
  - eapply forallb_impl; [|exact P].
    intros c Hc. now rewrite (plain_not_blank c Hc).
Qed.

Lemma shown_is_word layout name :
  is_name name = true -> is_word (shown layout name) = true.
Proof.
  intros H. unfold shown. destruct (quoted layout name);
    [|now apply name_is_word].
  destruct (is_word_inv _ (name_is_word _ H)) as (N & A & B).
  unfold is_word. apply andb_true_iff. split; [apply andb_true_iff; split|].
  - reflexivity.
  - now rewrite !ascii_only_append, A.
  - rewrite !list_of_append, !forallb_app, B. reflexivity.
Qed.

Lemma unquote layout name :
  is_name name = true -> Py.strip_chars (shown layout name) OVS.quote = name.
Proof.
  intros H. destruct (is_name_inv _ H) as [N P].
  destruct (is_word_inv _ (name_is_word _ H)) as (_ & A & _).
  assert (K : forallb (fun c => negb (is_quote c)) (list_ascii_of_string name)
              = true).
  { eapply forallb_impl; [|exact P].
    intros c Hc. now rewrite (plain_is_not_quote c Hc). }
  assert (D : forall xs,
             xs <> [] -> forallb (fun c => negb (is_quote c)) xs = true ->
             Py.dropwhile is_quote xs = xs).
  { intros xs Hx Hq. rewrite <- (app_nil_r xs) at 1.
    rewrite (dropwhile_solid is_quote xs [] Hx Hq). apply app_nil_r. }
  unfold Py.strip_chars. rewrite strip_where_ascii.
  2:{ unfold shown. destruct (quoted layout name); [|exact A].
      now rewrite !ascii_only_append, A. }
  fold is_quote. unfold shown.
  destruct (quoted layout name).
  - rewrite !list_of_append.
    rewrite (stripped_core is_quote (list_ascii_of_string OVS.quote)
               (list_ascii_of_string name) (list_ascii_of_string OVS.quote)).
    + apply string_of_list_of.
    + reflexivity.
    + reflexivity.
    + apply D; [now apply list_of_word_nonempty | exact K].
    + apply D; [|now rewrite forallb_rev].
      intros E. apply (f_equal (@rev ascii)) in E.
      rewrite rev_involutive in E. now apply (list_of_word_nonempty name).
  - rewrite <- (app_nil_r (list_ascii_of_string name)).
    change (list_ascii_of_string name ++ [])
      with ([] ++ list_ascii_of_string name ++ []).
    rewrite (stripped_core is_quote [] (list_ascii_of_string name) []).
    + apply string_of_list_of.
    + reflexivity.
    + reflexivity.
    + apply D; [now apply list_of_word_nonempty | exact K].
    + apply D; [|now rewrite forallb_rev].
      intros E. apply (f_equal (@rev ascii)) in E.
      rewrite rev_involutive in E. now apply (list_of_word_nonempty name).
Qed.

(** *** What the printed lines do to the parser *)

Lemma keyword_Bridge : is_word "Bridge" = true.
Proof. reflexivity. Qed.

Lemma keyword_Port : is_word "Port" = true.
Proof. reflexivity. Qed.

Lemma parsed_bridge_line layout bridge p :
  is_name bridge = true ->
  lone_keyword (bridge_line layout bridge) = false /\
  parsed_line p (bridge_line layout bridge)
  = OVS.open_bridge bridge (OVS.close_bridge p).
Proof.
  intros H. pose proof (shown_is_word layout bridge H) as W.
  unfold lone_keyword, keyword_line, parsed_line, bridge_line.
  change (spaces 4 ++ "Bridge " ++ shown layout bridge)%string
    with (spaces 4 ++ "Bridge" ++ " " ++ shown layout bridge)%string.
  rewrite (strip_keyword_line 4 "Bridge" _ keyword_Bridge W).
  rewrite (split_keyword_line "Bridge" _ keyword_Bridge W).
  change (Py.startswith ("Bridge" ++ " " ++ shown layout bridge) "Bridge")
    with true.
  cbn [orb andb List.length Nat.ltb Nat.leb nth].
  now rewrite (unquote layout bridge H).
Qed.

Lemma parsed_port_line layout port p :
  is_name port = true ->
  lone_keyword (port_line layout port) = false /\
  parsed_line p (port_line layout port) = OVS.add_port port p.
Proof.
  intros H. pose proof (shown_is_word layout port H) as W.
  unfold lone_keyword, keyword_line, parsed_line, port_line.
  change (spaces 8 ++ "Port " ++ shown layout port)%string
    with (spaces 8 ++ "Port" ++ " " ++ shown layout port)%string.
  rewrite (strip_keyword_line 8 "Port" _ keyword_Port W).
  rewrite (split_keyword_line "Port" _ keyword_Port W).
  change (Py.startswith ("Port" ++ " " ++ shown layout port) "Bridge")
    with false.
  change (Py.startswith ("Port" ++ " " ++ shown layout port) "Port")
    with true.
  cbn [orb andb List.length Nat.ltb Nat.leb nth].
  now rewrite (unquote layout port H).
Qed.

Lemma parsed_passed_over line p :
  passed_over line = true ->
  lone_keyword line = false /\ parsed_line p line = p.
Proof.
  unfold passed_over, lone_keyword, parsed_line, keyword_line.
  intros H. apply andb_true_iff in H. destruct H as [H _].
  apply negb_true_iff in H. rewrite H.
  apply orb_false_iff in H. destruct H as [-> ->]. auto.
Qed.

Lemma existsb_app_false {A} (f : A -> bool) xs ys :
  existsb f xs = false -> existsb f ys = false -> existsb f (xs ++ ys) = false.
Proof. intros H1 H2. now rewrite existsb_app, H1, H2. Qed.

Lemma passed_over_lines lines p :
  forallb passed_over lines = true ->
  existsb lone_keyword lines = false /\ fold_left parsed_line lines p = p.
Proof.
  induction lines as [|line lines IH]; intros H; [auto|].
  cbn [forallb] in H. apply andb_true_iff in H. destruct H as [Hl H].
  destruct (parsed_passed_over line p Hl) as [L E].
  cbn [existsb fold_left]. rewrite L, E. now apply IH.
Qed.

Section Printed.

Variable layout : Layout.
Hypothesis layout_ok : well_formed layout.

Lemma shown_ports_parsed ports_ : forall p,
  forallb is_name ports_ = true ->
  existsb lone_keyword (flat_map (shown_port layout) ports_) = false /\
  fold_left parsed_line (flat_map (shown_port layout) ports_) p
  = {| OVS.bridges := OVS.bridges p;
       OVS.current_bridge := OVS.current_bridge p;
       OVS.current_ports := OVS.current_ports p ++ ports_ |}.
Proof.
  destruct layout_ok as (_ & _ & _ & Hd).
  induction ports_ as [|port ports_ IH]; intros p H.
  - cbn. rewrite app_nil_r. now destruct p.
  - cbn [forallb] in H. apply andb_true_iff in H. destruct H as [Hp H].
    cbn [flat_map]. unfold shown_port at 1 3.
    cbn [app existsb fold_left].
    destruct (parsed_port_line layout port p Hp) as [L E].
    rewrite L, E, existsb_app, fold_left_app.
    destruct (passed_over_lines (port_details layout port)
                (OVS.add_port port p) (Hd port)) as [L' E'].
    rewrite L', E'. cbn [orb].
    destruct (IH (OVS.add_port port p) H) as [L2 E2].
    rewrite L2, E2. split; [reflexivity|].
    cbn. now rewrite <- app_assoc.
Qed.

Lemma shown_bridge_parsed b p :
  is_name (fst b) = true -> forallb is_name (snd b) = true ->
  existsb lone_keyword (shown_bridge layout b) = false /\
  fold_left parsed_line (shown_bridge layout b) p
  = {| OVS.bridges := OVS.bridges (OVS.close_bridge p);
       OVS.current_bridge := Some (fst b);
       OVS.current_ports := snd b |}.
Proof.
  destruct layout_ok as (_ & _ & Hd & _).
  intros Hb Hp. unfold shown_bridge. cbn [existsb fold_left].
  destruct (parsed_bridge_line layout (fst b) p Hb) as [L E].
  rewrite L, E, existsb_app, !fold_left_app. cbn [orb].
  destruct (passed_over_lines (bridge_details layout (fst b))
              (OVS.open_bridge (fst b) (OVS.close_bridge p)) (Hd (fst b)))
    as [L' E'].
  rewrite L', E'. cbn [orb].
  destruct (shown_ports_parsed (snd b)
              (OVS.open_bridge (fst b) (OVS.close_bridge p)) Hp) as [L2 E2].
  rewrite L2, E2. split; reflexivity.
Qed.

Lemma close_opened bridge bridge_ports d :
  is_name bridge = true ->
  OVS.bridges
    (OVS.close_bridge
       {| OVS.bridges := d; OVS.current_bridge := Some bridge;
          OVS.current_ports := bridge_ports |})
  = dict_set d bridge (OVS.bridge_info bridge bridge_ports).
Proof.
  intros H. destruct (is_name_inv _ H) as [N _].
  unfold OVS.close_bridge. cbn [OVS.current_bridge OVS.bridges OVS.current_ports].
  apply String.eqb_neq in N. now rewrite N.
Qed.

Lemma shown_bridges_parsed bs : forall p,
  well_named bs = true ->
  existsb lone_keyword (flat_map (shown_bridge layout) bs) = false /\
  OVS.bridges
    (OVS.close_bridge
       (fold_left parsed_line (flat_map (shown_bridge layout) bs) p))
  = fold_left
      (fun d b => dict_set d (fst b) (OVS.bridge_info (fst b) (snd b)))
      bs (OVS.bridges (OVS.close_bridge p)).
Proof.
  induction bs as [|b bs IH]; intros p H; [auto|].
  cbn [well_named forallb] in H. apply andb_true_iff in H.
  destruct H as [Hb H]. apply andb_true_iff in Hb. destruct Hb as [Hn Hp].
  cbn [flat_map fold_left]. rewrite existsb_app, fold_left_app.
  destruct (shown_bridge_parsed b p Hn Hp) as [L E]. rewrite L, E.
  cbn [orb].
  destruct (IH {| OVS.bridges := OVS.bridges (OVS.close_bridge p);
                  OVS.current_bridge := Some (fst b);
                  OVS.current_ports := snd b |} H) as [L2 E2].
  rewrite L2, E2. split; [reflexivity|].
  now rewrite close_opened.
Qed.

Lemma close_bridge_keeps_current p :
  OVS.current_bridge (OVS.close_bridge p) = OVS.current_bridge p /\
  OVS.current_ports (OVS.close_bridge p) = OVS.current_ports p.
Proof.
  unfold OVS.close_bridge. destruct (OVS.current_bridge p) as [b|] eqn:E;
    [|auto]. destruct (String.eqb b ""); auto.
Qed.

Lemma show_lines_parsed bs :
  well_named bs = true ->
  existsb lone_keyword (show_lines layout bs) = false /\
  OVS.bridges
    (OVS.close_bridge
       (fold_left parsed_line (show_lines layout bs)
          {| OVS.bridges := []; OVS.current_bridge := None;
             OVS.current_ports := [] |}))
  = described bs.
Proof.
  destruct layout_ok as (Hh & Hf & _ & _).
  intros H. unfold show_lines.
  rewrite !existsb_app, !fold_left_app.
  set (p0 := {| OVS.bridges := []; OVS.current_bridge := None;
                OVS.current_ports := [] |}).
  destruct (passed_over_lines (header layout) p0 Hh) as [L1 E1].
  rewrite L1, E1.
  destruct (shown_bridges_parsed bs p0 H) as [L2 E2]. rewrite L2.
  destruct (passed_over_lines (footer layout)
              (fold_left parsed_line (flat_map (shown_bridge layout) bs) p0)
              Hf) as [L3 E3].
  rewrite L3, E3, E2. split; reflexivity.
Qed.

Lemma no_newline_append a b :
  no_newline (a ++ b) = no_newline a && no_newline b.
Proof. unfold no_newline. now rewrite list_of_append, forallb_app. Qed.

Lemma plain_not_newline c :
  plain c = true -> negb (Ascii.eqb c "010"%char) = true.
Proof.
  destruct c as [[] [] [] [] [] [] [] []]; vm_compute; congruence.
Qed.

Lemma shown_no_newline name :
  is_name name = true -> no_newline (shown layout name) = true.
Proof.
  intros H. destruct (is_name_inv _ H) as [_ P].
  assert (N : no_newline name = true).
  { unfold no_newline. eapply forallb_impl; [|exact P].
    apply plain_not_newline. }
  unfold shown. destruct (quoted layout name); [|exact N].
  now rewrite !no_newline_append, N.
Qed.

Lemma spaces_no_newline n : no_newline (spaces n) = true.
Proof.
  unfold no_newline, spaces. rewrite list_ascii_of_string_of_list_ascii.
  induction n as [|n IH]; [reflexivity|]. cbn [repeat forallb]. now rewrite IH.
Qed.

Lemma passed_over_no_newline lines :
  forallb passed_over lines = true -> forallb no_newline lines = true.
Proof.
  apply forallb_impl. unfold passed_over. intros x H.
  apply andb_true_iff in H. tauto.
Qed.

Lemma shown_ports_no_newline ports_ :
  forallb is_name ports_ = true ->
  forallb no_newline (flat_map (shown_port layout) ports_) = true.
Proof.
  destruct layout_ok as (_ & _ & _ & Hd).
  induction ports_ as [|port ports_ IH]; intros H; [reflexivity|].
  cbn [forallb] in H. apply andb_true_iff in H. destruct H as [Hp H].
  cbn [flat_map]. unfold shown_port at 1, port_line. cbn [app forallb].
  rewrite forallb_app, (IH H), (passed_over_no_newline _ (Hd port)).
  rewrite !no_newline_append, spaces_no_newline, (shown_no_newline _ Hp).
  reflexivity.
Qed.

Lemma show_lines_no_newline bs :
  well_named bs = true -> forallb no_newline (show_lines layout bs) = true.
Proof.
  destruct layout_ok as (Hh & Hf & Hd & _).
  intros H. unfold show_lines.
  rewrite !forallb_app, (passed_over_no_newline _ Hh),
    (passed_over_no_newline _ Hf), andb_true_r. cbn [andb].
  induction bs as [|b bs IH]; [reflexivity|].
  cbn [well_named forallb] in H. apply andb_true_iff in H.
  destruct H as [Hb H]. apply andb_true_iff in Hb. destruct Hb as [Hn Hp].
  cbn [flat_map]. unfold shown_bridge at 1, bridge_line. cbn [app forallb].
  rewrite !forallb_app, (IH H), (passed_over_no_newline _ (Hd (fst b))),
    (shown_ports_no_newline _ Hp).
  rewrite !no_newline_append, spaces_no_newline, (shown_no_newline _ Hn).
  reflexivity.
Qed.

Lemma show_parsed {G} bs (g : G) :
  well_named bs = true ->
  OVS._parse_ovs_show_output (show layout bs) g = (Ret (described bs), g).
Proof.
  intros H.
  destruct (show_lines_parsed bs H) as [L E].
  assert (S : existsb lone_keyword (Py.split_on (show layout bs) OVS.newline)
              = false /\
              fold_left parsed_line (Py.split_on (show layout bs) OVS.newline)
                {| OVS.bridges := []; OVS.current_bridge := None;
                   OVS.current_ports := [] |}
              = fold_left parsed_line (show_lines layout bs)
                  {| OVS.bridges := []; OVS.current_bridge := None;
                     OVS.current_ports := [] |}).
  { unfold show. destruct (show_lines layout bs) as [|l ls] eqn:Q.
    - split; reflexivity.
    - rewrite split_concat; [now split | discriminate |].
      rewrite <- Q. now apply show_lines_no_newline. }
  destruct S as [S1 S2].
  unfold OVS._parse_ovs_show_output, with_local.
  pose proof (parse_lines_run (Py.split_on (show layout bs) OVS.newline) g
                {| OVS.bridges := []; OVS.current_bridge := None;
                   OVS.current_ports := [] |}) as R.
  rewrite S1 in R. rewrite (bind_Ret _ _ _ _ _ R).
  unfold bind, update, local, ret. cbn [fst snd].
  now rewrite S2, E.
Qed.

End Printed.

Lemma dict_set_fresh {V} (d : dict V) k v :
  ~ In k (map fst d) -> dict_set d k v = d ++ [(k, v)].
Proof.
  induction d as [|[k' v'] d IH]; intros H; [reflexivity|].
  cbn in *. destruct (String.eqb k' k) eqn:E.
  - apply String.eqb_eq in E. tauto.
  - rewrite IH; [reflexivity | tauto].
Qed.

Lemma described_distinct bs : forall d,
  NoDup (map fst d ++ map fst bs) ->
  fold_left (fun d b => dict_set d (fst b) (OVS.bridge_info (fst b) (snd b)))
            bs d
  = d ++ map (fun b => (fst b, OVS.bridge_info (fst b) (snd b))) bs.
Proof.
  induction bs as [|b bs IH]; intros d H.
  - cbn. now rewrite app_nil_r.
  - cbn [fold_left map]. cbn [map] in H.
    rewrite dict_set_fresh.
    2:{ apply NoDup_remove_2 in H. intros I. apply H.
        apply in_or_app. now left. }
    rewrite IH.
    + now rewrite <- app_assoc.
    + rewrite map_app. cbn [map fst]. rewrite <- app_assoc. exact H.
Qed.

(** X7: parsing what the switch prints gives the bridges back.  For every
    layout of the output (names quoted or not, any lines before, after
    and under the bridges and ports that the parser passes over) and
    every list of bridges whose names and port names are plain words,
    [_parse_ovs_show_output] returns one entry per bridge name, with the
    ports of the bridge in their order and datapath type [system]; with
    distinct bridge names the entries are the bridges in their order,
    and [get_bridge_info] on a switch that prints this answers the
    bridge asked for. *)
Theorem show_round_trip {G} layout bs (g : G) :
  well_formed layout -> well_named bs = true ->
  OVS._parse_ovs_show_output (show layout bs) g = (Ret (described bs), g) /\
  (NoDup (map fst bs) ->
   described bs
   = map (fun b => (fst b, OVS.bridge_info (fst b) (snd b))) bs) /\
  (forall sw bridge_name log,
     OVS.run_at sw (List.length log) ["ovs-vsctl"; "show"]
       = (true, show layout bs) ->
     OVS.get_bridge_info sw bridge_name log
     = (Ret (dict_get (described bs) bridge_name),
        log ++ [OVS.Command ["ovs-vsctl"; "show"]])).
Proof.
  intros L N. split; [now apply show_parsed|]. split.
  - intros D. unfold described. now rewrite described_distinct.
  - intros sw bridge_name log A.
    unfold OVS.get_bridge_info.
    unfold bind at 1. rewrite run_step, A. cbn [fst snd negb].
    unfold bind. now rewrite (show_parsed layout L bs _ N).
Qed.

(** ** What a block keeps true of the object it fills *)

Lemma keeps_ret {G L A} (P : L -> Prop) (a : A) : keeps P (@ret (G * L) A a).
Proof. now intros s H. Qed.

Lemma keeps_raise {G L A} (P : L -> Prop) e : keeps P (@raise (G * L) A e).
Proof. now intros s H. Qed.

Lemma keeps_bind {G L A B} (P : L -> Prop) (m : MS (G * L) A)
    (k : A -> MS (G * L) B) :
  keeps P m -> (forall a, keeps P (k a)) -> keeps P (bind m k).
Proof.
  intros Hm Hk s H. unfold bind. specialize (Hm s H).
  destruct (m s) as [[a|e] s']; [|exact Hm]. now apply Hk.
Qed.

Lemma keeps_on_global {G L A} (P : L -> Prop) (m : MS G A) :
  keeps P (@on_global G L A m).
Proof.
  intros s H. unfold on_global. now destruct (m (fst s)).
Qed.

Lemma keeps_update {G L} (P : L -> Prop) (f : L -> L) :
  (forall l, P l -> P (f l)) -> keeps P (@update G L f).
Proof. intros Hf s H. now apply Hf. Qed.

Lemma keeps_local {G L} (P : L -> Prop) : keeps P (@local G L).
Proof. now intros s H. Qed.

Lemma keeps_for_each {G L A} (P : L -> Prop) (xs : list A)
    (body : A -> MS (G * L) unit) :
  (forall x, keeps P (body x)) -> keeps P (for_each xs body).
Proof.
  intros Hb. induction xs as [|x xs IH]; [apply keeps_ret|].
  cbn [for_each]. apply keeps_bind; [apply Hb | intros _; exact IH].
Qed.

Lemma keeps_try_except {G L A} (P : L -> Prop) (body : MS (G * L) A)
    (handler : Exn -> MS (G * L) A) :
  keeps P body -> (forall e, keeps P (handler e)) ->
  keeps P (try_except body handler).
Proof.
  intros Hb Hh s H. unfold try_except. specialize (Hb s H).
  destruct (body s) as [[a|e] s']; [exact Hb|]. now apply Hh.
Qed.

Lemma keeps_index {G L A} (P : L -> Prop) (xs : list A) i :
  keeps P (@Py.index (G * L) A xs i).
Proof.
  unfold Py.index. destruct (nth_error xs i);
    [apply keeps_ret | apply keeps_raise].
Qed.

Ltac keep :=
  repeat first
    [ apply keeps_ret | apply keeps_raise | apply keeps_local
    | apply keeps_on_global | apply keeps_index
    | apply keeps_bind; [|intros ?]
    | apply keeps_for_each; intros ?
    | apply keeps_try_except; [|intros ?]
    | match goal with
      | |- keeps _ (if ?b then _ else _) => destruct b
      | |- keeps _ (match ?o with Some _ => _ | None => _ end) => destruct o
      end ].

(** ** The switch monitor, command by command *)

Lemma of_the_daemon_set {V} (d : dict V) x :
  of_the_daemon d -> of_the_daemon (dict_set d "ovs_vswitchd" x).
Proof. intros [->|[y ->]]; right; eexists; reflexivity. Qed.

Lemma keeps_for_each_in {G L A} (P : L -> Prop) (xs : list A)
    (body : A -> MS (G * L) unit) :
  (forall x, In x xs -> keeps P (body x)) -> keeps P (for_each xs body).
Proof.
  induction xs as [|x xs IH]; intros Hb; [apply keeps_ret|].
  cbn [for_each]. apply keeps_bind.
  - apply Hb. now left.
  - intros _. apply IH. intros y Hy. apply Hb. now right.
Qed.

Lemma dict_set_entries {V} (P : string * V -> Prop) (d : dict V) k v :
  Forall P d -> P (k, v) -> Forall P (dict_set d k v).
Proof.
  intros Hd Hk. induction d as [|[k' v'] d IH]; cbn.
  - now constructor.
  - inversion Hd; subst.
    destruct (String.eqb k' k); constructor; auto.
Qed.

(** ** The topology *)

Section Topology.

Variable sw : OVS.Switch.
Variable json_loads : string -> Res Py.Json.

Lemma keeps_pure {G L A} (P : L -> Prop) (m : MS (G * L) A) :
  (forall s, snd (m s) = s) -> keeps P m.
Proof. intros H s Hs. now rewrite H. Qed.

Lemma get_pure {S} v key d (s : S) : snd (Py.get v key d s) = s.
Proof. now destruct v. Qed.

Lemma iter_pure {S} v (s : S) : snd (Py.iter v s) = s.
Proof. now destruct v. Qed.

Lemma len_pure {S} v (s : S) : snd (Py.len v s) = s.
Proof. now destruct v. Qed.

Lemma index_pure {S A} (xs : list A) i (s : S) : snd (Py.index xs i s) = s.
Proof. unfold Py.index. now destruct (nth_error xs i). Qed.

Lemma at_index_pure {S} v i (s : S) : snd (Py.at_index v i s) = s.
Proof.
  destruct v; try reflexivity; cbn.
  - now destruct (nth_error (Py.chars s0) i).
  - apply index_pure.
Qed.

Lemma hashable_pure {S} v (s : S) : snd (Py.hashable v s) = s.
Proof. now destruct v. Qed.

Lemma _analyze_vxlan_tunnels_keeps listed :
  keeps (collecting listed) (OVS._analyze_vxlan_tunnels sw json_loads).
Proof.
  unfold OVS._analyze_vxlan_tunnels.
  apply keeps_try_except; [|intros e; apply keeps_ret].
  apply keeps_bind; [apply keeps_on_global|]. intros answer.
  destruct (fst answer); [|apply keeps_ret].
  apply keeps_bind; [now apply keeps_pure|]. intros interfaces.
  apply keeps_bind; [apply keeps_pure, get_pure|]. intros data.
  apply keeps_bind; [apply keeps_pure, iter_pure|]. intros rows.
  apply keeps_for_each. intros interface.
  apply keeps_bind; [apply keeps_pure, len_pure|]. intros n.
  destruct (n >? 2); [|apply keeps_ret].
  apply keeps_bind; [apply keeps_pure, at_index_pure|]. intros kind.
  destruct (Py.eq_str kind "vxlan"); [|apply keeps_ret].
  apply keeps_bind; [apply keeps_pure, at_index_pure|]. intros tunnel.
  apply keeps_bind; [apply keeps_pure, hashable_pure|]. intros _.
  apply keeps_update. now intros l [? ?].
Qed.

Lemma discover_bridge_keeps listed bridge :
  In bridge listed ->
  keeps (collecting listed) (OVS.discover_bridge sw bridge).
Proof.
  intros Hin. unfold OVS.discover_bridge. keep.
  apply keeps_update. intros l [F N]. split; [|exact N].
  cbn [OVS.set_topology_bridge OVS.td_bridges].
  apply dict_set_entries; [exact F|]. now split.
Qed.

Lemma collecting_discovered listed t : collecting listed t -> discovered listed t.
Proof. intros [F N]. split; [exact F | now left]. Qed.

Lemma leads_bind {G L A B} (P Q : L -> Prop) (m : MS (G * L) A)
    (k : A -> MS (G * L) B) :
  (forall l, P l -> Q l) ->
  keeps P m -> (forall a, leads P Q (k a)) -> leads P Q (bind m k).
Proof.
  intros PQ Hm Hk s H. unfold bind. specialize (Hm s H).
  destruct (m s) as [[a|e] s']; [now apply Hk | now apply PQ].
Qed.

Lemma discover_body_leads listed (A : MS (OVS.Shell * OVS.TopologyData) unit) :
  keeps (collecting listed) A ->
  leads (collecting listed) (discovered listed)
    (A ;;
     OVS._analyze_vxlan_tunnels sw json_loads ;;
     t <- local ;;
     update (OVS.set_node_type
               (OVS._identify_node_roles (dict_keys (OVS.td_bridges t))))).
Proof.
  intros KA.
  apply leads_bind; [apply collecting_discovered | exact KA |]. intros _.
  apply leads_bind; [apply collecting_discovered
                    | apply _analyze_vxlan_tunnels_keeps |]. intros _.
  intros [g t] [F N]. unfold bind, local, update. cbn [fst snd].
  split; [exact F | now right].
Qed.

(** A function that fills an object inside [try] with a handler that
    swallows the exception, and returns the object. *)
Lemma with_local_try_returns {G L} (Q : L -> Prop) (l0 : L)
    (body : MS (G * L) unit) g :
  Q (snd (snd (body (g, l0)))) ->
  exists l g',
    with_local l0 (try_except body (fun e => ret tt) ;; local) g
      = (Ret l, g') /\ Q l.
Proof.
  intros H. unfold with_local, bind, try_except, local, ret.
  destruct (body (g, l0)) as [[[]|e] [g' l]]; cbn [fst snd] in *;
    (eexists; eexists; split; [reflexivity | exact H]).
Qed.

(** X9: [discover_cee_topology] returns on every switch, whatever the
    commands print and whatever [json.loads] raises.  Every bridge of the
    topology it returns is a line of the bridge list, stored with the
    role that [_identify_bridge_role] gives its name; and the node type,
    where one was set, is what [_identify_node_roles] derives from the
    bridges recorded. *)
Theorem discovered_topology_is_consistent log :
  exists t log',
    OVS.discover_cee_topology sw json_loads log = (Ret t, log') /\
    discovered
      (Py.split_on
         (Py.strip (snd (OVS.run_at sw (List.length log)
                           ["ovs-vsctl"; "list-br"])))
         OVS.newline) t.
Proof.
  set (listed := Py.split_on _ _).
  unfold OVS.discover_cee_topology.
  apply with_local_try_returns.
  unfold bind at 1, on_global at 1. rewrite run_step. cbn [fst snd].
  apply discover_body_leads.
  - fold listed. destruct (fst _); [|apply keeps_ret].
    apply keeps_for_each_in. intros bridge Hb.
    now apply discover_bridge_keeps.
  - split; [constructor | reflexivity].
Qed.

End Topology.

(** ** The switch monitor *)

Section Monitor.

Variable sw : OVS.Switch.
Variable int : string -> option Z.
Variable float : string -> option Float.

Lemma keeps_to_float {G L} (P : L -> Prop) s :
  keeps P (@OVS.to_float float (G * L) s).
Proof.
  unfold OVS.to_float. destruct (float s);
    [apply keeps_ret | apply keeps_raise].
Qed.

Lemma monitor_bridge_keeps now listed bridge :
  In bridge listed ->
  keeps (monitored now listed) (OVS.monitor_bridge sw int bridge).
Proof.
  intros Hin. unfold OVS.monitor_bridge. keep.
  - apply keeps_update. intros l (? & F & ? & ?).
    repeat split; try assumption.
    cbn [OVS.set_bridge_data OVS.pd_bridges].
    now apply dict_set_entries.
  - apply keeps_update. intros l (? & F & ? & ?).
    unfold OVS.set_port_stats.
    destruct (dict_get (OVS.pd_bridges l) bridge);
      repeat split; try assumption.
    cbn [OVS.set_bridge_data OVS.pd_bridges].
    now apply dict_set_entries.
Qed.

Lemma monitor_process_keeps now listed line :
  keeps (monitored now listed) (OVS.monitor_process float line).
Proof.
  unfold OVS.monitor_process. keep; try apply keeps_to_float.
  - apply keeps_update. intros l (? & ? & ? & ?).
    repeat split; try assumption. now apply of_the_daemon_set.
  - apply keeps_update. intros l (? & ? & ? & ?).
    repeat split; try assumption. now apply of_the_daemon_set.
Qed.

(** X8: in a process where [time] is not bound in the module,
    [monitor_ovs_performance] raises [NameError] before it runs any
    command.  Where it is bound the function returns, whatever the
    commands answer and print and whatever [float] raises: the data
    carry the time stamp read first, only bridges that are lines of the
    bridge list printed, and at most the key [ovs_vswitchd] under
    [cpu_usage] and [memory_usage]. *)
Theorem monitor_ovs_performance_outcome globals log :
  if contains globals "time"
  then
    exists p log',
      OVS.monitor_ovs_performance sw int float globals log = (Ret p, log') /\
      monitored
        (OVS.now_at sw (List.length log))
        (Py.split_on
           (Py.strip (snd (OVS.run_at sw (S (List.length log))
                             ["ovs-vsctl"; "list-br"])))
           OVS.newline) p
  else
    OVS.monitor_ovs_performance sw int float globals log
      = (Raise (NameError "time"), log).
Proof.
  destruct (contains globals "time") eqn:H.
  2:{ unfold OVS.monitor_ovs_performance.
      now rewrite (bind_Raise _ _ _ _ _ (global_name_unbound _ _ _ H)). }
  unfold OVS.monitor_ovs_performance.
  rewrite (bind_Ret _ _ _ _ _ (global_name_bound _ _ _ H)).
  unfold bind at 1, OVS.time_time at 1.
  set (now := OVS.now_at sw (List.length log)).
  set (listed := Py.split_on _ _).
  apply with_local_try_returns.
  unfold bind at 1, on_global at 1. rewrite run_step. cbn [fst snd].
  replace (List.length (log ++ [OVS.Clock])) with (S (List.length log))
    by (rewrite length_app; cbn; lia).
  fold listed.
  match goal with
  | |- monitored _ _ (snd (snd (?rest ?s))) =>
      assert (R : keeps (monitored now listed) rest)
  end.
  { apply keeps_bind.
    - destruct (fst _); [|apply keeps_ret].
      apply keeps_for_each_in. intros bridge Hb.
      now apply monitor_bridge_keeps.
    - intros _. keep. apply monitor_process_keeps. }
  apply R. cbn. repeat split; [constructor | now left | now left].
Qed.

End Monitor.

(** ** The default pool, volumes and attachments *)

Lemma get_default_storage_pool_inv w st r st' :
  CEEVxSDSVolumes.get_default_storage_pool w st = (Ret r, st') ->
  CEEVxSDSManager._update_cache w st = (Ret tt, st') /\
  r = default_of (or_empty (_storage_pools_cache st')).
Proof.
  unfold CEEVxSDSVolumes.get_default_storage_pool. intros H.
  inv_bind H. destruct a. inv_bind H. unfold get in E0.
  inversion E0; subst; clear E0.
  fold is_pool1 in H. unfold default_of.
  assert (K : st' = s0 /\
              r = match find is_pool1 (or_empty (_storage_pools_cache s0)) with
                  | Some pool => Some pool
                  | None => hd_error (or_empty (_storage_pools_cache s0))
                  end).
  { destruct (find is_pool1 (or_empty (_storage_pools_cache s0)));
      [now inversion H|].
    destruct (_storage_pools_cache s0) as [[|p ps]|]; now inversion H. }
  destruct K as [-> ->]. now split.
Qed.

(** X10: [get_default_storage_pool] answers a pool of the cache as
    [_update_cache] left it: the first pool named [pool1] wherever it
    stands in the list, the first pool of the list when none has that
    name, and [None] exactly when the cache is empty or was never
    filled. *)
Theorem default_pool_prefers_pool1 w st r st' :
  CEEVxSDSVolumes.get_default_storage_pool w st = (Ret r, st') ->
  let pools := or_empty (_storage_pools_cache st') in
  (r = None <-> pools = []) /\
  (forall pool,
     r = Some pool ->
     In pool pools /\
     ((exists before after,
         pools = before ++ pool :: after /\
         pool_name pool = "pool1" /\
         forall other, In other before -> pool_name other <> "pool1") \/
      ((forall other, In other pools -> pool_name other <> "pool1") /\
       hd_error pools = Some pool))).
Proof.
  intros H pools.
  destruct (get_default_storage_pool_inv _ _ _ _ H) as [_ ->].
  fold pools. unfold default_of. clearbody pools. clear.
  destruct (find is_pool1 pools) as [p|] eqn:F.
  - split.
    + split; [discriminate|]. intros ->. discriminate.
    + intros pool E. inversion E; subst pool; clear E.
      split; [now apply (find_some _ _ F)|]. left.
      induction pools as [|q pools IH]; [discriminate|].
      cbn in F. destruct (is_pool1 q) eqn:Q.
      * inversion F; subst q.
        exists [], pools. split; [reflexivity|].
        split; [now apply String.eqb_eq|]. intros other [].
      * destruct (IH F) as (before & after & -> & N & B).
        exists (q :: before), after. split; [reflexivity|].
        split; [exact N|]. intros other [<-|I]; [|now apply B].
        now apply String.eqb_neq.
  - split.
    + destruct pools; cbn; split; congruence.
    + intros pool E. split.
      * destruct pools as [|q pools]; [discriminate|].
        cbn in E. inversion E. now left.
      * right. split; [|exact E].
        intros other I. apply String.eqb_neq.
        apply (find_none _ _ F other I).
Qed.

(** X11: when [get_default_storage_pool] returns, [create_cee_volume]
    sends nothing and answers [None] if there is no default pool, and
    otherwise sends exactly one creation request, for the default pool,
    thin only when the type is the string [thin] and thick for every
    other type; the request does not depend on the flag [multiattach].
    The volume it answers, when it answers one, is a volume of the
    listing made after the creation whose id is the [id] of the
    gateway's answer. *)
Theorem create_cee_volume_asks_once
    w gw name size type multiattach st log pool st1 :
  CEEVxSDSVolumes.get_default_storage_pool w st = (Ret pool, st1) ->
  match pool with
  | None =>
      CEEVxSDSVolumes.create_cee_volume w gw name size type multiattach
        (st, log) = (Ret None, (st1, log))
  | Some p =>
      exists outcome st2,
        CEEVxSDSVolumes.create_cee_volume w gw name size type multiattach
          (st, log)
        = (outcome, (st2, log ++ [volume_request name size type p])) /\
        forall volume,
          outcome = Ret (Some volume) ->
          exists entries listed,
            volume_created_at gw (List.length log)
              (volume_request name size type p) = Py.JDict entries /\
            dict_get entries "id" = Some (Py.JStr (vol_id volume)) /\
            volumes_at w (List.length (trace st1)) = Ret listed /\
            In volume listed
  end.
Proof.
  intros D. unfold CEEVxSDSVolumes.create_cee_volume.
  rewrite (bind_Ret _ _ _ _ _ (on_global_run _ _ log _ _ D)).
  destruct pool as [p|]; [|reflexivity].
  fold (volume_request name size type p).
  set (request := volume_request name size type p).
  unfold bind at 1, gateway at 1. cbn [fst snd].
  set (result := volume_created_at gw (List.length log) request).
  destruct (Py.truthy result) eqn:T;
    [|eexists; eexists; split; [reflexivity | discriminate]].
  destruct result as [| | | | |items|entries] eqn:R;
    try (eexists; eexists; split; [reflexivity | discriminate]).
  unfold bind at 1. cbn [Py.get ret].
  destruct (dict_get entries "id") as [v|] eqn:I;
    [|eexists; eexists; split; [reflexivity | discriminate]].
  destruct (Py.truthy v) eqn:Tv;
    [|eexists; eexists; split; [reflexivity | discriminate]].
  unfold bind, on_global. rewrite external_run. cbn [fst snd].
  destruct (volumes_at w (List.length (trace st1))) as [listed|e] eqn:V;
    [|eexists; eexists; split; [reflexivity | discriminate]].
  eexists; eexists; split; [reflexivity|].
  intros volume E. unfold ret in E. inversion E as [F]; clear E.
  exists entries, listed. split; [reflexivity|].
  pose proof (find_some _ _ F) as [Hin Heq].
  destruct v; try discriminate. cbn in Heq. apply String.eqb_eq in Heq.
  subst. now repeat split.
Qed.



(** ** The performance report *)








Section Report.

Variable w : World.
Variable gw : Gateway.


Lemma floordiv_pure {S} v n (s : S) : snd (Py.floordiv v n s) = s.
Proof.
  destruct v; try reflexivity. cbn.
  now destruct (Py.float_of_int n) as [[]|].
Qed.


Lemma item_pure {S} v key (s : S) : snd (Py.item v key s) = s.
Proof.
  destruct v; try reflexivity. cbn. now destruct (dict_get entries key).
Qed.




End Report.

(** ** The gateway client *)

Lemma iter_any {S} v (s : S) : Py.iter v s = (fst (Py.iter v tt), s).
Proof. now destruct v. Qed.

Lemma add_sdc_run {G} node_data (g : G) nodes :
  VxSDSClient.add_sdc node_data (g, nodes)
    = (Ret tt, (g, nodes ++ sdc_of node_data)).
Proof.
  unfold VxSDSClient.add_sdc, try_except.
  destruct node_data as [| b | n | x | s | items | entries];
    try (cbn; rewrite app_nil_r; reflexivity).
  unfold sdc_of, Py.item.
  destruct (dict_get entries "id") as [id_|];
    [|cbn; rewrite app_nil_r; reflexivity].
  reflexivity.
Qed.

Lemma sdc_loop {G} entries : forall (g : G) nodes,
  for_each entries VxSDSClient.add_sdc (g, nodes)
    = (Ret tt, (g, nodes ++ flat_map sdc_of entries)).
Proof.
  induction entries as [|entry entries IH]; intros g nodes.
  - cbn. now rewrite app_nil_r.
  - cbn [for_each flat_map]. unfold bind. rewrite add_sdc_run, IH.
    now rewrite app_assoc.
Qed.

Lemma get_sdc_nodes_run server log entries :
  listing (VxSDSClient.respond server (List.length log) sdc_request) entries ->
  VxSDSClient.get_sdc_nodes server log
    = (Ret (flat_map sdc_of entries), log ++ [sdc_request]).
Proof.
  intros (d & R & I).
  unfold VxSDSClient.get_sdc_nodes, with_local.
  erewrite bind_Ret by reflexivity.
  unfold sdc_request, get_request in *. cbn [fst snd]. rewrite R.
  destruct d as [|entry d].
  - cbn in I. injection I as <-. reflexivity.
  - change (Py.truthy (Py.JDict (entry :: d))) with true. cbv iota.
    erewrite bind_Ret;
      [|erewrite bind_Ret by reflexivity;
        erewrite bind_Ret by (rewrite iter_any, I; reflexivity);
        apply sdc_loop].
    reflexivity.
Qed.

Lemma sdc_ids entries :
  map VxSDSClient.node_id (flat_map sdc_of entries) = flat_map id_of entries.
Proof.
  induction entries as [|entry entries IH]; [reflexivity|].
  cbn [flat_map]. rewrite map_app, IH. f_equal.
  destruct entry; try reflexivity. cbn.
  now destruct (dict_get entries0 "id").
Qed.

Lemma sdc_shape entries :
  Forall (fun node =>
            VxSDSClient.role node = "SDC" /\
            List.length (VxSDSClient.ip_addresses node) = 1%nat)
         (flat_map sdc_of entries).
Proof.
  induction entries as [|entry entries IH]; [constructor|].
  cbn [flat_map]. apply Forall_app. split; [|exact IH].
  destruct entry; try constructor. cbn.
  destruct (dict_get entries0 "id"); repeat constructor.
Qed.

(** X14: when the gateway answers the SDC listing with a dict,
    [get_sdc_nodes] makes that one request and returns: the nodes are
    those of the entries that are dicts with an ["id"], in their order,
    one node each with role ["SDC"] and a single address; an entry of
    any other shape is passed over and never makes the listing fail. *)
Theorem sdc_listing_skips_malformed_entries server log entries :
  listing (VxSDSClient.respond server (List.length log) sdc_request) entries ->
  exists nodes,
    VxSDSClient.get_sdc_nodes server log = (Ret nodes, log ++ [sdc_request]) /\
    map VxSDSClient.node_id nodes = flat_map id_of entries /\
    Forall (fun node =>
              VxSDSClient.role node = "SDC" /\
              List.length (VxSDSClient.ip_addresses node) = 1%nat) nodes.
Proof.
  intros L. exists (flat_map sdc_of entries).
  split; [now apply get_sdc_nodes_run|].
  split; [apply sdc_ids | apply sdc_shape].
Qed.

(** *** Listings in general *)

Lemma listing_run {L} server request
    (body : Py.Json -> MS (list VxSDSClient.Request * L) unit) (l0 : L)
    log entries :
  listing (VxSDSClient.respond server (List.length log) request) entries ->
  with_local l0
    (response <- on_global
       (VxSDSClient._make_request server (VxSDSClient.method request)
          (VxSDSClient.endpoint request) (VxSDSClient.data request)) ;;
     (if Py.truthy response
      then
        raw <- Py.get response "data" (Py.JList []) ;;
        items <- Py.iter raw ;;
        for_each items body
      else ret tt) ;;
     local) log
  = loop_outcome (for_each entries body (log ++ [request], l0)).
Proof.
  unfold loop_outcome.
  intros (d & R & I). destruct request as [m e dt]. cbn [VxSDSClient.method
    VxSDSClient.endpoint VxSDSClient.data].
  unfold with_local.
  erewrite bind_Ret by reflexivity.
  cbn [fst snd]. rewrite R.
  destruct d as [|entry d].
  - cbn in I. injection I as <-. reflexivity.
  - change (Py.truthy (Py.JDict (entry :: d))) with true. cbv iota.
    set (s1 := (log ++ _, l0)).
    assert (E : (raw <- Py.get (Py.JDict (entry :: d)) "data" (Py.JList []) ;;
                 items <- Py.iter raw ;; for_each items body) s1
                = for_each entries body s1).
    { erewrite bind_Ret by reflexivity.
      erewrite bind_Ret by (rewrite iter_any, I; reflexivity).
      reflexivity. }
    unfold bind at 1. rewrite E.
    destruct (for_each entries body s1) as [[[]|x] [log' l]]; reflexivity.
Qed.

Lemma lands_pure_bind {S A B} (m : MS S A) (k : A -> MS S B) s (Q : S -> Prop) :
  (forall s, snd (m s) = s) -> Q s -> (forall a, lands s Q (k a)) ->
  lands s Q (bind m k).
Proof.
  unfold lands, bind. intros Hp Hq Hk. specialize (Hp s).
  destruct (m s) as [[a|e] s']; cbn in Hp; subst; auto.
Qed.

Lemma lands_ret_bind {S A B} (a : A) (k : A -> MS S B) s (Q : S -> Prop) :
  lands s Q (k a) -> lands s Q (bind (ret a) k).
Proof. exact (fun H => H). Qed.

Lemma lands_update {G L} (s : G * L) (Q : G * L -> Prop) f :
  Q (fst s, f (snd s)) -> lands s Q (update f).
Proof. auto. Qed.

Lemma try_except_swallow {S} (body : MS S unit) handler s :
  (forall e s', handler e s' = (Ret tt, s')) ->
  try_except body handler s = (Ret tt, snd (body s)).
Proof.
  intros H. unfold try_except. destruct (body s) as [[[]|e] s']; [reflexivity|].
  apply H.
Qed.

(** *** The pools *)

Lemma add_pool_no_dict server entry s :
  is_dict entry = false ->
  VxSDSClient.add_pool server entry s = (Raise (Py.no_attribute entry "get"), s).
Proof. destruct entry; intros H; try discriminate; reflexivity. Qed.

Lemma pool_capacity_pure {S} stats (s : S) :
  snd (VxSDSClient.pool_capacity stats s) = s.
Proof.
  unfold VxSDSClient.pool_capacity.
  assert (P : forall A (m : MS S A) B (k : A -> MS S B) s,
             (forall s, snd (m s) = s) -> (forall a s, snd (k a s) = s) ->
             snd (bind m k s) = s).
  { intros A m B k s0 Hm Hk. unfold bind. specialize (Hm s0).
    destruct (m s0) as [[a|e] s']; cbn in Hm; subst; [apply Hk|reflexivity]. }
  apply P.
  - intros s0. destruct (Py.truthy stats); [apply get_pure|reflexivity].
  - intros stats_data s0. destruct (_ && _); [|reflexivity].
    repeat (apply P; [intros ?; first [apply item_pure | apply at_index_pure
                                      | apply get_pure | apply floordiv_pure]
                     |intros ? ?]).
    reflexivity.
Qed.

Lemma add_pool_dict server e log pools :
  exists pools',
    VxSDSClient.add_pool server (Py.JDict e) (log, pools)
      = (Ret tt,
         (log ++ map pool_statistics_request (id_of (Py.JDict e)), pools')) /\
    (pools' = pools \/
     exists p, pools' = pools ++ [p] /\
               [VxSDSClient.pool_id p] = id_of (Py.JDict e)).
Proof.
  unfold VxSDSClient.add_pool.
  rewrite try_except_swallow by reflexivity.
  cbn [id_of]. unfold Py.item at 1.
  destruct (dict_get e "id") as [id_|] eqn:E.
  - erewrite bind_Ret by reflexivity.
    erewrite bind_Ret by reflexivity.
    cbn [fst snd map].
    match goal with
    | |- exists pools', (_, snd (?m ?s)) = _ /\ _ =>
        assert (Q : lands s
                  (fun s' => fst s' = fst s /\
                     (snd s' = pools \/
                      exists p, snd s' = pools ++ [p] /\
                                [VxSDSClient.pool_id p] = [id_])) m)
    end.
    { apply lands_pure_bind;
        [apply pool_capacity_pure | split; [reflexivity | now left] |].
      intros sizes. unfold Py.item at 1. rewrite E. apply lands_ret_bind.
      repeat (apply lands_pure_bind;
              [intros ?; first [apply item_pure | apply get_pure]
              |split; [reflexivity | now left]
              |intros ?]).
      apply lands_update. cbn [fst snd]. split; [reflexivity|].
      right. eexists. split; reflexivity. }
    unfold lands in Q. destruct Q as [Q1 Q2].
    match type of Q1 with
    | fst (snd ?run) = _ => destruct run as [r [log' pools']]
    end.
    cbn [fst snd] in *. subst log'. exists pools'. split; [reflexivity|].
    exact Q2.
  - cbn. rewrite app_nil_r. eexists; split; [reflexivity | now left].
Qed.

Lemma get_storage_pools_run server protection_domain_id log entries :
  listing (VxSDSClient.respond server (List.length log)
             (pools_request protection_domain_id)) entries ->
  VxSDSClient.get_storage_pools server protection_domain_id log
    = loop_outcome (for_each entries (VxSDSClient.add_pool server)
                      (log ++ [pools_request protection_domain_id], [])).
Proof.
  exact (listing_run server (pools_request protection_domain_id)
           (VxSDSClient.add_pool server) [] log entries).
Qed.

Lemma pools_loop server : forall entries log pools,
  match for_each entries (VxSDSClient.add_pool server) (log, pools) with
  | (Ret _, (log', pools')) =>
      forallb is_dict entries = true /\
      log' = log ++ map pool_statistics_request (flat_map id_of entries) /\
      (forall p, In p pools' ->
         In p pools \/ In (VxSDSClient.pool_id p) (flat_map id_of entries))
  | (Raise e, (log', _)) =>
      exists before entry after,
        entries = before ++ entry :: after /\
        forallb is_dict before = true /\
        is_dict entry = false /\
        e = Py.no_attribute entry "get" /\
        log' = log ++ map pool_statistics_request (flat_map id_of before)
  end.
Proof.
  induction entries as [|entry entries IH]; intros log pools.
  - cbn. rewrite app_nil_r. auto.
  - cbn [for_each]. unfold bind.
    destruct (is_dict entry) eqn:D.
    + destruct entry; try discriminate.
      destruct (add_pool_dict server entries0 log pools) as (pools1 & R & P).
      rewrite R. specialize (IH (log ++ map pool_statistics_request
                                          (id_of (Py.JDict entries0))) pools1).
      destruct (for_each entries _ _) as [[[]|x] [log' pools']].
      * destruct IH as (F & L & I). split; [exact F|]. split.
        { rewrite L. cbn [flat_map]. now rewrite map_app, app_assoc. }
        intros p Hp. cbn [flat_map]. rewrite in_app_iff.
        destruct (I p Hp) as [H|H]; [|now right; right].
        destruct P as [->|(q & -> & Q)]; [now left|].
        apply in_app_iff in H. destruct H as [H|[<-|[]]]; [now left|].
        right. left. rewrite <- Q. now left.
      * destruct IH as (before & bad & after & -> & F & B & -> & L).
        exists (Py.JDict entries0 :: before), bad, after.
        repeat split; try assumption.
        rewrite L. cbn [flat_map]. now rewrite map_app, app_assoc.
    + rewrite add_pool_no_dict by exact D.
      exists [], entry, entries. cbn. rewrite app_nil_r. auto.
Qed.

(** X15: when the gateway answers the pool listing with a dict,
    [get_storage_pools] raises exactly when an entry of the listing is
    not a dict: its handler reads [pool_data.get] and the
    [AttributeError] of that leaves the function, after the statistics
    requests of the entries before it.  With dicts only it returns,
    having asked for the statistics of every entry that has an ["id"],
    in their order, and every pool it lists carries the ["id"] of such
    an entry. *)
Theorem pool_listing_fails_on_an_entry_that_is_no_dict
    server protection_domain_id log entries :
  listing (VxSDSClient.respond server (List.length log)
             (pools_request protection_domain_id)) entries ->
  match VxSDSClient.get_storage_pools server protection_domain_id log with
  | (Ret pools, log') =>
      forallb is_dict entries = true /\
      log' = log ++ pools_request protection_domain_id
                 :: map pool_statistics_request (flat_map id_of entries) /\
      (forall p, In p pools ->
         In (VxSDSClient.pool_id p) (flat_map id_of entries))
  | (Raise e, log') =>
      exists before entry after,
        entries = before ++ entry :: after /\
        forallb is_dict before = true /\
        is_dict entry = false /\
        e = Py.no_attribute entry "get" /\
        log' = log ++ pools_request protection_domain_id
                   :: map pool_statistics_request (flat_map id_of before)
  end.
Proof.
  intros L. rewrite (get_storage_pools_run _ _ _ _ L). unfold loop_outcome.
  pose proof (pools_loop server entries
                (log ++ [pools_request protection_domain_id]) []) as H.
  destruct (for_each entries _ _) as [[[]|x] [log' pools']]; cbn [fst snd].
  - destruct H as (F & -> & I). split; [exact F|]. split.
    + now rewrite <- app_assoc.
    + intros p Hp. destruct (I p Hp) as [[]|H]; exact H.
  - destruct H as (before & bad & after & -> & F & B & -> & ->).
    exists before, bad, after. repeat split; try assumption.
    now rewrite <- app_assoc.
Qed.

(** *** A body that is not JSON *)

Lemma get_volumes_run server storage_pool_id log entries :
  listing (VxSDSClient.respond server (List.length log)
             (volumes_request storage_pool_id)) entries ->
  VxSDSClient.get_volumes server storage_pool_id log
    = loop_outcome (for_each entries (VxSDSClient.add_volume server)
                      (log ++ [volumes_request storage_pool_id], [])).
Proof.
  exact (listing_run server (volumes_request storage_pool_id)
           (VxSDSClient.add_volume server) [] log entries).
Qed.

Lemma get_sds_nodes_run server log entries :
  listing (VxSDSClient.respond server (List.length log) sds_request) entries ->
  VxSDSClient.get_sds_nodes server log
    = loop_outcome (for_each entries VxSDSClient.add_sds
                      (log ++ [sds_request], [])).
Proof.
  exact (listing_run server sds_request VxSDSClient.add_sds [] log entries).
Qed.

Lemma chars_not_empty c s : Py.chars (String c s) <> [].
Proof.
  cbn [Py.chars]. destruct s as [|d s]; [discriminate|].
  destruct (Py.is_continuation d); [|discriminate].
  destruct (Py.chars (String d s)); discriminate.
Qed.

Lemma listing_text text :
  listing (text_body text) (map Py.JStr (Py.chars text)).
Proof. exists [("status", Py.JStr "success"); ("data", Py.JStr text)]. now split. Qed.

Lemma add_volume_no_dict server entry s :
  is_dict entry = false ->
  VxSDSClient.add_volume server entry s
    = (Raise (Py.no_attribute entry "get"), s).
Proof. destruct entry; intros H; try discriminate; reflexivity. Qed.

Lemma add_sds_no_dict {G} entry (s : G * list VxSDSClient.VxSDSNodeInfo) :
  is_dict entry = false -> VxSDSClient.add_sds entry s = (Ret tt, s).
Proof. destruct entry; intros H; try discriminate; reflexivity. Qed.

Lemma sds_loop_no_dict {G} entries :
  forall (s : G * list VxSDSClient.VxSDSNodeInfo),
  forallb (fun entry => negb (is_dict entry)) entries = true ->
  for_each entries VxSDSClient.add_sds s = (Ret tt, s).
Proof.
  induction entries as [|entry entries IH]; intros s H; [reflexivity|].
  cbn in H. apply andb_true_iff in H. destruct H as [D H].
  cbn [for_each]. unfold bind.
  rewrite add_sds_no_dict by now apply negb_true_iff. now apply IH.
Qed.

Lemma sdc_of_text cs : flat_map sdc_of (map Py.JStr cs) = [].
Proof. induction cs; [reflexivity | exact IHcs]. Qed.

Lemma no_dict_text cs :
  forallb (fun entry => negb (is_dict entry)) (map Py.JStr cs) = true.
Proof. induction cs; [reflexivity | exact IHcs]. Qed.

(** X16: when [_make_request] answers with the dict it builds for a body
    that is not JSON, whose ["data"] is the text of the body, and that
    text is not empty, [get_storage_pools] and [get_volumes] raise an
    [AttributeError] after their first request, while [get_sdc_nodes]
    and [get_sds_nodes] return the empty list after theirs. *)
Theorem body_that_is_not_json
    server log text protection_domain_id storage_pool_id :
  text <> "" ->
  (forall request,
     VxSDSClient.respond server (List.length log) request = text_body text) ->
  (exists e,
     VxSDSClient.get_storage_pools server protection_domain_id log
       = (Raise e, log ++ [pools_request protection_domain_id]) /\
     exn_type e = "AttributeError") /\
  (exists e,
     VxSDSClient.get_volumes server storage_pool_id log
       = (Raise e, log ++ [volumes_request storage_pool_id]) /\
     exn_type e = "AttributeError") /\
  VxSDSClient.get_sdc_nodes server log = (Ret [], log ++ [sdc_request]) /\
  VxSDSClient.get_sds_nodes server log = (Ret [], log ++ [sds_request]).
Proof.
  intros T R.
  assert (L : forall request,
            listing (VxSDSClient.respond server (List.length log) request)
                    (map Py.JStr (Py.chars text))).
  { intros request. rewrite R. apply listing_text. }
  destruct text as [|c text]; [congruence|].
  pose proof (chars_not_empty c text) as N.
  destruct (Py.chars (String c text)) as [|g gs] eqn:C; [congruence|].
  cbn [map] in L.
  split; [|split; [|split]].
  - exists (Py.no_attribute (Py.JStr g) "get"). split; [|reflexivity].
    rewrite (get_storage_pools_run _ _ _ _ (L _)). reflexivity.
  - exists (Py.no_attribute (Py.JStr g) "get"). split; [|reflexivity].
    rewrite (get_volumes_run _ _ _ _ (L _)). reflexivity.
  - rewrite (get_sdc_nodes_run server log _ (L _)).
    now rewrite <- (map_cons Py.JStr), sdc_of_text.
  - rewrite (get_sds_nodes_run _ _ _ (L _)).
    rewrite sds_loop_no_dict by apply (no_dict_text (g :: gs)).
    reflexivity.
Qed.

(** *** The statistics of the system *)

(** X17: [get_system_statistics] asks for the statistics exactly when the
    first answer is a dict whose ["data"] is a list that starts with a
    dict with an ["id"], and then returns the second answer whatever it
    is.  Otherwise it makes the one request and returns [None], or
    raises: its handler takes [KeyError] and [IndexError] only, and an
    answer of another shape leaves it as an [AttributeError] or a
    [TypeError]. *)
Theorem system_statistics_outcomes server log :
  let system_info :=
    VxSDSClient.respond server (List.length log) system_request in
  match first_system_id system_info with
  | Some system_id =>
      VxSDSClient.get_system_statistics server log
        = (Ret (VxSDSClient.respond server (S (List.length log))
                  (system_statistics_request system_id)),
           log ++ [system_request; system_statistics_request system_id])
  | None =>
      exists outcome,
        VxSDSClient.get_system_statistics server log
          = (outcome, log ++ [system_request]) /\
        match outcome with
        | Ret v => v = Py.JNone
        | Raise e =>
            exn_type e = "AttributeError" \/ exn_type e = "TypeError"
        end
  end.
Proof.
  cbv zeta.
  unfold VxSDSClient.get_system_statistics, VxSDSClient.get_system_info.
  erewrite bind_Ret by reflexivity.
  unfold system_request, system_statistics_request, get_request.
  destruct (VxSDSClient.respond server (List.length log) _)
    as [| b | n | x | s | items | d]; cbn [first_system_id].
  - eexists; split; [reflexivity|reflexivity].
  - destruct b; eexists; (split; [reflexivity|]); cbn; auto.
  - cbn [Py.truthy]. destruct (n =? 0); eexists; (split; [reflexivity|]);
      cbn; auto.
  - destruct (Py.truthy (Py.JFloat x)); eexists;
      (split; [reflexivity|]); cbn; auto.
  - cbn [Py.truthy]. destruct (String.eqb s ""); eexists;
      (split; [reflexivity|]); cbn; auto.
  - destruct items; eexists; (split; [reflexivity|]); cbn; auto.
  - destruct d as [|entry d].
    { eexists; split; reflexivity. }
    change (Py.truthy (Py.JDict (entry :: d))) with true. cbv iota.
    cbn [negb]. cbv iota.
    unfold try_except_of. erewrite (bind_Ret (Py.get _ _ _)) by reflexivity.
    destruct (dict_get (entry :: d) "data") as [systems|].
    + destruct systems as [| b | n | x | s | items | d'].
      * eexists; split; reflexivity.
      * destruct b; eexists; (split; [reflexivity|]); cbn; auto.
      * cbn [Py.truthy]. destruct (n =? 0); eexists;
          (split; [reflexivity|]); cbn; auto.
      * destruct (Py.truthy (Py.JFloat x)); eexists;
          (split; [reflexivity|]); cbn; auto.
      * cbn [Py.truthy]. destruct (String.eqb s "") eqn:Z.
        { eexists; split; reflexivity. }
        cbv iota. cbn [negb].
        destruct s as [|c s]; [discriminate|].
        pose proof (chars_not_empty c s) as N.
        unfold bind at 1, Py.at_index.
        destruct (Py.chars (String c s)) as [|g gs]; [congruence|].
        eexists; (split; [reflexivity|]). cbn. auto.
      * destruct items as [|first items].
        { eexists; split; reflexivity. }
        change (Py.truthy (Py.JList (first :: items))) with true. cbv iota.
        erewrite (bind_Ret (Py.at_index _ _)) by reflexivity.
        destruct first as [| b | n | x | s | items' | first];
          try (eexists; (split; [reflexivity|]); cbn; auto; fail).
        unfold bind at 1, Py.item.
        destruct (dict_get first "id") as [system_id|].
        { unfold ret, VxSDSClient._make_request. cbv beta iota.
          rewrite length_app, <- app_assoc. cbn [List.length app].
          now rewrite Nat.add_1_r. }
        eexists; split; reflexivity.
      * destruct d'; eexists; split; reflexivity.
    + eexists; split; reflexivity.
Qed.

(** ** Networks, tenants and security groups *)

(** X18: [create_ovs_network] returns on every input.  It reports
    [success] exactly when [create_network] answered an object and, with
    a CIDR, [create_subnet] did too; the result then carries that
    network and that subnet ([None] without CIDR).  In every other case
    it reports [error] without network and subnet: a network whose
    subnet could not be created has been asked for, and is not handed
    back. *)
Theorem create_ovs_network_outcome w name network_type cidr st :
  let n := List.length (trace st) in
  let network := conn_at w n (create_network name) in
  let subnet := conn_at w (S n) (create_subnet (name ++ "-subnet")) in
  exists r,
    CEEOpenStackClient.create_ovs_network w name network_type cidr st
      = (Ret r, after_calls (network_calls w name cidr n) st) /\
    (nr_status r = "success" <->
     answered network && (negb (truthy_str cidr) || answered subnet) = true) /\
    (nr_status r = "success" ->
     exists net sub,
       network = Ret (Some net) /\ nr_network r = Some (Some net) /\
       nr_subnet r = Some sub /\
       if truthy_str cidr then subnet = Ret sub /\ sub <> None
       else sub = None) /\
    (nr_status r <> "success" ->
     nr_status r = "error" /\ nr_network r = None /\ nr_subnet r = None).
Proof.
  cbv zeta.
  unfold CEEOpenStackClient.create_ovs_network, try_except, bind,
    CEEOpenStackClient.sdk, external, attr, ret, raise, network_calls,
    after_calls.
  cbn [fst snd].
  destruct (conn_at w (List.length (trace st)) (create_network name))
    as [[net|]|e]; destruct (truthy_str cidr);
    cbn [answered andb orb negb fold_left trace record_call];
    rewrite ?length_app; cbn [List.length]; rewrite ?Nat.add_1_r;
    try (destruct (conn_at w _ (create_subnet _)) as [[sub|]|e']);
    cbn [answered andb orb negb fold_left];
    (eexists; split; [reflexivity|]); cbn [nr_status nr_network nr_subnet];
    (split; [split; intros; (reflexivity || discriminate)|]);
    (split; [intros H; try discriminate; eauto 10|]);
    try (intros H; now repeat split);
    try (intros H; now contradiction H).
  - exists net, (Some sub). repeat split; congruence.
Qed.

(** X19: a tenant network that could not be created does not fail
    [create_cee_tenant_setup].  When no user is asked for, the project
    is created and [create_ovs_network] reports anything but [success],
    the setup is reported as [success] with the project as its only
    entry, and nothing is called after the network step: no router is
    asked for. *)
Theorem tenant_setup_succeeds_without_network
    w tenant_name tenant_description user_name user_password network_cidr
    create_router_flag st project network_result st' :
  truthy_str user_name && truthy_str user_password = false ->
  conn_at w (List.length (trace st)) (create_project tenant_name)
    = Ret project ->
  CEEOpenStackClient.create_ovs_network w (tenant_name ++ "-network") "vxlan"
    (Some network_cidr) (record_call (conn (create_project tenant_name)) st)
    = (Ret network_result, st') ->
  nr_status network_result <> "success" ->
  CEEOpenStackClient.create_cee_tenant_setup w tenant_name tenant_description
    user_name user_password network_cidr create_router_flag st
    = (Ret {| tsr_status := "success"; tsr_message := None;
              tenant_setup := Some [("project", project)] |}, st').
Proof.
  intros U P N S.
  assert (Q : String.eqb (nr_status network_result) "success" = false).
  { destruct (String.eqb _ _) eqn:Q; [|reflexivity].
    apply String.eqb_eq in Q. contradiction. }
  unfold CEEOpenStackClient.create_cee_tenant_setup, try_except.
  erewrite bind_Ret;
    [|unfold CEEOpenStackClient.sdk; rewrite external_run, P; reflexivity].
  rewrite U.
  erewrite bind_Ret by reflexivity.
  erewrite bind_Ret by exact N.
  rewrite Q. reflexivity.
Qed.

(** *** Security groups *)

Lemma keeps_method {G L} (P : L -> Prop) component name :
  keeps P (@method (G * L) component name).
Proof. unfold method. destruct component; [apply keeps_ret|apply keeps_raise]. Qed.

Lemma leads_update {G L} (P Q : L -> Prop) (f : L -> L) :
  (forall l, P l -> Q (f l)) -> leads P Q (@update G L f).
Proof. intros H s Hs. now apply H. Qed.

Lemma leads_update_bind {G L B} (P P' Q : L -> Prop) (f : L -> L)
    (k : unit -> MS (G * L) B) :
  (forall l, P l -> P' (f l)) -> (forall a, leads P' Q (k a)) ->
  leads P Q (bind (update f) k).
Proof. intros H Hk s Hs. unfold bind, update. apply Hk. now apply H. Qed.

Lemma leads_attr_bind {G L B} (P Q : L -> Prop) (o : Obj) name
    (k : Handle -> MS (G * L) B) :
  (forall l, P l -> Q l) ->
  (forall h, o = Some h -> leads P Q (k h)) ->
  leads P Q (bind (attr o name) k).
Proof.
  intros PQ Hk s Hs. destruct o as [h|]; [|now apply PQ].
  now apply (Hk h eq_refl).
Qed.

(** X20: [_create_tenant_security_groups] returns on every input, also
    without a client, and what it returns is a prefix of its plan: no
    group, or the web group, or the web group and the SSH group, each
    an object; the SSH group is never listed without the web group. *)
Theorem security_groups_are_a_prefix_of_the_plan w self project_id st :
  exists groups st',
    Orchestrator._create_tenant_security_groups w self project_id st
      = (Ret groups, st') /\
    group_prefix groups.
Proof.
  unfold Orchestrator._create_tenant_security_groups.
  apply with_local_try_returns.
  set (P0 := fun groups : dict Obj => groups = []).
  set (P1 := fun groups : dict Obj => exists web, groups = [("web", Some web)]).
  assert (Q0 : forall l, P0 l -> group_prefix l) by (intros l H; now left).
  assert (Q1 : forall l, P1 l -> group_prefix l)
    by (intros l H; right; now left).
  match goal with
  | |- group_prefix (snd (snd (?body ?s))) =>
      assert (B : leads P0 group_prefix body)
  end.
  { apply leads_bind; [exact Q0 | apply keeps_method |]. intros _.
    apply leads_bind; [exact Q0 | apply keeps_on_global |]. intros web_sg.
    apply leads_bind; [exact Q0 | apply keeps_method |]. intros _.
    apply leads_attr_bind; [exact Q0|]. intros web ->.
    apply leads_bind; [exact Q0 | apply keeps_on_global |]. intros _.
    apply leads_bind; [exact Q0 | apply keeps_method |]. intros _.
    apply leads_attr_bind; [exact Q0|]. intros web' _.
    apply leads_bind; [exact Q0 | apply keeps_on_global |]. intros _.
    apply (leads_update_bind P0 P1).
    { intros l ->. now exists web. }
    intros _.
    apply leads_bind; [exact Q1 | apply keeps_method |]. intros _.
    apply leads_bind; [exact Q1 | apply keeps_on_global |]. intros ssh_sg.
    apply leads_bind; [exact Q1 | apply keeps_method |]. intros _.
    apply leads_attr_bind; [exact Q1|]. intros ssh ->.
    apply leads_bind; [exact Q1 | apply keeps_on_global |]. intros _.
    apply leads_update. intros l [web0 ->]. right. right.
    now exists web0, ssh. }
  now apply B.
Qed.

(** *** The networking step of a tenant environment *)

Lemma keeps_bind_on_global {G L A B} (P : L -> Prop) (R : A -> Prop)
    (m : MS G A) (k : A -> MS (G * L) B) :
  (forall g a g', m g = (Ret a, g') -> R a) ->
  (forall a, R a -> keeps P (k a)) ->
  keeps P (bind (on_global m) k).
Proof.
  intros Hm Hk s H. unfold bind, on_global.
  destruct (m (fst s)) as [[a|e] g'] eqn:E; [|exact H].
  apply (Hk a (Hm _ _ _ E)). exact H.
Qed.

Lemma keeps_item {G L A} (P : L -> Prop) (entry : option A) key :
  keeps P (@item (G * L) A entry key).
Proof. destruct entry; [apply keeps_ret|apply keeps_raise]. Qed.

Lemma keeps_attr {G L} (P : L -> Prop) (o : Obj) name :
  keeps P (@attr (G * L) o name).
Proof. destruct o; [apply keeps_ret|apply keeps_raise]. Qed.

Lemma keeps_project_id_of {G L} (P : L -> Prop) setup :
  keeps P (@Orchestrator.project_id_of (G * L) setup).
Proof.
  unfold Orchestrator.project_id_of.
  apply keeps_bind; [apply keeps_item|]. intros results.
  apply keeps_bind; [apply keeps_item|]. intros project.
  apply keeps_attr.
Qed.

(** X21: [create_complete_tenant_environment] returns on every input and
    never reports a networking error among its errors, whatever became
    of the two networks of [_setup_tenant_networking]. *)
Theorem networking_failures_are_never_reported
    w self tenant_name tenant_description user_name user_password
    network_cidr storage_quota_gb st :
  exists r st',
    Orchestrator.create_complete_tenant_environment w self tenant_name
      tenant_description user_name user_password network_cidr
      storage_quota_gb st = (Ret r, st') /\
    no_networking_error r.
Proof.
  destruct (openstack_client self) eqn:C.
  - unfold Orchestrator.create_complete_tenant_environment, with_local.
    match goal with
    | |- context [try_except ?b ?h] =>
        match goal with
        | |- context [(st, ?l0)] =>
            assert (K : keeps no_networking_error (try_except b h));
            [|specialize (K (st, l0));
              unfold bind at 1;
              assert (R : exists s', try_except b h (st, l0) = (Ret tt, s'));
              [|destruct R as ([g l] & R); rewrite R in *;
                exists l, g; split; [reflexivity|];
                apply K; intros message []]]
        end
    end.
    + apply keeps_try_except.
      * apply keeps_bind; [apply keeps_method|]. intros _.
        apply keeps_bind; [apply keeps_on_global|]. intros setup.
        apply keeps_bind.
        { destruct (String.eqb _ _).
          - apply keeps_bind; [apply keeps_item|]. intros results.
            apply keeps_update. now intros l H.
          - apply keeps_bind;
              [|intros _; apply keeps_update; now intros l H].
            apply keeps_update.
            intros l H message I. cbn [errors append_error] in I.
            apply in_app_iff in I. destruct I as [I|[I|[]]];
              [exact (H _ I)|discriminate]. }
        intros _.
        apply keeps_bind.
        { destruct (String.eqb _ _); [|apply keeps_ret].
          apply keeps_bind; [apply keeps_project_id_of|]. intros p.
          apply keeps_ret. }
        intros project_id.
        apply (keeps_bind_on_global _ (fun net => tn_status net = "success")).
        { intros g net g' E.
          destruct (_setup_tenant_networking_returns w self C tenant_name
                      project_id g) as (net' & g'' & E' & S & _).
          congruence. }
        intros net S. rewrite S. change ("success" =? "success")%string with true.
        cbv iota.
        apply keeps_bind; [apply keeps_update; now intros l H|]. intros _.
        apply keeps_bind.
        { destruct (String.eqb _ _); [|apply keeps_ret].
          apply keeps_bind; [apply keeps_project_id_of|]. intros p.
          apply keeps_bind; [apply keeps_on_global|]. intros sg.
          apply keeps_update. now intros l H. }
        intros _. apply keeps_update. now intros l H.
      * intros e. apply keeps_bind; [apply keeps_update; now intros l H|].
        intros _. apply keeps_update.
        intros l H message I. cbn [errors append_error] in I.
        apply in_app_iff in I. destruct I as [I|[I|[]]];
          [exact (H _ I)|discriminate].
    + unfold try_except.
      match goal with
      | |- context [match ?run with _ => _ end] =>
          destruct run as [[[]|e] s']
      end; eexists; reflexivity.
  - destruct (missing_client_gives_error w self tenant_name
                tenant_description user_name user_password network_cidr
                storage_quota_gb st C) as (r & E & S & R).
    exists r, st. split; [exact E|].
    intros message I. rewrite R in I. destruct I as [I|[]]. discriminate.
Qed.

(** *** Quality of service *)


(** ** The further properties on concrete runs *)

Lemma missing_resource_creates_nothing_witness :
  CEEOpenStackClient.create_vm_with_vxsds_storage image_lab "vm" "cirros"
    "m1.small" "net" 20 "vxsds_thin_SSD" init_state
  = (Ret (error_result "Не найдены необходимые ресурсы"),
     after_calls [conn (find_image "cirros"); conn (find_flavor "m1.small");
                  conn (find_network "net")] init_state).
Proof.
  apply (missing_resource_creates_nothing image_lab "vm" "cirros" "m1.small"
           "net" 20 "vxsds_thin_SSD" init_state None (Some "id") (Some "id"));
    [reflexivity | reflexivity | reflexivity | left; reflexivity].
Defined.

Lemma provider_network_ignores_stp_answer_witness :
  exists ran,
    OVS.setup_cee_provider_network quiet_switch "br-physnet1" "eno1"
      "100:4000" [] = (Ret true, logged [] ran) /\
    OVS.setup_cee_provider_network stp_less_switch "br-physnet1" "eno1"
      "100:4000" [] = (Ret true, logged [] ran) /\
    fst (OVS.run_at stp_less_switch 4 (stp_command "br-physnet1")) = false.
Proof.
  destruct (provider_network_ignores_stp_answer quiet_switch stp_less_switch
              "br-physnet1" "eno1" "100:4000" [])
    as (ran & ok & E1 & E2 & _).
  - intros n command H. cbn.
    destruct (list_eq_dec string_dec command (stp_command "br-physnet1"));
      [contradiction | reflexivity].
  - exists ran.
    assert (O : ok = true).
    { rewrite setup_cee_provider_network_run in E1. now inversion E1. }
    subst ok. split; [exact E1|]. split; [exact E2|].
    unfold stp_less_switch. cbn [OVS.run_at].
    destruct (list_eq_dec string_dec (stp_command "br-physnet1")
                (stp_command "br-physnet1")); [reflexivity | congruence].
Defined.

Lemma show_round_trip_witness :
  well_formed lab_layout /\
  well_named lab_bridges = true /\
  OVS._parse_ovs_show_output (show lab_layout lab_bridges) tt
  = (Ret [("br-int", OVS.bridge_info "br-int" ["br-int"; "eth0"]);
          ("br-tun", OVS.bridge_info "br-tun" [])], tt).
Proof.
  assert (L : well_formed lab_layout).
  { split; [reflexivity|]. split; [reflexivity|].
    split; intros name; reflexivity. }
  split; [exact L|]. split; [reflexivity|].
  destruct (show_round_trip lab_layout lab_bridges tt L eq_refl)
    as (E & _ & _).
  rewrite E. reflexivity.
Defined.

Lemma default_pool_prefers_pool1_witness :
  exists st',
    CEEVxSDSVolumes.get_default_storage_pool two_pools_lab init_state
      = (Ret (Some (pool "pool1" 10 5)), st') /\
    In (pool "pool1" 10 5) (or_empty (_storage_pools_cache st')).
Proof.
  eexists. split; [reflexivity|].
  destruct (default_pool_prefers_pool1 two_pools_lab init_state
              (Some (pool "pool1" 10 5)) _ eq_refl) as [_ H].
  destruct (H _ eq_refl) as [I _]. exact I.
Defined.

Lemma create_cee_volume_asks_once_witness :
  exists outcome st2,
    CEEVxSDSVolumes.create_cee_volume two_pools_lab quiet_gateway "vol" 10
      "thick" true (init_state, [])
    = (outcome,
       (st2, [post_volume "vol" 10 "pool1" "ThickProvisioned"])).
Proof.
  destruct (create_cee_volume_asks_once two_pools_lab quiet_gateway "vol" 10
              "thick" true init_state [] (Some (pool "pool1" 10 5))
              (snd (CEEVxSDSVolumes.get_default_storage_pool two_pools_lab
                      init_state)) eq_refl)
    as (outcome & st2 & E & _).
  exists outcome, st2. exact E.
Defined.


Lemma listing_server_lists entries n request :
  listing (VxSDSClient.respond (listing_server entries) n request) entries.
Proof. exists [("data", Py.JList entries)]. split; reflexivity. Defined.

Lemma sdc_listing_skips_malformed_entries_witness :
  exists nodes,
    VxSDSClient.get_sdc_nodes (listing_server mixed_entries) []
      = (Ret nodes, [sdc_request]) /\
    map VxSDSClient.node_id nodes = [Py.JStr "a"; Py.JStr "c"].
Proof.
  destruct (sdc_listing_skips_malformed_entries (listing_server mixed_entries)
              [] mixed_entries (listing_server_lists _ _ _))
    as (nodes & E & I & _).
  exists nodes. split; [exact E | exact I].
Defined.

Lemma pool_listing_fails_on_an_entry_that_is_no_dict_witness :
  exists e log',
    VxSDSClient.get_storage_pools (listing_server mixed_entries) Py.JNone []
      = (Raise e, log') /\
    exn_type e = "AttributeError".
Proof.
  pose proof (pool_listing_fails_on_an_entry_that_is_no_dict
                (listing_server mixed_entries) Py.JNone [] mixed_entries
                (listing_server_lists _ _ _)) as H.
  destruct (VxSDSClient.get_storage_pools _ _ _) as [[pools|e] log'].
  - destruct H as [F _]. discriminate F.
  - exists e, log'. split; [reflexivity|].
    destruct H as (before & entry & after & _ & _ & _ & E & _).
    rewrite E. reflexivity.
Defined.

Lemma body_that_is_not_json_witness :
  (exists e,
     VxSDSClient.get_storage_pools page_server Py.JNone []
       = (Raise e, [pools_request Py.JNone]) /\
     exn_type e = "AttributeError") /\
  (exists e,
     VxSDSClient.get_volumes page_server Py.JNone []
       = (Raise e, [volumes_request Py.JNone]) /\
     exn_type e = "AttributeError") /\
  VxSDSClient.get_sdc_nodes page_server [] = (Ret [], [sdc_request]) /\
  VxSDSClient.get_sds_nodes page_server [] = (Ret [], [sds_request]).
Proof.
  apply (body_that_is_not_json page_server [] "<html>" Py.JNone Py.JNone);
    [discriminate | reflexivity].
Defined.

Lemma tenant_setup_succeeds_without_network_witness :
  CEEOpenStackClient.create_cee_tenant_setup netless_lab "acme" "" None None
    "192.168.100.0/24" true init_state
  = (Ret {| tsr_status := "success"; tsr_message := None;
            tenant_setup := Some [("project", Some "id")] |},
     after_calls [conn (create_project "acme");
                  conn (create_network "acme-network")] init_state).
Proof.
  apply (tenant_setup_succeeds_without_network netless_lab "acme" "" None None
           "192.168.100.0/24" true init_state (Some "id")
           {| nr_status := "error"; nr_message := Some "Conflict";
              nr_network := None; nr_subnet := None |});
    [reflexivity | reflexivity | reflexivity | discriminate].
Defined.
